(** * Content enrichment and analytics: a shallow embedding

    Embedding of the computational core of
    [openhands/data_processing/analytics_processor.py] and
    [openhands/data_processing/data_enricher.py].

    Conventions.
    - Where a result does not depend on rounding -- scores built from
      counts and fixed weights, comparisons of stored values, counting --
      Python numbers ([int] and [float]) are modelled by exact rationals
      [Q], and the A/B test, which takes square roots, in the real
      numbers [R].
    - Where it does -- the severity of an alert and the trend analysis --
      the code is embedded over an interface of Python's float operations
      with exceptions and with datetimes as Python has them (module
      [Runtime]), of which binary64 arithmetic and exact arithmetic are
      two implementations.
    - A Python [dict] is a [gmap]; a Python [list] is a [list].
    - Objects that the source mutates in place live in an explicit heap, so
      that aliasing between the caller's record and the working copy is
      visible (module [Enricher]). *)

From Stdlib Require Import ZArith QArith Qminmax Qabs Qreals Lia List String Ascii Bool Reals Psatz Sorted.
From Stdlib Require PrimFloat FloatOps SpecFloat.
From stdpp Require Import gmap strings list fin_maps pretty.

Local Open Scope Q_scope.

(** ** Python primitives shared by both modules *)

Module Py.

(** Heap locations (object identities). *)
Definition loc := positive.

(** Values stored in free-form mappings ([dict[str, Any]]). *)
Inductive pyval :=
  | VNone
  | VStr (s : string)
  | VNum (q : Q)
  | VRef (l : loc).

(** [sub in s] on strings. *)
Fixpoint contains (sub s : string) : bool :=
  String.prefix sub s ||
  match s with
  | EmptyString => false
  | String _ s' => contains sub s'
  end.

(** Truthiness of an optional string: [None] and [''] are falsy. *)
Definition truthy_str (o : option string) : bool :=
  match o with
  | Some s => negb (String.eqb s "")
  | None => false
  end.

(** Truthiness of an optional number: [None] and [0] are falsy. *)
Definition truthy_num (o : option Q) : bool :=
  match o with
  | Some q => negb (Qeq_bool q 0)
  | None => false
  end.

(** [len(s)] of an optional string that has been tested truthy. *)
Definition len_str (o : option string) : nat :=
  match o with
  | Some s => String.length s
  | None => O
  end.

(** Truthiness of containers: the empty list and the empty dict are falsy. *)
Definition truthy_list {A} (l : list A) : bool :=
  match l with
  | [] => false
  | _ => true
  end.

Definition truthy_dict {A} (d : gmap string A) : bool :=
  negb (Nat.eqb (size d) 0).

(** [sum(1 for x in xs if x)] *)
Definition count_true (bs : list bool) : nat :=
  List.length (List.filter (fun b => b) bs).

(** [l.append(x)] and [l.extend(l')] *)
Definition append {A} (l : list A) (x : A) : list A := l ++ [x].
Definition extend {A} (l l' : list A) : list A := l ++ l'.

Definition Qnat (n : nat) : Q := inject_Z (Z.of_nat n).

(** [sum(values)] and [statistics.mean(values)] (the callers guard the
    empty case, where Python raises). *)
Definition Qsum (l : list Q) : Q := fold_right Qplus 0 l.

Definition mean (l : list Q) : Q := Qsum l / Qnat (List.length l).

End Py.

Import Py.

(** ** The product record ([xml_processor.ProductData]) *)

Record ProductData := mkProduct {
  id : string;
  title : option string;
  description : option string;
  price : option Q;
  category : option string;
  brand : option string;
  sku : option string;
  attributes : gmap string pyval;
  images : list string
}.

(** Values that [getattr] can return for a field of the record. *)
Inductive attr_value :=
  | ANone
  | AStr (s : string)
  | ANum (q : Q)
  | ADict (d : gmap string pyval)
  | AList (l : list string).

Definition of_opt_str (o : option string) : attr_value :=
  match o with Some s => AStr s | None => ANone end.

Definition of_opt_num (o : option Q) : attr_value :=
  match o with Some q => ANum q | None => ANone end.

(** [getattr(product, name)]: [None] stands for a name that is not a field
    of the dataclass.  The attributes that every instance has besides its
    fields ([__doc__], [__class__], [__post_init__], [__dict__], ...) all
    have names that start with an underscore and are outside the model:
    what is stated about names that are not fields is stated for names
    without a leading underscore. *)
Definition getattr (product : ProductData) (name : string) : option attr_value :=
  if String.eqb name "id" then Some (AStr (id product))
  else if String.eqb name "title" then Some (of_opt_str (title product))
  else if String.eqb name "description" then Some (of_opt_str (description product))
  else if String.eqb name "price" then Some (of_opt_num (price product))
  else if String.eqb name "category" then Some (of_opt_str (category product))
  else if String.eqb name "brand" then Some (of_opt_str (brand product))
  else if String.eqb name "sku" then Some (of_opt_str (sku product))
  else if String.eqb name "attributes" then Some (ADict (attributes product))
  else if String.eqb name "images" then Some (AList (images product))
  else None.

(** Python truthiness. *)
Definition truthy (v : attr_value) : bool :=
  match v with
  | ANone => false
  | AStr s => negb (String.eqb s "")
  | ANum q => negb (Qeq_bool q 0)
  | ADict d => truthy_dict d
  | AList l => truthy_list l
  end.

(** ** Scoring functions of the analytics processor *)

Module Scoring.

(** [AnalyticsProcessor._calculate_content_quality_score] *)
Definition _calculate_content_quality_score (product : ProductData) : Q :=
  let score := 0 in
  (* Title quality (25 points) *)
  let score :=
    if truthy_str (title product) then
      let title_length := len_str (title product) in
      if (30 <=? title_length)%nat && (title_length <=? 60)%nat then score + 25
      else if ((20 <=? title_length)%nat && (title_length <? 30)%nat)
              || ((60 <? title_length)%nat && (title_length <=? 80)%nat)
           then score + 20
      else score + 10
    else score in
  (* Description quality (35 points) *)
  let score :=
    if truthy_str (description product) then
      let desc_length := len_str (description product) in
      if (150 <=? desc_length)%nat && (desc_length <=? 500)%nat then score + 35
      else if ((100 <=? desc_length)%nat && (desc_length <? 150)%nat)
              || ((500 <? desc_length)%nat && (desc_length <=? 1000)%nat)
           then score + 25
      else score + 15
    else score in
  (* Attributes richness (20 points) *)
  let score :=
    if truthy_dict (attributes product) then
      let attr_count := size (attributes product) in
      score + Qmin 20 (Qnat attr_count * 2)
    else score in
  (* Images presence (10 points) *)
  let score :=
    if truthy_list (images product) then
      let image_count := List.length (images product) in
      score + Qmin 10 (Qnat image_count * 2)
    else score in
  (* Basic information completeness (10 points) *)
  let basic_fields :=
    [truthy_num (price product); truthy_str (category product);
     truthy_str (brand product)] in
  let complete_fields := count_true basic_fields in
  let score :=
    score + (Qnat complete_fields / Qnat (List.length basic_fields)) * 10 in
  Qmin 100 score.

(** [getattr(product, field_name)] followed by a truthiness test; the
    callers only pass names of fields. *)
Definition field_truthy (product : ProductData) (field_name : string) : bool :=
  match getattr product field_name with
  | Some v => truthy v
  | None => false
  end.

Definition required_fields : list string :=
  ["id"; "title"; "description"; "price"; "category"]%string.

Definition optional_fields : list string :=
  ["brand"; "sku"; "images"; "attributes"]%string.

(** [AnalyticsProcessor._calculate_completeness_score]: the three branches
    under [if value:] all add 7.5, since [value] is already known truthy. *)
Definition _calculate_completeness_score (product : ProductData) : Q :=
  let score := 0 in
  (* Required fields (70% of score) *)
  let score :=
    fold_left
      (fun score field_name =>
         if field_truthy product field_name then score + 14 else score)
      required_fields score in
  (* Optional fields (30% of score) *)
  let score :=
    fold_left
      (fun score field_name =>
         if field_truthy product field_name then
           if String.eqb field_name "attributes"
              && truthy_dict (attributes product) then score + 7.5
           else if String.eqb field_name "images"
                   && truthy_list (images product) then score + 7.5
           else score + 7.5
         else score)
      optional_fields score in
  Qmin 100 score.

(** [AnalyticsProcessor._calculate_seo_score] *)
Definition _calculate_seo_score (product : ProductData) : Q :=
  let score := 0 in
  (* Title SEO (30 points) *)
  let score :=
    if truthy_str (title product) then
      let title_length := len_str (title product) in
      if (30 <=? title_length)%nat && (title_length <=? 60)%nat then score + 30
      else if (20 <=? title_length)%nat && (title_length <=? 80)%nat then score + 20
      else score + 10
    else score in
  (* Description SEO (30 points) *)
  let score :=
    if truthy_str (description product) then
      let desc_length := len_str (description product) in
      if (150 <=? desc_length)%nat && (desc_length <=? 300)%nat then score + 30
      else if (100 <=? desc_length)%nat && (desc_length <=? 500)%nat then score + 20
      else score + 10
    else score in
  (* Category presence (20 points) *)
  let score := if truthy_str (category product) then score + 20 else score in
  (* Brand presence (10 points) *)
  let score := if truthy_str (brand product) then score + 10 else score in
  (* Meta attributes (10 points) *)
  let score :=
    if truthy_dict (attributes product) then
      let seo_attrs := ["meta_description"; "keywords"; "tags"]%string in
      let seo_attr_count :=
        count_true
          (List.map (fun attr => bool_decide (is_Some (attributes product !! attr)))
                    seo_attrs) in
      score + (Qnat seo_attr_count / Qnat (List.length seo_attrs)) * 10
    else score in
  Qmin 100 score.

(** [AnalyticsProcessor._create_distribution]: the result is a dict from
    bucket label to count. *)
Definition bump (key : string) (buckets : gmap string nat) : gmap string nat :=
  <[key := S (default O (buckets !! key))]> buckets.

Definition zero_buckets : gmap string nat :=
  <["81-100" := O]> (<["61-80" := O]> (<["41-60" := O]>
    (<["21-40" := O]> (<["0-20" := O]> ∅))))%string.

Definition _create_distribution (values : list Q) : gmap string nat :=
  match values with
  | [] => ∅
  | _ =>
      fold_left
        (fun buckets value =>
           if Qle_bool value 20 then bump "0-20" buckets
           else if Qle_bool value 40 then bump "21-40" buckets
           else if Qle_bool value 60 then bump "41-60" buckets
           else if Qle_bool value 80 then bump "61-80" buckets
           else bump "81-100" buckets)
        values zero_buckets
  end.

(** The number of values counted by a bucket mapping. *)
Definition bucket_total (buckets : gmap string nat) : nat :=
  map_fold (fun _ n acc => (n + acc)%nat) O buckets.

(** [w] points if [b] holds: the contribution of one field to a score. *)
Definition pts (b : bool) (w : Q) : Q := if b then w else 0.

End Scoring.

(** ** The analytics processor *)

Module Analytics.

Import Scoring.

(** [MetricData]; a [datetime] is a count of microseconds. *)
Record MetricData := mkMetric {
  metric_name : string;
  value : Q;
  timestamp : Z;
  dimensions : gmap string pyval;
  metadata : gmap string pyval
}.

(** The alert dictionary built by [_check_alerts]. *)
Record AlertEvent := mkAlert {
  alert_timestamp : Z;
  alert_metric_name : string;
  alert_value : Q;
  alert_threshold : Q;
  alert_severity : string
}.

(** [AnalyticsConfig]: [alert_thresholds] is the dict's [items()] in
    insertion order, which is the order the alert loop visits them in. *)
Record AnalyticsConfig := mkConfig {
  retention_days : Z;
  alert_thresholds : list (string * Q)
}.

(** The mutable state of an [AnalyticsProcessor] instance. *)
Record Processor := mkProcessor {
  config : AnalyticsConfig;
  metrics_store : gmap string (list MetricData);
  alert_history : list AlertEvent
}.

Definition Qltb (x y : Q) : bool := negb (Qle_bool y x).

(** The body of the [for threshold_name, threshold_value in ...] loop. *)
Definition check_one (now : Z) (metric : MetricData)
    (history : list AlertEvent) (entry : string * Q) : list AlertEvent :=
  let '(threshold_name, threshold_value) := entry in
  if contains threshold_name (metric_name metric) then
    if Qltb (value metric) threshold_value then
      let alert :=
        {| alert_timestamp := now;
           alert_metric_name := metric_name metric;
           alert_value := value metric;
           alert_threshold := threshold_value;
           alert_severity :=
             if Qltb (threshold_value * 0.8) (value metric)
             then "warning"%string else "critical"%string |} in
      append history alert
    else history
  else history.

(** [AnalyticsProcessor._check_alerts] *)
Definition _check_alerts (now : Z) (self : Processor) (metric : MetricData)
    : Processor :=
  match alert_thresholds (config self) with
  | [] => self
  | thresholds =>
      {| config := config self;
         metrics_store := metrics_store self;
         alert_history :=
           fold_left (check_one now metric) thresholds (alert_history self) |}
  end.

(** [AnalyticsProcessor.track_metric] *)
Definition track_metric (now : Z) (self : Processor) (metric : MetricData)
    : Processor :=
  let self :=
    {| config := config self;
       metrics_store :=
         <[metric_name metric :=
             append (default [] (metrics_store self !! metric_name metric)) metric]>
           (metrics_store self);
       alert_history := alert_history self |} in
  _check_alerts now self metric.


(** [range(n)] *)
Definition range (n : nat) : list nat := seq 0 n.

Definition microseconds_per_day : Z := 86400000000.

(** *** Cohort analysis *)

(** [str(value)] is the identity on strings; Python's formatting of numbers
    and its [repr] of containers are an interface of the model. *)
Class Repr := {
  str_num : Q -> string;
  str_dict : gmap string pyval -> string;
  str_list : list string -> string
}.

Section Cohort.

Context `{Repr}.

Definition str (v : attr_value) : string :=
  match v with
  | ANone => "None"
  | AStr s => s
  | ANum q => str_num q
  | ADict d => str_dict d
  | AList l => str_list l
  end.

(** [getattr(product, cohort_field, 'Unknown')] *)
Definition cohort_value (cohort_field : string) (product : ProductData)
    : attr_value :=
  default (AStr "Unknown") (getattr product cohort_field).

(** The body of the grouping loop:
    [if cohort_value: cohorts[str(cohort_value)].append(product)]. *)
Definition group_step (cohort_field : string)
    (cohorts : gmap string (list ProductData)) (product : ProductData)
    : gmap string (list ProductData) :=
  let v := cohort_value cohort_field product in
  if truthy v then
    <[str v := append (default [] (cohorts !! str v)) product]> cohorts
  else cohorts.

Definition group_products (cohort_field : string) (products : list ProductData)
    : gmap string (list ProductData) :=
  fold_left (group_step cohort_field) products ∅.

Record PriceStats := mkPriceStats {
  price_min : Q;
  price_max : Q;
  price_average : Q;
  price_median : Q
}.

Record CohortMetrics := mkCohortMetrics {
  cohort_size : nat;
  percentage : Q;
  avg_quality_score : Q;
  avg_completeness : Q;
  price_stats : option PriceStats;
  attribute_diversity : nat
}.

Fixpoint insert_sorted (x : Q) (l : list Q) : list Q :=
  match l with
  | [] => [x]
  | y :: l' => if Qle_bool x y then x :: l else y :: insert_sorted x l'
  end.

Definition sorted (l : list Q) : list Q := fold_right insert_sorted [] l.

(** [statistics.median] *)
Definition median (l : list Q) : Q :=
  let data := sorted l in
  let n := List.length data in
  if Nat.odd n then nth (n / 2) data 0
  else (nth (n / 2 - 1) data 0 + nth (n / 2) data 0) / 2.

Definition list_min (l : list Q) : Q := fold_right Qmin (nth 0 l 0) l.
Definition list_max (l : list Q) : Q := fold_right Qmax (nth 0 l 0) l.

(** The per-cohort body of [perform_cohort_analysis]. *)
Definition cohort_metrics (products cohort_products : list ProductData)
    : CohortMetrics :=
  let size_ := List.length cohort_products in
  let percentage_ := (Qnat size_ / Qnat (List.length products)) * 100 in
  match cohort_products with
  | [] => mkCohortMetrics size_ percentage_ 0 0 None O
  | _ =>
      let quality_scores :=
        List.map _calculate_content_quality_score cohort_products in
      let completeness_scores :=
        List.map _calculate_completeness_score cohort_products in
      let prices :=
        omap (fun p => if truthy_num (price p) then price p else None)
             cohort_products in
      let stats :=
        match prices with
        | [] => None
        | _ => Some (mkPriceStats (list_min prices) (list_max prices)
                                  (mean prices) (median prices))
        end in
      let all_attributes : gset string :=
        fold_left
          (fun acc product =>
             if truthy_dict (attributes product)
             then acc ∪ dom (attributes product) else acc)
          cohort_products ∅ in
      mkCohortMetrics size_ percentage_ (mean quality_scores)
                      (mean completeness_scores) stats (size all_attributes)
  end.

Record CohortAnalysis := mkCohortAnalysis {
  cohort_field_name : string;
  total_cohorts : nat;
  total_products : nat;
  cohort_details : gmap string CohortMetrics
}.

(** [AnalyticsProcessor.perform_cohort_analysis] *)
Definition perform_cohort_analysis (products : list ProductData)
    (cohort_field : string) : CohortAnalysis :=
  let cohorts := group_products cohort_field products in
  {| cohort_field_name := cohort_field;
     total_cohorts := size cohorts;
     total_products := List.length products;
     cohort_details := cohort_metrics products <$> cohorts |}.

End Cohort.

(** *** A/B test analysis (real arithmetic) *)

Section ABTest.

Local Open Scope R_scope.

Definition Rsum (l : list R) : R := fold_right Rplus 0 l.

(** [statistics.mean] *)
Definition Rmean (l : list R) : R := Rsum l / INR (List.length l).

(** [statistics.stdev]: the sample standard deviation. *)
Definition Rvariance (l : list R) : R :=
  Rsum (List.map (fun x => (x - Rmean l) ^ 2) l) / INR (List.length l - 1).

Definition Rstdev (l : list R) : R := sqrt (Rvariance l).

Definition Rlist_min (l : list R) : R := fold_right Rmin (nth 0 l 0) l.
Definition Rlist_max (l : list R) : R := fold_right Rmax (nth 0 l 0) l.

Record GroupStats := mkGroupStats {
  sample_size : nat;
  group_mean : R;
  std_dev : R;
  group_min : R;
  group_max : R
}.

Record ABAnalysis := mkABAnalysis {
  test_name : string;
  control_group : GroupStats;
  variant_group : GroupStats;
  improvement_percentage : R;
  is_significant : bool;
  confidence_level : R;
  recommendation : string;
  t_statistic : R;
  pooled_std_dev : R;
  effect_size : R
}.

(** [AnalyticsProcessor.generate_ab_test_analysis]; the [inl] case is the
    mapping [{'error': ...}]. *)
Definition generate_ab_test_analysis (name : string)
    (control_metrics variant_metrics : list MetricData) : string + ABAnalysis :=
  let control_values := List.map (fun m => Q2R (value m)) control_metrics in
  let variant_values := List.map (fun m => Q2R (value m)) variant_metrics in
  if negb (truthy_list control_values) || negb (truthy_list variant_values) then
    inl "Insufficient data for A/B test analysis"%string
  else
    let control_mean := Rmean control_values in
    let variant_mean := Rmean variant_values in
    let improvement :=
      if Req_dec_T control_mean 0 then 0
      else ((variant_mean - control_mean) / control_mean) * 100 in
    let control_std :=
      if (1 <? List.length control_values)%nat then Rstdev control_values else 0 in
    let variant_std :=
      if (1 <? List.length variant_values)%nat then Rstdev variant_values else 0 in
    let pooled_std := sqrt ((control_std ^ 2 + variant_std ^ 2) / 2) in
    let t_stat :=
      if Rlt_dec 0 pooled_std then
        Rabs (variant_mean - control_mean)
        / (pooled_std
           * sqrt (2 / INR (Nat.min (List.length control_values)
                                    (List.length variant_values))))
      else 0 in
    let significant := if Rlt_dec 1.96 t_stat then true else false in
    let confidence := Rmin 99.9 (Rmax 50 (50 + t_stat * 10)) in
    inr {| test_name := name;
           control_group :=
             mkGroupStats (List.length control_values) control_mean control_std
                          (Rlist_min control_values) (Rlist_max control_values);
           variant_group :=
             mkGroupStats (List.length variant_values) variant_mean variant_std
                          (Rlist_min variant_values) (Rlist_max variant_values);
           improvement_percentage := improvement;
           is_significant := significant;
           confidence_level := confidence;
           recommendation :=
             if significant && (if Rlt_dec 0 improvement then true else false)
             then "Deploy variant"%string else "Keep control"%string;
           t_statistic := t_stat;
           pooled_std_dev := pooled_std;
           effect_size :=
             if Rlt_dec 0 pooled_std
             then Rabs (variant_mean - control_mean) / pooled_std else 0 |}.

End ABTest.

End Analytics.

(** ** The data enricher *)

Module Enricher.

(** [EnrichmentType] and its [.value]. *)
Inductive EnrichmentType :=
  | SEO_OPTIMIZATION
  | CONTENT_GENERATION
  | AMAZON_OPTIMIZATION
  | MULTI_CHANNEL
  | QUALITY_SCORING
  | TRANSLATION
  | CATEGORIZATION.

Global Instance EnrichmentType_eq_dec : EqDecision EnrichmentType.
Proof. solve_decision. Defined.

Definition type_value (t : EnrichmentType) : string :=
  match t with
  | SEO_OPTIMIZATION => "seo_optimization"
  | CONTENT_GENERATION => "content_generation"
  | AMAZON_OPTIMIZATION => "amazon_optimization"
  | MULTI_CHANNEL => "multi_channel"
  | QUALITY_SCORING => "quality_scoring"
  | TRANSLATION => "translation"
  | CATEGORIZATION => "categorization"
  end.

Record EnrichmentConfig := mkEnrichmentConfig {
  enabled_types : list EnrichmentType;
  target_channels : list string;
  languages : list string;
  seo_keywords : list string;
  brand_guidelines : gmap string pyval;
  quality_thresholds : gmap string Q
}.

(** *** The heap

    A [ProductData] instance is an object whose [attributes] and [images]
    fields hold references to a dict object and a list object ([None] is
    Python's [None]). *)
Record ProductObj := mkProductObj {
  o_id : string;
  o_title : option string;
  o_description : option string;
  o_price : option Q;
  o_category : option string;
  o_brand : option string;
  o_sku : option string;
  o_attributes : option loc;
  o_images : option loc
}.

Inductive obj :=
  | OProduct (p : ProductObj)
  | ODict (d : gmap string pyval)
  | OList (l : list string).

Abbreviation heap := (gmap loc obj).

(** The record stored at [l], read through its references. *)
Definition read_product (h : heap) (l : loc) : option ProductData :=
  match h !! l with
  | Some (OProduct p) =>
      let attrs :=
        match o_attributes p with
        | Some d => match h !! d with Some (ODict m) => Some m | _ => None end
        | None => Some ∅
        end in
      let imgs :=
        match o_images p with
        | Some i => match h !! i with Some (OList l) => Some l | _ => None end
        | None => Some []
        end in
      match attrs, imgs with
      | Some m, Some l =>
          Some (mkProduct (o_id p) (o_title p) (o_description p) (o_price p)
                          (o_category p) (o_brand p) (o_sku p) m l)
      | _, _ => None
      end
  | _ => None
  end.

(** *** Computations that mutate the heap and may raise

    A raised exception carries its message; heap writes made before the
    exception persist. *)
Definition exn := string.

Definition M (A : Type) : Type := heap -> heap * (exn + A).

Global Instance M_ret : MRet M := fun A a h => (h, inr a).

Global Instance M_bind : MBind M := fun A B k m h =>
  match m h with
  | (h', inr a) => k a h'
  | (h', inl e) => (h', inl e)
  end.

Global Instance M_throw : MThrow exn M := fun A e h => (h, inl e).

(** [try: body except Exception as e: handler(e)] *)
Definition try_except {A} (body : M A) (handler : exn -> M A) : M A :=
  fun h =>
    match body h with
    | (h', inl e) => handler e h'
    | r => r
    end.

(** A call to a method that only reads. *)
Definition call {A} (f : heap -> loc -> exn + A) (l : loc) : M A :=
  fun h => (h, f h l).

Definition lift {A} (r : exn + A) : M A := fun h => (h, r).

(** Object construction. *)
Definition alloc (o : obj) : M loc :=
  fun h => let l := fresh (dom h) in (<[l := o]> h, inr l).

Definition get_product (l : loc) : M ProductObj :=
  fun h =>
    match h !! l with
    | Some (OProduct p) => (h, inr p)
    | _ => (h, inl "AttributeError"%string)
    end.

Definition get_dict (l : loc) : M (gmap string pyval) :=
  fun h =>
    match h !! l with
    | Some (ODict m) => (h, inr m)
    | _ => (h, inl "AttributeError"%string)
    end.

Definition get_list (l : loc) : M (list string) :=
  fun h =>
    match h !! l with
    | Some (OList m) => (h, inr m)
    | _ => (h, inl "AttributeError"%string)
    end.

(** A consistent snapshot of the record at [l]. *)
Definition snapshot (l : loc) : M ProductData :=
  fun h =>
    match read_product h l with
    | Some p => (h, inr p)
    | None => (h, inl "AttributeError"%string)
    end.

(** [product.f = v] *)
Definition set_field (l : loc) (f : ProductObj -> ProductObj) : M unit :=
  fun h =>
    match h !! l with
    | Some (OProduct p) => (<[l := OProduct (f p)]> h, inr tt)
    | _ => (h, inl "AttributeError"%string)
    end.

Definition with_title (s : option string) (p : ProductObj) : ProductObj :=
  mkProductObj (o_id p) s (o_description p) (o_price p) (o_category p)
               (o_brand p) (o_sku p) (o_attributes p) (o_images p).

Definition with_description (s : option string) (p : ProductObj) : ProductObj :=
  mkProductObj (o_id p) (o_title p) s (o_price p) (o_category p)
               (o_brand p) (o_sku p) (o_attributes p) (o_images p).

Definition with_category (s : option string) (p : ProductObj) : ProductObj :=
  mkProductObj (o_id p) (o_title p) (o_description p) (o_price p) s
               (o_brand p) (o_sku p) (o_attributes p) (o_images p).

Definition with_attributes (d : option loc) (p : ProductObj) : ProductObj :=
  mkProductObj (o_id p) (o_title p) (o_description p) (o_price p) (o_category p)
               (o_brand p) (o_sku p) d (o_images p).

Definition set_title (l : loc) (s : option string) : M unit :=
  set_field l (with_title s).

Definition set_description (l : loc) (s : option string) : M unit :=
  set_field l (with_description s).

Definition set_category (l : loc) (s : option string) : M unit :=
  set_field l (with_category s).

(** [product.attributes], dereferenced. *)
Definition get_attributes (l : loc) : M (option (gmap string pyval)) :=
  p ← get_product l;
  match o_attributes p with
  | Some d => m ← get_dict d; mret (Some m)
  | None => mret None
  end.

Definition truthy_opt_dict (o : option (gmap string pyval)) : bool :=
  match o with
  | Some m => truthy_dict m
  | None => false
  end.

(** [if not product.attributes: product.attributes = {}] *)
Definition ensure_attributes (l : loc) : M unit :=
  attrs ← get_attributes l;
  if negb (truthy_opt_dict attrs) then
    d ← alloc (ODict ∅);
    set_field l (with_attributes (Some d))
  else mret tt.

(** [key in product.attributes] *)
Definition attributes_contains (l : loc) (key : string) : M bool :=
  attrs ← get_attributes l;
  match attrs with
  | Some m => mret (bool_decide (is_Some (m !! key)))
  | None => mthrow "TypeError"%string
  end.

(** [d[key] = v] on the dict object at [d]. *)
Definition dict_setitem (d : loc) (key : string) (v : pyval) : M unit :=
  fun h =>
    match h !! d with
    | Some (ODict m) => (<[d := ODict (<[key := v]> m)]> h, inr tt)
    | _ => (h, inl "TypeError"%string)
    end.

(** [product.attributes[key] = v] *)
Definition setitem (l : loc) (key : string) (v : pyval) : M unit :=
  p ← get_product l;
  match o_attributes p with
  | Some d => dict_setitem d key v
  | None => mthrow "TypeError"%string
  end.

(** [product.attributes.update(items)] *)
Fixpoint update_attributes (l : loc) (items : list (string * string)) : M unit :=
  match items with
  | [] => mret tt
  | (k, v) :: items' => setitem l k (VStr v);; update_attributes l items'
  end.

Fixpoint foldM {A B} (f : A -> B -> M A) (a : A) (l : list B) : M A :=
  match l with
  | [] => mret a
  | b :: l' => a' ← f a b; foldM f a' l'
  end.

(** *** Scores computed by the enricher itself *)

(** [DataEnricher._calculate_content_completeness] *)
Definition _calculate_content_completeness (product : ProductData) : Q :=
  let score := 0 in
  (* Required fields (70% of score) *)
  let score :=
    fold_left
      (fun score field =>
         if Scoring.field_truthy product field then score + 14 else score)
      Scoring.required_fields score in
  (* Optional fields (30% of score) *)
  let score :=
    fold_left
      (fun score field =>
         if Scoring.field_truthy product field then
           if String.eqb field "attributes" then
             score + Qmin 7.5 (Qnat (size (attributes product)) * 1.5)
           else if String.eqb field "images" then
             score + Qmin 7.5 (Qnat (List.length (images product)) * 2.5)
           else score + 7.5
         else score)
      Scoring.optional_fields score in
  Qmin 100 score.

(** [DataEnricher._calculate_enrichment_score] *)
Definition _calculate_enrichment_score (original enriched : ProductData)
    (metrics : gmap string Q) : Q :=
  let quality_scores :=
    List.map snd
      (List.filter (fun kv => contains "quality" (fst kv) || contains "score" (fst kv))
                   (map_to_list metrics)) in
  let base_score :=
    match quality_scores with
    | [] => 50
    | _ => Qsum quality_scores / Qnat (List.length quality_scores)
    end in
  let improvement_bonus := 0 in
  let improvement_bonus :=
    if bool_decide (title enriched ≠ title original)
    then improvement_bonus + 10 else improvement_bonus in
  let improvement_bonus :=
    if bool_decide (description enriched ≠ description original)
    then improvement_bonus + 15 else improvement_bonus in
  let original_attrs := size (attributes original) in
  let enriched_attrs := size (attributes enriched) in
  let improvement_bonus :=
    if (original_attrs <? enriched_attrs)%nat
    then improvement_bonus + Qmin 20 (Qnat (enriched_attrs - original_attrs) * 2)
    else improvement_bonus in
  let improvement_bonus :=
    if bool_decide (category enriched ≠ category original)
       && truthy_str (category enriched)
    then improvement_bonus + 5 else improvement_bonus in
  Qmin 100 (base_score + improvement_bonus).

(** *** The enrichment passes

    The text heuristics called by the passes (keyword extraction, title
    rewriting, sentence templates, sub-scores) only read their arguments;
    they form the interface [Heuristics], each free to raise.  What the
    passes do with the results -- the assignments to the working record --
    is transcribed from the source. *)

Definition lower_ascii (c : ascii) : ascii :=
  let n := nat_of_ascii c in
  if (65 <=? n)%nat && (n <=? 90)%nat then ascii_of_nat (n + 32) else c.

(** [str.lower] on the ASCII range. *)
Fixpoint lower (s : string) : string :=
  match s with
  | EmptyString => EmptyString
  | String c s' => String (lower_ascii c) (lower s')
  end.

(** [DataEnricher._generate_category_attributes], as the list of items of
    the returned dict. *)
Definition _generate_category_attributes (category : option string)
    : list (string * string) :=
  if negb (truthy_str category) then []
  else
    let category_lower := lower (default ""%string category) in
    if contains "electronics" category_lower then
      [("power_source", "Electric"); ("warranty", "1 Year");
       ("connectivity", "Wired/Wireless")]%string
    else if contains "clothing" category_lower then
      [("care_instructions", "Machine Washable"); ("fit", "Regular");
       ("season", "All Season")]%string
    else if contains "home" category_lower then
      [("room_type", "Living Room"); ("assembly_required", "Yes");
       ("style", "Modern")]%string
    else [].

Record EnrichmentResult := mkEnrichmentResult {
  original_product : loc;
  enriched_product : loc;
  enrichment_score : Q;
  applied_enrichments : list EnrichmentType;
  quality_metrics : gmap string Q;
  suggestions : list string
}.

(** The local variables of the loop in [enrich_product]. *)
Record LoopState := mkLoopState {
  enriched : loc;
  loop_applied : list EnrichmentType;
  loop_metrics : gmap string Q;
  loop_suggestions : list string
}.

Definition PassResult : Type := loc * gmap string Q * list string.

Class Heuristics := {
  (* Text heuristics of [DataEnricher]. *)
  _optimize_title_for_seo :
    string -> option string -> option string -> exn + string;
  _optimize_description_for_seo :
    string -> option string -> option string -> exn + string;
  _calculate_keyword_density : string -> exn + Q;
  _calculate_readability_score : string -> exn + Q;
  _generate_meta_description : heap -> loc -> exn + option string;
  _generate_enhanced_title : heap -> loc -> exn + option string;
  _generate_enhanced_description : heap -> loc -> exn + option string;
  _generate_bullet_points : heap -> loc -> exn + option string;
  _generate_usage_scenarios : heap -> loc -> exn + option string;
  _calculate_content_richness : heap -> loc -> exn + Q;
  _optimize_title_for_amazon : heap -> loc -> exn + string;
  _generate_amazon_bullet_points : heap -> loc -> exn + option string;
  _generate_amazon_search_terms : heap -> loc -> exn + option string;
  _calculate_amazon_a9_score : heap -> loc -> exn + Q;
  _score_title_quality : string -> exn + Q;
  _score_description_quality : string -> exn + Q;
  _check_brand_compliance : heap -> loc -> exn + Q;
  _suggest_category : heap -> loc -> exn + option string;
  _calculate_category_confidence : heap -> loc -> exn + Q;
  (* Python built-ins: [datetime.now().isoformat()], [len(s.split(sep))],
     [str(n)] and the [{:.1f}] format. *)
  now_isoformat : string;
  split_count : string -> string -> nat;
  str_of_nat : nat -> string;
  format_1f : Q -> string
}.

Section Passes.

Context `{Heuristics}.

Variable config : EnrichmentConfig.

Local Open Scope string_scope.

Definition str_or (o : option string) (d : string) : string :=
  if truthy_str o then default "" o else d.

(** [DataEnricher._apply_seo_optimization] *)
Definition _apply_seo_optimization (product : loc) : M PassResult :=
  let metrics : gmap string Q := ∅ in
  let suggestions : list string := [] in
  (* Optimize title for SEO *)
  p ← get_product product;
  '(metrics, suggestions) ←
    (if truthy_str (o_title p) then
       let original_title := default "" (o_title p) in
       new_title ← lift (_optimize_title_for_seo original_title
                                                 (o_category p) (o_brand p));
       set_title product (Some new_title);;
       let metrics := <["title_length" := Qnat (String.length new_title)]> metrics in
       density ← lift (_calculate_keyword_density new_title);
       let metrics := <["title_keyword_density" := density]> metrics in
       let suggestions :=
         if negb (String.eqb new_title original_title) then
           append suggestions ("Optimized title for SEO: '" ++ original_title
                           ++ "' → '" ++ new_title ++ "'")
         else suggestions in
       mret (metrics, suggestions)
     else mret (metrics, suggestions));
  (* Optimize description for SEO *)
  p ← get_product product;
  '(metrics, suggestions) ←
    (if truthy_str (o_description p) then
       let original_desc := default "" (o_description p) in
       new_desc ← lift (_optimize_description_for_seo original_desc
                                                      (o_title p) (o_category p));
       set_description product (Some new_desc);;
       let metrics :=
         <["description_length" := Qnat (String.length new_desc)]> metrics in
       density ← lift (_calculate_keyword_density new_desc);
       let metrics := <["description_keyword_density" := density]> metrics in
       readability ← lift (_calculate_readability_score new_desc);
       let metrics := <["readability_score" := readability]> metrics in
       let suggestions :=
         if negb (String.eqb new_desc original_desc) then
           append suggestions
           ("Enhanced description with SEO keywords and improved readability")
         else suggestions in
       mret (metrics, suggestions)
     else mret (metrics, suggestions));
  (* Add SEO-friendly attributes *)
  ensure_attributes product;;
  (* Generate meta description *)
  has_meta ← attributes_contains product "meta_description";
  '(metrics, suggestions) ←
    (if negb has_meta then
       meta_desc ← call _generate_meta_description product;
       if truthy_str meta_desc then
         let meta_desc := default "" meta_desc in
         setitem product "meta_description" (VStr meta_desc);;
         mret (<["meta_description_length" := Qnat (String.length meta_desc)]> metrics,
               append suggestions ("Generated SEO meta description"))
       else mret (metrics, suggestions)
     else mret (metrics, suggestions));
  (* Add structured data attributes *)
  setitem product "seo_optimized" (VStr "true");;
  setitem product "seo_timestamp" (VStr now_isoformat);;
  mret (product, metrics, suggestions).

(** [DataEnricher._apply_content_generation] *)
Definition _apply_content_generation (product : loc) : M PassResult :=
  let metrics : gmap string Q := ∅ in
  let suggestions : list string := [] in
  (* Enhance title if missing or too short *)
  p ← get_product product;
  suggestions ←
    (if negb (truthy_str (o_title p)) || (len_str (o_title p) <? 20)%nat then
       enhanced_title ← call _generate_enhanced_title product;
       if truthy_str enhanced_title then
         let original_title := str_or (o_title p) "No title" in
         set_title product enhanced_title;;
         mret (append suggestions
               ("Generated enhanced title: '" ++ original_title ++ "' → '"
                   ++ default "" enhanced_title ++ "'"))
       else mret suggestions
     else mret suggestions);
  (* Enhance description if missing or too short *)
  p ← get_product product;
  suggestions ←
    (if negb (truthy_str (o_description p))
        || (len_str (o_description p) <? 100)%nat then
       enhanced_desc ← call _generate_enhanced_description product;
       if truthy_str enhanced_desc then
         set_description product enhanced_desc;;
         mret (append suggestions ("Generated comprehensive product description"))
       else mret suggestions
     else mret suggestions);
  (* Generate bullet points for key features *)
  bullet_points ← call _generate_bullet_points product;
  '(metrics, suggestions) ←
    (if truthy_str bullet_points then
       let bullet_points := default "" bullet_points in
       ensure_attributes product;;
       setitem product "key_features" (VStr bullet_points);;
       mret (<["feature_count" := Qnat (split_count "\n" bullet_points)]> metrics,
             append suggestions
             ("Generated " ++ str_of_nat (split_count "•" bullet_points - 1)
                 ++ " key feature bullet points"))
     else mret (metrics, suggestions));
  (* Generate usage scenarios *)
  usage_scenarios ← call _generate_usage_scenarios product;
  suggestions ←
    (if truthy_str usage_scenarios then
       setitem product "usage_scenarios" (VStr (default "" usage_scenarios));;
       mret (append suggestions ("Generated product usage scenarios"))
     else mret suggestions);
  (* Calculate content richness metrics *)
  richness ← call _calculate_content_richness product;
  let metrics := <["content_richness" := richness]> metrics in
  view ← snapshot product;
  let metrics :=
    <["content_completeness" := _calculate_content_completeness view]> metrics in
  mret (product, metrics, suggestions).

(** [DataEnricher._apply_amazon_optimization] *)
Definition _apply_amazon_optimization (product : loc) : M PassResult :=
  let metrics : gmap string Q := ∅ in
  let suggestions : list string := [] in
  (* Optimize title for Amazon (150-200 characters) *)
  p ← get_product product;
  '(metrics, suggestions) ←
    (if truthy_str (o_title p) then
       amazon_title ← call _optimize_title_for_amazon product;
       if bool_decide (Some amazon_title ≠ o_title p) then
         ensure_attributes product;;
         setitem product "amazon_title" (VStr amazon_title);;
         mret (<["amazon_title_length" := Qnat (String.length amazon_title)]> metrics,
               append suggestions ("Created Amazon-optimized title"))
       else mret (metrics, suggestions)
     else mret (metrics, suggestions));
  (* Generate Amazon bullet points (5 key features) *)
  amazon_bullets ← call _generate_amazon_bullet_points product;
  '(metrics, suggestions) ←
    (if truthy_str amazon_bullets then
       let amazon_bullets := default "" amazon_bullets in
       ensure_attributes product;;
       setitem product "amazon_bullet_points" (VStr amazon_bullets);;
       mret (<["amazon_bullet_count" := Qnat (split_count "\n" amazon_bullets)]> metrics,
             append suggestions ("Generated Amazon-style bullet points"))
     else mret (metrics, suggestions));
  (* Generate backend search terms for Amazon *)
  search_terms ← call _generate_amazon_search_terms product;
  suggestions ←
    (if truthy_str search_terms then
       setitem product "amazon_search_terms" (VStr (default "" search_terms));;
       mret (append suggestions ("Generated Amazon backend search terms"))
     else mret suggestions);
  (* Optimize for Amazon A9 algorithm *)
  a9_score ← call _calculate_amazon_a9_score product;
  let metrics := <["amazon_a9_score" := a9_score]> metrics in
  let suggestions :=
    if Analytics.Qltb a9_score 70 then
      append suggestions
      ("Amazon A9 optimization score: " ++ format_1f a9_score
          ++ "/100 - Consider improving keywords and content")
    else suggestions in
  mret (product, metrics, suggestions).

(** [DataEnricher._apply_quality_scoring]; it returns no record. *)
Definition _apply_quality_scoring (product : loc)
    : M (gmap string Q * list string) :=
  let metrics : gmap string Q := ∅ in
  let suggestions : list string := [] in
  p ← get_product product;
  (* Title quality metrics *)
  '(metrics, suggestions) ←
    (if truthy_str (o_title p) then
       title_quality ← lift (_score_title_quality (default "" (o_title p)));
       mret (<["title_quality" := title_quality]> metrics,
             if Analytics.Qltb title_quality 70 then
               append suggestions
               ("Title quality could be improved - consider adding more descriptive keywords")
             else suggestions)
     else mret (metrics, suggestions));
  (* Description quality metrics *)
  '(metrics, suggestions) ←
    (if truthy_str (o_description p) then
       description_quality ←
         lift (_score_description_quality (default "" (o_description p)));
       mret (<["description_quality" := description_quality]> metrics,
             if Analytics.Qltb description_quality 70 then
               append suggestions
               ("Description quality could be improved - add more details and benefits")
             else suggestions)
     else mret (metrics, suggestions));
  (* Content completeness *)
  view ← snapshot product;
  let completeness_score := _calculate_content_completeness view in
  let metrics := <["completeness_score" := completeness_score]> metrics in
  let suggestions :=
    if Analytics.Qltb completeness_score 80 then
      append suggestions
      ("Product information is incomplete - consider adding missing fields")
    else suggestions in
  (* Brand compliance *)
  '(metrics, suggestions) ←
    (if truthy_dict (brand_guidelines config) then
       brand_compliance ← call _check_brand_compliance product;
       mret (<["brand_compliance" := brand_compliance]> metrics,
             if Analytics.Qltb brand_compliance 90 then
               append suggestions ("Content may not fully comply with brand guidelines")
             else suggestions)
     else mret (metrics, suggestions));
  (* Overall quality score *)
  let quality_scores := List.map snd (map_to_list metrics) in
  let metrics :=
    <["overall_quality" :=
        match quality_scores with
        | [] => 0%Q
        | _ => (Qsum quality_scores / Qnat (List.length quality_scores))%Q
        end]> metrics in
  mret (metrics, suggestions).

(** [DataEnricher._apply_categorization] *)
Definition _apply_categorization (product : loc) : M PassResult :=
  let metrics : gmap string Q := ∅ in
  let suggestions : list string := [] in
  (* Auto-categorize based on title and description *)
  p ← get_product product;
  suggestions ←
    (if negb (truthy_str (o_category p))
        || bool_decide (lower (default "" (o_category p))
                        ∈ ["uncategorized"; "other"; "misc"]) then
       suggested_category ← call _suggest_category product;
       if truthy_str suggested_category then
         let original_category := str_or (o_category p) "No category" in
         set_category product suggested_category;;
         mret (append suggestions
               ("Suggested category: '" ++ original_category ++ "' → '"
                   ++ default "" suggested_category ++ "'"))
       else mret suggestions
     else mret suggestions);
  (* Add category confidence score *)
  p ← get_product product;
  '(metrics, suggestions) ←
    (if truthy_str (o_category p) then
       confidence ← call _calculate_category_confidence product;
       mret (<["category_confidence" := confidence]> metrics,
             if Analytics.Qltb confidence 70 then
               append suggestions
               ("Category confidence is low (" ++ format_1f confidence
                   ++ "%) - manual review recommended")
             else suggestions)
     else mret (metrics, suggestions));
  (* Generate category-specific attributes *)
  let category_attrs := _generate_category_attributes (o_category p) in
  suggestions ←
    (if truthy_list category_attrs then
       ensure_attributes product;;
       update_attributes product category_attrs;;
       mret (append suggestions
             ("Added " ++ str_of_nat (List.length category_attrs)
                 ++ " category-specific attributes"))
     else mret suggestions);
  mret (product, metrics, suggestions).

(** *** The orchestrator *)

(** The statements after a pass has returned: rebind [enriched], update
    the metrics dict, extend the suggestions, record the pass. *)
Definition record_pass (st : LoopState) (t : EnrichmentType) (r : PassResult)
    : LoopState :=
  let '(enriched', metrics, pass_suggestions) := r in
  {| enriched := enriched';
     loop_applied := append (loop_applied st) (t);
     loop_metrics := metrics ∪ loop_metrics st;
     loop_suggestions := extend (loop_suggestions st) pass_suggestions |}.

(** The [if]/[elif] chain inside the [try]. *)
Definition dispatch (st : LoopState) (enrichment_type : EnrichmentType)
    : M LoopState :=
  match enrichment_type with
  | SEO_OPTIMIZATION =>
      r ← _apply_seo_optimization (enriched st);
      mret (record_pass st enrichment_type r)
  | CONTENT_GENERATION =>
      r ← _apply_content_generation (enriched st);
      mret (record_pass st enrichment_type r)
  | AMAZON_OPTIMIZATION =>
      r ← _apply_amazon_optimization (enriched st);
      mret (record_pass st enrichment_type r)
  | QUALITY_SCORING =>
      '(metrics, quality_suggestions) ← _apply_quality_scoring (enriched st);
      mret (record_pass st enrichment_type
                        (enriched st, metrics, quality_suggestions))
  | CATEGORIZATION =>
      r ← _apply_categorization (enriched st);
      mret (record_pass st enrichment_type r)
  | MULTI_CHANNEL | TRANSLATION => mret st
  end.

Definition failure_note (enrichment_type : EnrichmentType) (e : exn) : string :=
  "Failed to apply " ++ type_value enrichment_type ++ ": " ++ e.

(** One iteration of [for enrichment_type in self.config.enabled_types]. *)
Definition loop_body (st : LoopState) (enrichment_type : EnrichmentType)
    : M LoopState :=
  try_except
    (dispatch st enrichment_type)
    (fun e =>
       mret {| enriched := enriched st;
               loop_applied := loop_applied st;
               loop_metrics := loop_metrics st;
               loop_suggestions :=
                 append (loop_suggestions st) (failure_note enrichment_type e) |}).

(** [ProductData(id=product.id, ..., attributes=..., images=...)]: the
    working copy, with its own dict and list. *)
Definition copy_product (product : loc) : M loc :=
  p ← get_product product;
  attrs ← get_attributes product;
  d ← alloc (ODict (if truthy_opt_dict attrs then default ∅ attrs else ∅));
  imgs ← match o_images p with
         | Some i => l ← get_list i; mret (Some l)
         | None => mret None
         end;
  i ← alloc (OList (if truthy_list (default [] imgs) then default [] imgs else []));
  alloc (OProduct (mkProductObj (o_id p) (o_title p) (o_description p)
                                (o_price p) (o_category p) (o_brand p)
                                (o_sku p) (Some d) (Some i))).

(** [DataEnricher.enrich_product]; [history] is [self.enrichment_history]. *)
Definition enrich_product (history : list EnrichmentResult) (product : loc)
    : M (EnrichmentResult * list EnrichmentResult) :=
  (* Create a copy for enrichment *)
  enriched0 ← copy_product product;
  (* Apply each enabled enrichment type *)
  st ← foldM loop_body (mkLoopState enriched0 [] ∅ []) (enabled_types config);
  (* Calculate overall enrichment score *)
  original_view ← snapshot product;
  enriched_view ← snapshot (enriched st);
  let score :=
    _calculate_enrichment_score original_view enriched_view (loop_metrics st) in
  let result :=
    {| original_product := product;
       enriched_product := enriched st;
       enrichment_score := score;
       applied_enrichments := loop_applied st;
       quality_metrics := loop_metrics st;
       suggestions := loop_suggestions st |} in
  mret (result, append history result).

End Passes.

End Enricher.

(** * Views over the analytics store *)

Module Reports.

Import Analytics.

(** [sum(len(metric_list) for metric_list in self.metrics_store.values())],
    the first entry of [get_analytics_summary]. *)
Definition total_metrics_tracked (self : Processor) : nat :=
  map_fold (fun _ metric_list acc => (List.length metric_list + acc)%nat) O
           (metrics_store self).

(** [AnalyticsProcessor.get_analytics_summary]; its two further entries,
    [reports_generated] and [enabled_metric_types], read the report cache
    and the list of enabled metric types, which tracking never touches. *)
Record AnalyticsSummary := mkSummary {
  summary_total_metrics_tracked : nat;
  summary_unique_metric_types : nat;
  summary_alerts_triggered : nat;
  summary_retention_days : Z
}.

Definition get_analytics_summary (self : Processor) : AnalyticsSummary :=
  {| summary_total_metrics_tracked := total_metrics_tracked self;
     summary_unique_metric_types := size (metrics_store self);
     summary_alerts_triggered := List.length (alert_history self);
     summary_retention_days := retention_days (config self) |}.

Definition microseconds_per_hour : Z := 3600000000.

(** [AnalyticsProcessor._get_recent_alerts] *)
Definition _get_recent_alerts (now : Z) (self : Processor) (hours : Z)
    : list AlertEvent :=
  let cutoff_time := (now - hours * microseconds_per_hour)%Z in
  List.filter (fun alert => (cutoff_time <? alert_timestamp alert)%Z)
              (alert_history self).

(** [TimeFrame] *)
Inductive TimeFrame :=
  | HOURLY
  | DAILY
  | WEEKLY
  | MONTHLY
  | QUARTERLY
  | YEARLY.

(** [AnalyticsProcessor._determine_time_frame]; [delta.days] is the floor
    of the difference in days. *)
Definition _determine_time_frame (start_date end_date : Z) : TimeFrame :=
  let delta_days := ((end_date - start_date) / microseconds_per_day)%Z in
  if (delta_days <=? 1)%Z then HOURLY
  else if (delta_days <=? 7)%Z then DAILY
  else if (delta_days <=? 31)%Z then WEEKLY
  else if (delta_days <=? 365)%Z then MONTHLY
  else YEARLY.


(** The points of all metrics whose timestamp lies in
    [[start_date, end_date]], series by series.  The order in which the
    series are visited is that of the store; the KPIs computed from the
    points (a count, a mean, a maximum and a minimum) do not depend on
    it. *)
Definition in_period (start_date end_date : Z) (metric : MetricData) : bool :=
  (start_date <=? timestamp metric)%Z && (timestamp metric <=? end_date)%Z.

Definition period_metrics (self : Processor) (start_date end_date : Z)
    : list MetricData :=
  flat_map (fun entry => List.filter (in_period start_date end_date) (snd entry))
           (map_to_list (metrics_store self)).

Record KPIs := mkKPIs {
  kpi_total_metrics : nat;
  kpi_average_value : Q;
  kpi_max_value : Q;
  kpi_min_value : Q
}.

(** [AnalyticsProcessor._calculate_dashboard_kpis] *)
Definition _calculate_dashboard_kpis (self : Processor)
    (start_date end_date : Z) : KPIs :=
  match period_metrics self start_date end_date with
  | [] => mkKPIs O 0 0 0
  | period =>
      let values := List.map value period in
      mkKPIs (List.length period) (mean values) (list_max values)
             (list_min values)
  end.

End Reports.

(** * Predictive insights *)

Module Insights.

Import Scoring Analytics.

(** [AnalyticsProcessor._predict_quality_trend]; [None] stands for the
    [StatisticsError] that [statistics.mean] raises on an empty list. *)
Definition _predict_quality_trend (products : list ProductData) : option Q :=
  let quality_scores := List.map _calculate_content_quality_score products in
  let completeness_scores := List.map _calculate_completeness_score products in
  match products with
  | [] => None
  | _ =>
      let avg_quality := mean quality_scores in
      let avg_completeness := mean completeness_scores in
      let quality_gap := 100 - avg_quality in
      let completeness_gap := 100 - avg_completeness in
      let predicted_improvement := (quality_gap + completeness_gap) * 0.1 in
      Some predicted_improvement
  end.

Record QualityPredictions := mkQualityPredictions {
  current_average_quality : Q;
  predicted_quality_change : Q;
  predicted_average_quality : Q;
  prediction_confidence : Q
}.

Record Opportunity := mkOpportunity {
  opportunity_type : string;
  affected_products : nat;
  potential_impact : string;
  opportunity_description : string
}.

Record RiskFactor := mkRiskFactor {
  risk_type : string;
  severity : string;
  affected_count : nat;
  risk_description : string
}.

(** The insights mapping; [quality_predictions] is [None] for the empty
    mapping it starts as. *)
Record PredictiveInsights := mkInsights {
  prediction_period_days : Z;
  total_products_analyzed : nat;
  quality_predictions : option QualityPredictions;
  optimization_opportunities : list Opportunity;
  risk_factors : list RiskFactor
}.

(** [AnalyticsProcessor.generate_predictive_insights]; [None] stands for an
    exception raised by one of the means. *)
Definition generate_predictive_insights (products : list ProductData)
    (prediction_days : Z) : option PredictiveInsights :=
  if negb (truthy_list products) then
    Some (mkInsights prediction_days (List.length products) None [] [])
  else
    (* Analyze current state *)
    let current_quality_scores :=
      List.map _calculate_content_quality_score products in
    (* Predict quality trends *)
    let avg_quality := mean current_quality_scores in
    quality_trend ← _predict_quality_trend products;
    let predictions :=
      mkQualityPredictions avg_quality quality_trend
                           (avg_quality + quality_trend) 75 in
    (* Identify optimization opportunities *)
    let low_quality_products :=
      List.filter (fun p => Qltb (_calculate_content_quality_score p) 60)
                  products in
    let incomplete_products :=
      List.filter (fun p => Qltb (_calculate_completeness_score p) 80)
                  products in
    let opportunities : list Opportunity := [] in
    let opportunities :=
      if truthy_list low_quality_products then
        append opportunities
          (mkOpportunity "quality_improvement"
             (List.length low_quality_products) "High"
             (pretty (List.length low_quality_products)
                +:+ " products have quality scores below 60"))
      else opportunities in
    let opportunities :=
      if truthy_list incomplete_products then
        append opportunities
          (mkOpportunity "content_completion"
             (List.length incomplete_products) "Medium"
             (pretty (List.length incomplete_products)
                +:+ " products have incomplete information"))
      else opportunities in
    (* Identify risk factors *)
    let no_description_count :=
      List.length
        (List.filter (fun p => negb (truthy_str (description p))) products) in
    let no_category_count :=
      List.length
        (List.filter (fun p => negb (truthy_str (category p))) products) in
    let risks : list RiskFactor := [] in
    let risks :=
      if Qltb (Qnat (List.length products) * 0.1) (Qnat no_description_count) then
        append risks
          (mkRiskFactor "missing_descriptions" "High" no_description_count
             (pretty no_description_count +:+ " products missing descriptions"))
      else risks in
    let risks :=
      if Qltb (Qnat (List.length products) * 0.05) (Qnat no_category_count) then
        append risks
          (mkRiskFactor "missing_categories" "Medium" no_category_count
             (pretty no_category_count +:+ " products missing categories"))
      else risks in
    Some (mkInsights prediction_days (List.length products) (Some predictions)
                     opportunities risks).

End Insights.

(** * Statistics over the enrichment history *)

Module Statistics.

Import Scoring Analytics Enricher.

Record EnrichmentStatistics := mkStatistics {
  total_enrichments : nat;
  average_score : Q;
  min_score : Q;
  max_score : Q;
  applied_enrichment_types : gmap string nat;
  success_rate : Q
}.

(** The result of [get_enrichment_statistics]: the mapping with the single
    entry [total_enrichments = 0], or the full statistics. *)
Inductive StatisticsReport :=
  | NoEnrichments
  | Report (statistics : EnrichmentStatistics).

(** The counting loop over [result.applied_enrichments]:
    [applied_types[t.value] = applied_types.get(t.value, 0) + 1]. *)
Definition count_types (applied_types : gmap string nat)
    (result : EnrichmentResult) : gmap string nat :=
  fold_left (fun applied_types enrichment_type =>
               bump (type_value enrichment_type) applied_types)
            (applied_enrichments result) applied_types.

(** [DataEnricher.get_enrichment_statistics]; [history] is
    [self.enrichment_history]. *)
Definition get_enrichment_statistics (history : list EnrichmentResult)
    : StatisticsReport :=
  if negb (truthy_list history) then NoEnrichments
  else
    let scores := List.map enrichment_score history in
    let applied_types := fold_left count_types history ∅ in
    Report
      {| total_enrichments := List.length history;
         average_score := Qsum scores / Qnat (List.length scores);
         min_score := list_min scores;
         max_score := list_max scores;
         applied_enrichment_types := applied_types;
         success_rate :=
           Qnat (List.length (List.filter (fun s => Qle_bool 70 s) scores))
           / Qnat (List.length scores) * 100 |}.

End Statistics.

(** * The dashboard *)

Module Dashboard.

Import Analytics Reports.

(** The [if]/[elif] chain of [create_dashboard_data] that picks the start
    of the period; [timedelta(weeks=1)] is seven days. *)
Definition dashboard_start_date (end_date : Z) (time_frame : TimeFrame) : Z :=
  match time_frame with
  | DAILY => (end_date - 1 * microseconds_per_day)%Z
  | WEEKLY => (end_date - 7 * microseconds_per_day)%Z
  | MONTHLY => (end_date - 30 * microseconds_per_day)%Z
  | _ => (end_date - 7 * microseconds_per_day)%Z
  end.

(** The entries of the dashboard that are computed from the store and the
    alert history.  The entries [charts] and [recent_activity] are two
    further read-only views of the store. *)
Record DashboardData := mkDashboard {
  dashboard_time_frame : TimeFrame;
  dashboard_start : Z;
  dashboard_end : Z;
  dashboard_kpis : KPIs;
  dashboard_alerts : list AlertEvent
}.

(** [AnalyticsProcessor.create_dashboard_data]; [now] is the instant read
    at the start of the call and [later] the one read by
    [_get_recent_alerts]. *)
Definition create_dashboard_data (now later : Z) (self : Processor)
    (time_frame : TimeFrame) : DashboardData :=
  let end_date := now in
  let start_date := dashboard_start_date end_date time_frame in
  {| dashboard_time_frame := time_frame;
     dashboard_start := start_date;
     dashboard_end := end_date;
     dashboard_kpis := _calculate_dashboard_kpis self start_date end_date;
     dashboard_alerts := _get_recent_alerts later self 24 |}.

End Dashboard.

(** * Category heuristics of the enricher *)

Module Categories.

Import Enricher.

Local Open Scope string_scope.

(** [f'{product.title or ""} {product.description or ""}'.lower()] *)
Definition product_text (product : ProductData) : string :=
  lower (str_or (title product) "" ++ " " ++ str_or (description product) "").

(** [sum(1 for keyword in keywords if keyword in text)] *)
Definition keyword_matches (keywords : list string) (text : string) : nat :=
  count_true (List.map (fun keyword => contains keyword text) keywords).

(** The table of [_suggest_category], in the order of the dict literal. *)
Definition suggestion_keywords : list (string * list string) :=
  [("Electronics",
    ["electronic"; "digital"; "computer"; "phone"; "tablet"; "camera";
     "audio"; "video"]);
   ("Clothing & Apparel",
    ["shirt"; "pants"; "dress"; "shoes"; "jacket"; "clothing"; "apparel";
     "fashion"]);
   ("Home & Garden",
    ["home"; "garden"; "furniture"; "decor"; "kitchen"; "bathroom"; "bedroom"]);
   ("Sports & Outdoors",
    ["sports"; "outdoor"; "fitness"; "exercise"; "camping"; "hiking";
     "athletic"]);
   ("Books & Media",
    ["book"; "dvd"; "cd"; "magazine"; "media"; "entertainment"]);
   ("Health & Beauty",
    ["health"; "beauty"; "cosmetic"; "skincare"; "wellness"; "medical"]);
   ("Automotive",
    ["car"; "auto"; "vehicle"; "automotive"; "parts"; "accessories"]);
   ("Tools & Hardware",
    ["tool"; "hardware"; "construction"; "repair"; "maintenance"])].

(** The dict [category_scores], as its items in insertion order: the
    categories with a positive score. *)
Definition category_scores (text : string) : list (string * nat) :=
  List.filter (fun entry => (0 <? snd entry)%nat)
    (List.map (fun entry => (fst entry, keyword_matches (snd entry) text))
              suggestion_keywords).

(** [max(d, key=d.get)] over the items of a dict: the first key with the
    greatest value. *)
Definition max_by_value (items : list (string * nat)) : option (string * nat) :=
  fold_left
    (fun best entry =>
       match best with
       | None => Some entry
       | Some b => if (snd b <? snd entry)%nat then Some entry else best
       end)
    items None.

(** [DataEnricher._suggest_category] *)
Definition _suggest_category (product : ProductData) : option string :=
  let text := product_text product in
  let scores := category_scores text in
  if truthy_list scores then fst <$> max_by_value scores else None.

(** The table of [_calculate_category_confidence]. *)
Definition confidence_keywords : list (string * list string) :=
  [("electronics", ["electronic"; "digital"; "computer"; "tech"]);
   ("clothing", ["shirt"; "pants"; "dress"; "apparel"]);
   ("home", ["home"; "house"; "furniture"; "decor"]);
   ("sports", ["sports"; "fitness"; "athletic"; "outdoor"])].

(** [DataEnricher._calculate_category_confidence] *)
Definition _calculate_category_confidence (product : ProductData) : Q :=
  if negb (truthy_str (category product)) then 0%Q
  else
    let category_lower := lower (default "" (category product)) in
    let text := product_text product in
    (* Find matching keyword set *)
    let matching_keywords :=
      match List.find (fun entry => contains (fst entry) category_lower)
                      confidence_keywords with
      | Some entry => snd entry
      | None => []
      end in
    if negb (truthy_list matching_keywords) then 50%Q
    else
      (* Count keyword matches *)
      let matches := keyword_matches matching_keywords text in
      Qmin 100 (30 + Qnat matches * 20)%Q.

End Categories.

(** * Content performance analysis *)

Module Performance.

Import Scoring Analytics.

(** The entries [average], [median], [min], [max] and [distribution] of a
    score section. *)
Record ScoreSummary := mkScoreSummary {
  summary_average : Q;
  summary_median : Q;
  summary_min : Q;
  summary_max : Q;
  summary_distribution : gmap string nat
}.

(** The dict [{'quality': ..., 'completeness': ..., 'seo': ...}] appended
    per product to its category and to its brand. *)
Record ProductScores := mkProductScores {
  scores_quality : Q;
  scores_completeness : Q;
  scores_seo : Q
}.

(** The entry of one category or brand; the three averages are the keys
    [avg_quality], [avg_completeness] and [avg_seo]. *)
Record GroupPerformance := mkGroupPerformance {
  product_count : nat;
  group_avg_quality : Q;
  group_avg_completeness : Q;
  group_avg_seo : Q
}.

(** [groups[key].append(x)] on a [defaultdict(list)], kept as the list of
    its items in insertion order. *)
Fixpoint group_append {A} (key : string) (x : A)
    (groups : list (string * list A)) : list (string * list A) :=
  match groups with
  | [] => [(key, [x])]
  | (k, xs) :: rest =>
      if String.eqb k key then (k, append xs x) :: rest
      else (k, xs) :: group_append key x rest
  end.

(** The analysis mapping; a section that is still the empty dict is
    [None]. *)
Record ContentAnalysis := mkContentAnalysis {
  analysis_total_products : nat;
  content_quality_scores : option ScoreSummary;
  seo_performance : option ScoreSummary;
  completeness_analysis : option ScoreSummary;
  category_performance : list (string * GroupPerformance);
  brand_performance : list (string * GroupPerformance);
  recommendations : list string
}.

(** [sep.join(parts)] *)
Fixpoint join (sep : string) (parts : list string) : string :=
  match parts with
  | [] => ""
  | [part] => part
  | part :: rest => part +:+ sep +:+ join sep rest
  end.

Definition summarise (scores : list Q) : ScoreSummary :=
  {| summary_average := mean scores;
     summary_median := median scores;
     summary_min := list_min scores;
     summary_max := list_max scores;
     summary_distribution := _create_distribution scores |}.

Definition group_performance (stats : list ProductScores) : GroupPerformance :=
  {| product_count := List.length stats;
     group_avg_quality := mean (List.map scores_quality stats);
     group_avg_completeness := mean (List.map scores_completeness stats);
     group_avg_seo := mean (List.map scores_seo stats) |}.

(** The grouping statements of the loop body, for one of the two fields:
    [if product.f: stats[product.f].append(scores)]. *)
Definition group_by (field : option string) (scores : ProductScores)
    (stats : list (string * list ProductScores))
    : list (string * list ProductScores) :=
  if truthy_str field then group_append (default ""%string field) scores stats
  else stats.

Definition product_scores (product : ProductData) : ProductScores :=
  {| scores_quality := _calculate_content_quality_score product;
     scores_completeness := _calculate_completeness_score product;
     scores_seo := _calculate_seo_score product |}.

Section Analysis.

(** The format [{:.1f}] of Python's f-strings. *)
Variable format_1f : Q -> string.

(** [AnalyticsProcessor._generate_content_recommendations]; [None] stands
    for the [KeyError] raised when a score section has no average. *)
Definition _generate_content_recommendations (analysis : ContentAnalysis)
    : option (list string) :=
  let recommendations : list string := [] in
  (* Quality recommendations *)
  quality ← content_quality_scores analysis;
  let avg_quality := summary_average quality in
  let recommendations :=
    if Qltb avg_quality 70 then
      append recommendations
        ("Overall content quality is below target ($" +:+ format_1f avg_quality
           +:+ "/100). Focus on improving titles and descriptions.")
    else recommendations in
  (* Completeness recommendations *)
  completeness ← completeness_analysis analysis;
  let avg_completeness := summary_average completeness in
  let recommendations :=
    if Qltb avg_completeness 80 then
      append recommendations
        ("Content completeness needs improvement ($" +:+ format_1f avg_completeness
           +:+ "/100). Add missing product information.")
    else recommendations in
  (* SEO recommendations *)
  seo ← seo_performance analysis;
  let avg_seo := summary_average seo in
  let recommendations :=
    if Qltb avg_seo 75 then
      append recommendations
        ("SEO optimization is below target ($" +:+ format_1f avg_seo
           +:+ "/100). Optimize titles, descriptions, and meta data.")
    else recommendations in
  (* Category-specific recommendations *)
  let low_performing_categories :=
    List.map fst
      (List.filter (fun entry => Qltb (group_avg_quality (snd entry)) 60)
                   (category_performance analysis)) in
  let recommendations :=
    if truthy_list low_performing_categories then
      append recommendations
        ("Categories needing attention: "
           +:+ join ", " (firstn 3 low_performing_categories))
    else recommendations in
  Some recommendations.

(** [AnalyticsProcessor.analyze_content_performance]; [None] stands for a
    raised exception. *)
Definition analyze_content_performance (products : list ProductData)
    : option ContentAnalysis :=
  let analysis :=
    mkContentAnalysis (List.length products) None None None [] [] [] in
  if negb (truthy_list products) then Some analysis
  else
    let quality_scores := List.map _calculate_content_quality_score products in
    let completeness_scores := List.map _calculate_completeness_score products in
    let seo_scores := List.map _calculate_seo_score products in
    let category_stats :=
      fold_left
        (fun stats product => group_by (category product) (product_scores product) stats)
        products [] in
    let brand_stats :=
      fold_left
        (fun stats product => group_by (brand product) (product_scores product) stats)
        products [] in
    (* Aggregate statistics *)
    let analysis :=
      mkContentAnalysis
        (List.length products)
        (Some (summarise quality_scores))
        (Some (summarise seo_scores))
        (Some (summarise completeness_scores))
        (List.map (fun entry => (fst entry, group_performance (snd entry)))
                  category_stats)
        (List.map (fun entry => (fst entry, group_performance (snd entry)))
                  brand_stats)
        [] in
    (* Generate recommendations *)
    recommendations ← _generate_content_recommendations analysis;
    Some (mkContentAnalysis
            (analysis_total_products analysis)
            (content_quality_scores analysis)
            (seo_performance analysis)
            (completeness_analysis analysis)
            (category_performance analysis)
            (brand_performance analysis)
            recommendations).

End Analysis.

End Performance.

(** * The analytics processor over Python's floats, datetimes and exceptions

    Alert severities and trend analyses depend on how Python computes:
    a product such as [threshold_value * 0.8] is rounded to binary64,
    [x ** 2] raises [OverflowError], [datetime] values have a range and
    are naive or timezone-aware, and library functions may raise.  This
    module embeds [_check_alerts], [track_metric] and
    [perform_trend_analysis] with all its helpers once more, line by line,
    over
    - an interface [Arithmetic] of the float operations that never raise
      ([+], [-], [*], [/] by a non-zero divisor, comparisons, [abs],
      [sum]) and an interface [Library] of the operations that may raise
      ([**] and the functions of [statistics]);
    - datetimes that are naive or aware, within [datetime.min] and
      [datetime.max];
    - results that are a value or an exception.
    What is proved holds for every implementation of the two interfaces.
    Python's own float arithmetic is one ([binary64]); exact rational
    arithmetic is another ([exact]) and is what a formula means on
    paper.  Metric values are floats here: an [int] value behaves like
    the float of the same value as long as it is below 2^53. *)

Module Runtime.

(** The exception classes that the embedded code can raise. *)
Inductive exception :=
  | OverflowError
  | TypeError
  | ZeroDivisionError
  | ValueError
  | AttributeError
  | StatisticsError.

(** A computation returns a value ([inr]) or raises ([inl]). *)
Definition result : Type -> Type := sum exception.

#[global] Instance result_ret : MRet result := fun A x => inr x.

#[global] Instance result_bind : MBind result :=
  fun A B f m => match m with inl e => inl e | inr x => f x end.

(** Float operations that never raise.  [of_Q] is the float nearest to an
    exact number: it stands for float literals ([0.8]) and for [int]
    operands, which Python converts before it combines them with a float.
    [fdiv] is only applied to divisors that the source has tested to be
    non-zero or that are positive counts.  [fsum] is the builtin [sum]
    (plain left-to-right addition up to CPython 3.11, compensated
    summation since 3.12). *)
Class Arithmetic := {
  num : Type;
  of_Q : Q -> num;
  fadd : num -> num -> num;
  fsub : num -> num -> num;
  fmul : num -> num -> num;
  fdiv : num -> num -> num;
  flt : num -> num -> bool;
  feq : num -> num -> bool;
  fabs : num -> num;
  fsum : list num -> num
}.

Declare Scope num_scope.
Delimit Scope num_scope with num.
Bind Scope num_scope with num.

Notation "x + y" := (fadd x y) : num_scope.
Notation "x - y" := (fsub x y) : num_scope.
Notation "x * y" := (fmul x y) : num_scope.
Notation "x / y" := (fdiv x y) : num_scope.
Notation "x <? y" := (flt x y) : num_scope.
Notation "x =? y" := (feq x y) : num_scope.

(** Operations that may raise: [x ** 2] and [x ** 0.5], the two uses of
    the power operator, and the functions of the [statistics] module. *)
Class Library `{Arithmetic} := {
  square : num -> result num;
  square_root : num -> result num;
  statistics_mean : list num -> result num;
  statistics_median : list num -> result num;
  statistics_stdev : list num -> result num
}.

(** A [datetime] is naive or timezone-aware; either way it is a count of
    microseconds since 0001-01-01 00:00 (of UTC for an aware one). *)
Inductive datetime :=
  | naive (microseconds : Z)
  | aware (microseconds : Z).

Definition microseconds (d : datetime) : Z :=
  match d with
  | naive t => t
  | aware t => t
  end.

(** [datetime.max] is the last microsecond of 9999-12-31, day 3652059 of
    the calendar. *)
Definition datetime_max : Z :=
  (3652059 * Analytics.microseconds_per_day - 1)%Z.

(** [timedelta(days=days)]: the magnitude is limited to 999999999 days. *)
Definition timedelta (days : Z) : result Z :=
  if (Z.abs days <=? 999999999)%Z then inr (days * Analytics.microseconds_per_day)%Z
  else inl OverflowError.

(** [d - delta] for a naive [d]: the result must be a valid datetime. *)
Definition datetime_sub (d delta : Z) : result Z :=
  let r := (d - delta)%Z in
  if (0 <=? r)%Z && (r <=? datetime_max)%Z then inr r else inl OverflowError.

(** [a <= b]: a naive and an aware datetime cannot be compared. *)
Definition datetime_le (a b : datetime) : result bool :=
  match a, b with
  | naive x, naive y => inr (x <=? y)%Z
  | aware x, aware y => inr (x <=? y)%Z
  | _, _ => inl TypeError
  end.

(** [d.strftime('%A')], as the index of the day of the week: day 0 of the
    calendar is a Monday. *)
Definition day_of_week (d : datetime) : nat :=
  Z.to_nat ((microseconds d / Analytics.microseconds_per_day) mod 7).

Section Numbers.

Context `{Arithmetic}.

Local Open Scope num_scope.

Definition of_int (z : Z) : num := of_Q (inject_Z z).

Definition of_nat (n : nat) : num := of_int (Z.of_nat n).

(** [MetricData] *)
Record MetricData := mkMetric {
  metric_name : string;
  value : num;
  timestamp : datetime;
  dimensions : gmap string pyval;
  metadata : gmap string pyval
}.

(** The alert dictionary built by [_check_alerts]; its timestamp is
    [datetime.now()]. *)
Record AlertEvent := mkAlert {
  alert_timestamp : Z;
  alert_metric_name : string;
  alert_value : num;
  alert_threshold : num;
  alert_severity : string
}.

(** [AnalyticsConfig]: [alert_thresholds] is the dict's [items()] in
    insertion order. *)
Record AnalyticsConfig := mkConfig {
  retention_days : Z;
  alert_thresholds : list (string * num)
}.

(** The mutable state of an [AnalyticsProcessor] instance. *)
Record Processor := mkProcessor {
  config : AnalyticsConfig;
  metrics_store : gmap string (list MetricData);
  alert_history : list AlertEvent
}.

(** The body of the [for threshold_name, threshold_value in ...] loop. *)
Definition check_one (now : Z) (metric : MetricData)
    (history : list AlertEvent) (entry : string * num) : list AlertEvent :=
  let '(threshold_name, threshold_value) := entry in
  if contains threshold_name (metric_name metric) then
    if value metric <? threshold_value then
      let alert :=
        {| alert_timestamp := now;
           alert_metric_name := metric_name metric;
           alert_value := value metric;
           alert_threshold := threshold_value;
           alert_severity :=
             if threshold_value * of_Q 0.8 <? value metric
             then "warning"%string else "critical"%string |} in
      append history alert
    else history
  else history.

(** [AnalyticsProcessor._check_alerts] *)
Definition _check_alerts (now : Z) (self : Processor) (metric : MetricData)
    : Processor :=
  match alert_thresholds (config self) with
  | [] => self
  | thresholds =>
      {| config := config self;
         metrics_store := metrics_store self;
         alert_history :=
           fold_left (check_one now metric) thresholds (alert_history self) |}
  end.

(** [AnalyticsProcessor.track_metric] *)
Definition track_metric (now : Z) (self : Processor) (metric : MetricData)
    : Processor :=
  let self :=
    {| config := config self;
       metrics_store :=
         <[metric_name metric :=
             append (default [] (metrics_store self !! metric_name metric)) metric]>
           (metrics_store self);
       alert_history := alert_history self |} in
  _check_alerts now self metric.

(** *** Forecast *)

Inductive Forecast :=
  | ForecastError (msg : string)
  | ForecastOk (forecast_days : Z) (forecast_values : list num)
               (trend_slope : num) (confidence : num).

(** The regression sums of [_generate_forecast], written as in the source
    with index access into [x] and [y].  [x] is a list of [int]s, so
    [sum_x] and [sum_x2] are exact; [y] is the list of values. *)
Definition Zsum (l : list Z) : Z := fold_right Z.add 0%Z l.

Definition regression_x (values : list num) : list Z :=
  List.map Z.of_nat (Analytics.range (List.length values)).

Definition sum_x (values : list num) : Z := Zsum (regression_x values).

Definition sum_y (values : list num) : num := fsum values.

Definition sum_xy (values : list num) : num :=
  let x := regression_x values in
  fsum (List.map (fun i => of_int (nth i x 0%Z) * nth i values (of_int 0))
                 (Analytics.range (List.length x))).

Definition sum_x2 (values : list num) : Z :=
  let x := regression_x values in
  Zsum (List.map (fun i => (nth i x 0 ^ 2)%Z) (Analytics.range (List.length x))).

Definition slope (values : list num) : num :=
  let n := Z.of_nat (List.length values) in
  if negb (n * sum_x2 values - sum_x values ^ 2 =? 0)%Z
  then (of_int n * sum_xy values - of_int (sum_x values) * sum_y values)
       / of_int (n * sum_x2 values - sum_x values ^ 2)
  else of_int 0.

Definition intercept (values : list num) : num :=
  let n := Z.of_nat (List.length values) in
  (sum_y values - slope values * of_int (sum_x values)) / of_int n.

(** [max(0, x)]: [x] if [x > 0], else the first argument. *)
Definition max_0 (x : num) : num := if of_int 0 <? x then x else of_int 0.

(** [AnalyticsProcessor._generate_forecast]; [range(days)] is empty for
    [days <= 0]. *)
Definition _generate_forecast (values : list num) (days : Z) : Forecast :=
  if (List.length values <? 3)%nat then
    ForecastError "Insufficient data for forecasting"
  else
    let forecast_values :=
      List.map
        (fun i =>
           let future_x := (List.length values + i)%nat in
           let forecast_value := slope values * of_nat future_x + intercept values in
           max_0 forecast_value)
        (Analytics.range (Z.to_nat days)) in
    ForecastOk days forecast_values (slope values) (of_Q 70).

(** *** Statistics that cannot raise *)

(** [min(values)] and [max(values)]: the first item, replaced by every
    later item that compares smaller (greater). *)
Definition list_min (values : list num) : num :=
  match values with
  | [] => of_int 0
  | first :: rest =>
      fold_left (fun best v => if v <? best then v else best) rest first
  end.

Definition list_max (values : list num) : num :=
  match values with
  | [] => of_int 0
  | first :: rest =>
      fold_left (fun best v => if best <? v then v else best) rest first
  end.

(** [_calculate_growth_rate] *)
Definition _calculate_growth_rate (values : list num) : num :=
  if (List.length values <? 2)%nat || (nth 0 values (of_int 0) =? of_int 0)
  then of_Q 0
  else ((List.last values (of_int 0) - nth 0 values (of_int 0))
        / nth 0 values (of_int 0)) * of_int 100.

(** [metric_data.sort(key=lambda x: x.timestamp)]: Python's sort is stable;
    a stable insertion sort produces the same list.  Only naive timestamps
    reach the sort, and two naive datetimes compare by their counts of
    microseconds. *)
Fixpoint insert_by_timestamp (m : MetricData) (l : list MetricData)
    : list MetricData :=
  match l with
  | [] => [m]
  | m' :: l' =>
      if (microseconds (timestamp m) <? microseconds (timestamp m'))%Z
      then m :: l
      else m' :: insert_by_timestamp m l'
  end.

Definition sort_by_timestamp (l : list MetricData) : list MetricData :=
  fold_left (fun acc m => insert_by_timestamp m acc) l [].

(** The chained comparison [start_date <= metric.timestamp <= end_date]
    between the naive bounds and the stored timestamp. *)
Definition in_window (start_date end_date : Z) (metric : MetricData)
    : result bool :=
  after_start ← datetime_le (naive start_date) (timestamp metric);
  if after_start : bool then datetime_le (timestamp metric) (naive end_date)
  else mret false.

(** The loop that collects [metric_data], in store order. *)
Fixpoint select_window (start_date end_date : Z) (metrics : list MetricData)
    : result (list MetricData) :=
  match metrics with
  | [] => mret []
  | metric :: metrics =>
      selected ← in_window start_date end_date metric;
      metric_data ← select_window start_date end_date metrics;
      mret (if selected : bool then metric :: metric_data else metric_data)
  end.

Definition window_data (start_date end_date : Z) (self : Processor)
    (metric_name : string) : result (list MetricData) :=
  match metrics_store self !! metric_name with
  | Some metrics => select_window start_date end_date metrics
  | None => mret []
  end.

(** *** Statistics that may raise *)

Context `{!Library}.

(** [_calculate_trend_direction] *)
Definition _calculate_trend_direction (values : list num) : result string :=
  if (List.length values <? 2)%nat then mret "stable"%string
  else
    let first_half := firstn (List.length values / 2) values in
    let second_half := skipn (List.length values / 2) values in
    first_avg ← statistics_mean first_half;
    second_avg ← statistics_mean second_half;
    let change_percent :=
      if negb (first_avg =? of_int 0)
      then ((second_avg - first_avg) / first_avg) * of_int 100
      else of_int 0 in
    mret (if of_int 5 <? change_percent then "increasing"%string
          else if change_percent <? of_int (-5) then "decreasing"%string
          else "stable"%string).

(** [_calculate_volatility]: the squares are taken before the test
    [mean_val != 0]. *)
Definition _calculate_volatility (values : list num) : result num :=
  if (List.length values <? 2)%nat then mret (of_Q 0)
  else
    mean_val ← statistics_mean values;
    squares ← mapM (fun x => square (x - mean_val)) values;
    let variance := fsum squares / of_nat (List.length values) in
    std_dev ← square_root variance;
    (* Coefficient of variation *)
    mret (if negb (mean_val =? of_int 0)
          then (std_dev / mean_val) * of_int 100
          else of_Q 0).

(** The mapping returned by [_detect_seasonal_patterns]: [{'detected':
    False}] alone, or the full mapping.  Days are indices, and the two
    dictionaries keyed by day are lists in insertion order. *)
Inductive SeasonalPatterns :=
  | NotDetected
  | Patterns (detected : bool) (day_averages : list (nat * num))
             (peak_day low_day : option nat).

(** [day_groups[day_of_week].append(metric.value)] on a [defaultdict]. *)
Fixpoint group_append (day : nat) (v : num) (groups : list (nat * list num))
    : list (nat * list num) :=
  match groups with
  | [] => [(day, [v])]
  | (day', values) :: groups =>
      if Nat.eqb day' day then (day', append values v) :: groups
      else (day', values) :: group_append day v groups
  end.

(** [max(day_averages, key=day_averages.get)] and its [min] counterpart:
    the first key whose value no later value exceeds (falls below). *)
Definition key_of_max (items : list (nat * num)) : option nat :=
  match items with
  | [] => None
  | first :: rest =>
      Some (fst (fold_left
                   (fun best item => if snd best <? snd item then item else best)
                   rest first))
  end.

Definition key_of_min (items : list (nat * num)) : option nat :=
  match items with
  | [] => None
  | first :: rest =>
      Some (fst (fold_left
                   (fun best item => if snd item <? snd best then item else best)
                   rest first))
  end.

(** [_detect_seasonal_patterns] *)
Definition _detect_seasonal_patterns (metrics : list MetricData)
    : result SeasonalPatterns :=
  if (List.length metrics <? 7)%nat then mret NotDetected
  else
    (* Group by day of week *)
    let day_groups :=
      fold_left
        (fun groups metric =>
           group_append (day_of_week (timestamp metric)) (value metric) groups)
        metrics [] in
    (* Calculate averages by day *)
    day_averages ←
      mapM (fun group : nat * list num =>
              average ← statistics_mean (snd group);
              mret (fst group, average))
           day_groups;
    if (List.length day_averages <? 3)%nat then mret NotDetected
    else
      (* Check for significant variation *)
      let avg_values := List.map snd day_averages in
      overall_avg ← statistics_mean avg_values;
      let max_deviation :=
        list_max (List.map (fun v => fabs (v - overall_avg)) avg_values) in
      let is_seasonal :=
        if negb (overall_avg =? of_int 0)
        then of_Q 0.2 <? max_deviation / overall_avg
        else false in
      mret (Patterns is_seasonal day_averages
                     (key_of_max day_averages) (key_of_min day_averages)).

Record Anomaly := mkAnomaly {
  anomaly_index : nat;
  anomaly_value : num;
  anomaly_deviation : num;
  anomaly_type : string
}.

(** [enumerate(values)] *)
Definition enumerate (values : list num) : list (nat * num) :=
  combine (Analytics.range (List.length values)) values.

(** [_detect_anomalies] *)
Definition _detect_anomalies (values : list num) : result (list Anomaly) :=
  if (List.length values <? 5)%nat then mret []
  else
    mean_val ← statistics_mean values;
    std_dev ←
      (if (1 <? List.length values)%nat then statistics_stdev values
       else mret (of_int 0));
    let threshold := of_int 2 * std_dev in
    mret (omap
            (fun entry : nat * num =>
               let (i, value) := entry in
               if threshold <? fabs (value - mean_val) then
                 Some {| anomaly_index := i;
                         anomaly_value := value;
                         anomaly_deviation := fabs (value - mean_val);
                         anomaly_type :=
                           if mean_val <? value then "high"%string
                           else "low"%string |}
               else None)
            (enumerate values)).

(** *** Trend analysis *)

Record TrendAnalysis := mkTrend {
  trend_metric_name : string;
  period_days : Z;
  data_points : nat;
  start_value : num;
  end_value : num;
  min_value : num;
  max_value : num;
  average_value : num;
  median_value : num;
  trend_direction : string;
  volatility : num;
  growth_rate : num;
  seasonal_patterns : SeasonalPatterns;
  anomalies : list Anomaly;
  forecast : Forecast
}.

(** What [perform_trend_analysis] returns: the mapping [{'error': ...}] or
    the analysis. *)
Inductive TrendReport :=
  | NoData (error : string)
  | Analysis (analysis : TrendAnalysis).

(** [AnalyticsProcessor.perform_trend_analysis]; [now] is what
    [datetime.now()] returns.  The entries of the result mapping are
    evaluated in the order of the source. *)
Definition perform_trend_analysis (now : Z) (self : Processor)
    (metric_name : string) (days : Z) : result TrendReport :=
  let end_date := now in
  delta ← timedelta days;
  start_date ← datetime_sub end_date delta;
  (* Get metric data *)
  metric_data ← window_data start_date end_date self metric_name;
  match metric_data with
  | [] => mret (NoData ("No data found for metric " ++ metric_name)%string)
  | _ =>
      (* Sort by timestamp *)
      let metric_data := sort_by_timestamp metric_data in
      (* Extract values *)
      let values := List.map value metric_data in
      (* Calculate trend statistics *)
      average ← statistics_mean values;
      median ← statistics_median values;
      direction ← _calculate_trend_direction values;
      volatility_ ← _calculate_volatility values;
      seasonal ← _detect_seasonal_patterns metric_data;
      anomalies_ ← _detect_anomalies values;
      mret (Analysis
              {| trend_metric_name := metric_name;
                 period_days := days;
                 data_points := List.length values;
                 start_value := nth 0 values (of_int 0);
                 end_value := List.last values (of_int 0);
                 min_value := list_min values;
                 max_value := list_max values;
                 average_value := average;
                 median_value := median;
                 trend_direction := direction;
                 volatility := volatility_;
                 growth_rate := _calculate_growth_rate values;
                 seasonal_patterns := seasonal;
                 anomalies := anomalies_;
                 forecast := _generate_forecast values 7 |})
  end.

End Numbers.

(** *** Exact arithmetic

    The rationals with their exact operations: what a formula of the
    source means on paper. *)
Definition exact : Arithmetic :=
  {| num := Q;
     of_Q := fun q => q;
     fadd := Qplus;
     fsub := Qminus;
     fmul := Qmult;
     fdiv := Qdiv;
     flt := Analytics.Qltb;
     feq := Qeq_bool;
     fabs := Qabs;
     fsum := Qsum |}.

(** *** Binary64 arithmetic

    Python's [float] is the binary64 format of IEEE 754, which is Rocq's
    primitive [float]: addition, subtraction, multiplication, division,
    comparison and [abs] are the same operations, rounding to nearest
    with ties to even.  The remaining operations are written after
    CPython 3.11 ([sum] adds from left to right; [statistics] computes
    in exact fractions and rounds once), with the C library's [pow]
    taken as correctly rounded. *)

Definition Z2SF (z : Z) : SpecFloat.spec_float :=
  match z with
  | Z0 => SpecFloat.S754_zero false
  | Zpos p => SpecFloat.S754_finite false p 0
  | Zneg p => SpecFloat.S754_finite true p 0
  end.

(** The float nearest to a rational: the correctly rounded quotient of
    its numerator and denominator. *)
Definition nearest_float (q : Q) : PrimFloat.float :=
  FloatOps.SF2Prim
    (SpecFloat.SFdiv FloatOps.prec FloatOps.emax
       (Z2SF (Qnum q)) (Z2SF (Zpos (Qden q)))).

(** The exact value of a finite float. *)
Definition exact_value (x : PrimFloat.float) : option Q :=
  match FloatOps.Prim2SF x with
  | SpecFloat.S754_zero _ => Some 0
  | SpecFloat.S754_finite s m e =>
      let magnitude :=
        match e with
        | Zneg k => Zpos m # (2 ^ k)%positive
        | _ => inject_Z (Zpos m * 2 ^ e)
        end in
      Some (if s then - magnitude else magnitude)
  | _ => None
  end.

(** The last bit of the mantissa of a finite float is 0. *)
Definition even_mantissa (x : PrimFloat.float) : bool :=
  match FloatOps.Prim2SF x with
  | SpecFloat.S754_finite _ m _ => Z.even (Zpos m)
  | _ => true
  end.

(** The float nearest to the square root of a non-negative rational:
    the root of the nearest float is at most one float away from it, and
    the squares of the midpoints between neighbouring floats decide. *)
Definition sqrt_of_frac (q : Q) : PrimFloat.float :=
  let c := PrimFloat.sqrt (nearest_float q) in
  let below := PrimFloat.next_down c in
  let above := PrimFloat.next_up c in
  match exact_value c, exact_value below, exact_value above with
  | Some vc, Some vb, Some va =>
      let lo := (vb + vc) / 2 in
      let hi := (vc + va) / 2 in
      match q ?= lo * lo, q ?= hi * hi with
      | Lt, _ => if Qle_bool vc 0 then c else below
      | Eq, _ => if Qle_bool vc 0 || even_mantissa c then c else below
      | _, Gt => above
      | _, Eq => if even_mantissa c then c else above
      | _, _ => c
      end
  | _, _, _ => c
  end.

Definition binary64 : Arithmetic :=
  {| num := PrimFloat.float;
     of_Q := nearest_float;
     fadd := PrimFloat.add;
     fsub := PrimFloat.sub;
     fmul := PrimFloat.mul;
     fdiv := PrimFloat.div;
     flt := PrimFloat.ltb;
     feq := PrimFloat.eqb;
     fabs := PrimFloat.abs;
     fsum := fun l => fold_left PrimFloat.add l PrimFloat.zero |}.

Definition is_finite (x : PrimFloat.float) : bool :=
  negb (PrimFloat.is_nan x || PrimFloat.is_infinity x).

(** [x ** 2] raises [OverflowError] when the square of a finite float
    is too large for a float. *)
Definition binary64_square (x : PrimFloat.float) : result PrimFloat.float :=
  let y := PrimFloat.mul x x in
  if PrimFloat.is_infinity y && is_finite x then inl OverflowError
  else inr y.

(** [statistics.mean]: the exact mean, rounded once.  When the data hold
    an infinity or a NaN, the float sum of these special values is
    divided by the length. *)
Definition binary64_mean (data : list PrimFloat.float) : result PrimFloat.float :=
  match data with
  | [] => inl StatisticsError
  | _ =>
      match mapM exact_value data with
      | Some exact_data => inr (nearest_float (mean exact_data))
      | None =>
          let special := List.filter (fun x => negb (is_finite x)) data in
          inr (PrimFloat.div (fold_left PrimFloat.add special PrimFloat.zero)
                 (nearest_float (Qnat (List.length data))))
      end
  end.

(** [sorted(data)]: a stable insertion sort by [<]. *)
Fixpoint insert_float (x : PrimFloat.float) (l : list PrimFloat.float)
    : list PrimFloat.float :=
  match l with
  | [] => [x]
  | y :: l' =>
      if PrimFloat.ltb x y then x :: l else y :: insert_float x l'
  end.

(** [statistics.median] *)
Definition binary64_median (data : list PrimFloat.float)
    : result PrimFloat.float :=
  match data with
  | [] => inl StatisticsError
  | _ =>
      let data := fold_left (fun acc x => insert_float x acc) data [] in
      let n := List.length data in
      if Nat.odd n then inr (nth (n / 2) data PrimFloat.zero)
      else inr (PrimFloat.div
                  (PrimFloat.add (nth (n / 2 - 1) data PrimFloat.zero)
                                 (nth (n / 2) data PrimFloat.zero))
                  (nearest_float 2))
  end.

(** [statistics.stdev]: the root of the exact sample variance, rounded
    once; it fails with [AttributeError] on an infinity or a NaN. *)
Definition binary64_stdev (data : list PrimFloat.float) : result PrimFloat.float :=
  if (List.length data <? 2)%nat then inl StatisticsError
  else
    match mapM exact_value data with
    | Some exact_data =>
        let c := mean exact_data in
        let ss := Qsum (List.map (fun x => (x - c) * (x - c)) exact_data) in
        inr (sqrt_of_frac (ss / Qnat (List.length data - 1)))
    | None => inl AttributeError
    end.

Definition binary64_library : @Library binary64 :=
  {| square := binary64_square : @num binary64 -> result (@num binary64);
     square_root := fun x => inr (PrimFloat.sqrt x);
     statistics_mean := binary64_mean;
     statistics_median := binary64_median;
     statistics_stdev := binary64_stdev |}.

End Runtime.

(** * Specification-level definitions and concrete inputs *)

(** The completeness formula in the words of the specification: each
    required field contributes 14 points when present/truthy, each optional
    field 7.5 points when present, [images] and [attributes] being present
    when they are non-empty collections; capped at 100. *)
Definition spec_completeness (product : ProductData) : Q :=
  let required :=
    [negb (String.eqb (id product) ""); truthy_str (title product);
     truthy_str (description product); truthy_num (price product);
     truthy_str (category product)] in
  let optional :=
    [truthy_str (brand product); truthy_str (sku product);
     negb (Nat.eqb (List.length (images product)) 0);
     negb (Nat.eqb (size (attributes product)) 0)] in
  Qmin 100 (Qnat (count_true required) * 14 + Qnat (count_true optional) * 7.5).

(** The graded variant of the formula: the required fields and the brand
    and SKU count as above, but the images contribute min(7.5, 2.5 x count)
    and the attributes min(7.5, 1.5 x count). *)
Definition graded_completeness (product : ProductData) : Q :=
  let required :=
    [negb (String.eqb (id product) ""); truthy_str (title product);
     truthy_str (description product); truthy_num (price product);
     truthy_str (category product)] in
  let optional := [truthy_str (brand product); truthy_str (sku product)] in
  Qmin 100
    (Qnat (count_true required) * 14 + Qnat (count_true optional) * 7.5
     + Qmin 7.5 (Qnat (List.length (images product)) * 2.5)
     + Qmin 7.5 (Qnat (size (attributes product)) * 1.5)).

(** A record with an identifier and a single attribute. *)
Definition one_attribute_product : ProductData :=
  mkProduct "P1" None None None None None None {[ "color"%string := VStr "red" ]} [].

(** [sub] occurs in [s] as a contiguous run of characters. *)
Definition is_substring (sub s : string) : Prop :=
  exists pre post : string, s = (pre ++ sub ++ post)%string.

(** The Alert Evaluator in the words of the specification: for one
    threshold entry, an event is emitted if the threshold name is a
    substring of the metric's name and the value is below the threshold,
    with severity "warning" if value > 0.8 x threshold, else "critical". *)
Definition alert_for (now : Z) (metric : Analytics.MetricData)
    (entry : string * Q) : option Analytics.AlertEvent :=
  if contains (fst entry) (Analytics.metric_name metric)
     && Analytics.Qltb (Analytics.value metric) (snd entry)
  then Some (Analytics.mkAlert now (Analytics.metric_name metric)
               (Analytics.value metric) (snd entry)
               (if Analytics.Qltb (snd entry * 0.8) (Analytics.value metric)
                then "warning"%string else "critical"%string))
  else None.

(** The threshold entries that a point triggers. *)
Definition triggers (metric : Analytics.MetricData) (entry : string * Q) : bool :=
  contains (fst entry) (Analytics.metric_name metric)
  && Analytics.Qltb (Analytics.value metric) (snd entry).

(** A processor with two thresholds that both match metric names
    containing "quality_score". *)
Definition two_threshold_processor : Analytics.Processor :=
  Analytics.mkProcessor
    (Analytics.mkConfig 365 [("quality"%string, 70); ("score"%string, 50)])
    ∅ [].

Definition low_quality_point : Analytics.MetricData :=
  Analytics.mkMetric "quality_score" 45 1000 ∅ ∅.


(** Thirty observations with mean [centre] and sample standard deviation 1:
    the deviations from the centre sum to 0 and their squares to 29. *)
Definition unit_spread_sample (centre : Q) : list Q :=
  List.map (fun d => centre + d)
    ([2; -2] ++ repeat 1 10 ++ repeat (-1) 10
     ++ [0.5; 0.5; -0.5; -0.5] ++ repeat 0 4).

Definition as_metrics (name : string) (values : list Q)
    : list Analytics.MetricData :=
  List.map (fun q => Analytics.mkMetric name q 0 ∅ ∅) values.

Definition control_sample : list Analytics.MetricData :=
  as_metrics "conversion" (unit_spread_sample 10).

Definition variant_sample : list Analytics.MetricData :=
  as_metrics "conversion" (unit_spread_sample 14).

(** ** The alert evaluator and the trend analysis over Python's arithmetic *)

(** The Alert Evaluator in the words of the specification, read in the
    arithmetic of the code: for one threshold entry, an event is emitted if
    the threshold name is a substring of the metric's name and the value is
    below the threshold, with severity "warning" if value > 0.8 x threshold,
    else "critical". *)
Definition alert_event_for `{Runtime.Arithmetic} (now : Z)
    (metric : Runtime.MetricData) (entry : string * Runtime.num)
    : option Runtime.AlertEvent :=
  if contains (fst entry) (Runtime.metric_name metric)
     && Runtime.flt (Runtime.value metric) (snd entry)
  then Some (Runtime.mkAlert now (Runtime.metric_name metric)
               (Runtime.value metric) (snd entry)
               (if Runtime.flt (Runtime.fmul (snd entry) (Runtime.of_Q 0.8))
                               (Runtime.value metric)
                then "warning"%string else "critical"%string))
  else None.

(** A processor with the single threshold [threshold] for metric names
    that contain "quality", and a point of value [v], both given by their
    decimal literals. *)
Definition quality_threshold_processor `{Runtime.Arithmetic} (threshold : Q)
    : Runtime.Processor :=
  Runtime.mkProcessor
    (Runtime.mkConfig 365 [("quality"%string, Runtime.of_Q threshold)]) ∅ [].

Definition quality_point `{Runtime.Arithmetic} (v : Q) : Runtime.MetricData :=
  Runtime.mkMetric "quality_score" (Runtime.of_Q v) (Runtime.naive 0) ∅ ∅.

(** The severities of the alerts that tracking a point of value [v] under
    the threshold [threshold] appends. *)
Definition severities `{Runtime.Arithmetic} (threshold v : Q) : list string :=
  List.map Runtime.alert_severity
    (Runtime.alert_history
       (Runtime.track_metric 0 (quality_threshold_processor threshold)
          (quality_point v))).






(** A computation returns. *)
Definition returns {A} (m : Runtime.result A) : Prop := exists a, m = inr a.


(** The first microsecond of 2024-01-01, day 738885 of the calendar. *)
Definition new_year_2024 : Z := (738885 * Analytics.microseconds_per_day)%Z.

(** A store with three points of metric "m", tracked on the three days
    before 2024-01-01, newest first. *)
Definition trend_processor : @Runtime.Processor Runtime.binary64 :=
  @Runtime.mkProcessor Runtime.binary64
    (@Runtime.mkConfig Runtime.binary64 365 [])
    {[ "m"%string :=
         [@Runtime.mkMetric Runtime.binary64 "m" (Runtime.nearest_float 5)
            (Runtime.naive (new_year_2024 - 1 * Analytics.microseconds_per_day)) ∅ ∅;
          @Runtime.mkMetric Runtime.binary64 "m" (Runtime.nearest_float 3)
            (Runtime.naive (new_year_2024 - 2 * Analytics.microseconds_per_day)) ∅ ∅;
          @Runtime.mkMetric Runtime.binary64 "m" (Runtime.nearest_float 1)
            (Runtime.naive (new_year_2024 - 3 * Analytics.microseconds_per_day)) ∅ ∅] ]}
    [].

(** The same store with a single point whose timestamp is timezone-aware. *)
Definition aware_processor : @Runtime.Processor Runtime.binary64 :=
  @Runtime.mkProcessor Runtime.binary64
    (@Runtime.mkConfig Runtime.binary64 365 [])
    {[ "m"%string :=
         [@Runtime.mkMetric Runtime.binary64 "m" (Runtime.nearest_float 5)
            (Runtime.aware (new_year_2024 - 1 * Analytics.microseconds_per_day))
            ∅ ∅] ]}
    [].

(** ** Ownership of the working copy

    [owned h0 w h]: every object of the caller's heap [h0] is still in [h]
    with its contents; [w] is a record created since, whose attribute dict
    was also created since, and whose references point to a dict and to a
    list. *)
Definition owned (h0 : Enricher.heap) (w : loc) (h : Enricher.heap) : Prop :=
  h0 ⊆ h
  /\ h0 !! w = None
  /\ exists p d m i l,
       h !! w = Some (Enricher.OProduct p)
       /\ Enricher.o_attributes p = Some d
       /\ h0 !! d = None
       /\ h !! d = Some (Enricher.ODict m)
       /\ Enricher.o_images p = Some i
       /\ h !! i = Some (Enricher.OList l).

(** A computation keeps a heap predicate, whether it returns or raises. *)
Definition preserves {A} (I : Enricher.heap -> Prop) (m : Enricher.M A) : Prop :=
  forall h, I h -> I (m h).1.

(** A pass hands back the record it was given. *)
Definition returns_record (w : loc) (m : Enricher.M Enricher.PassResult) : Prop :=
  forall h h' r, m h = (h', inr r) -> r.1.1 = w.

(** A caller's record is well formed when its references point to a dict
    and to a list (or are [None]). *)
Definition well_formed (h : Enricher.heap) (product : loc) : Prop :=
  is_Some (Enricher.read_product h product).

(** A caller's heap with one record (at location 1), its attribute dict
    (at 2) and its image list (at 3). *)
Definition sample_record : Enricher.ProductObj :=
  Enricher.mkProductObj "P1" (Some "Widget"%string)
    (Some "A small widget"%string) (Some 5) (Some "Electronics"%string)
    None None (Some 2%positive) (Some 3%positive).

Definition sample_heap : Enricher.heap :=
  <[3%positive := Enricher.OList ["a.jpg"%string]]>
    (<[2%positive := Enricher.ODict {[ "color"%string := VStr "red" ]}]>
       (<[1%positive := Enricher.OProduct sample_record]> ∅)).

(** Text heuristics whose title rewriting raises and whose other parts do
    the least possible: a scenario with one failing pass. *)
Definition failing_title_heuristics : Enricher.Heuristics :=
  {| Enricher._optimize_title_for_seo := fun _ _ _ => inl "boom"%string;
     Enricher._optimize_description_for_seo := fun d _ _ => inr d;
     Enricher._calculate_keyword_density := fun _ => inr 0;
     Enricher._calculate_readability_score := fun _ => inr 0;
     Enricher._generate_meta_description := fun _ _ => inr None;
     Enricher._generate_enhanced_title := fun _ _ => inr None;
     Enricher._generate_enhanced_description := fun _ _ => inr None;
     Enricher._generate_bullet_points := fun _ _ => inr None;
     Enricher._generate_usage_scenarios := fun _ _ => inr None;
     Enricher._calculate_content_richness := fun _ _ => inr 0;
     Enricher._optimize_title_for_amazon := fun _ _ => inr ""%string;
     Enricher._generate_amazon_bullet_points := fun _ _ => inr None;
     Enricher._generate_amazon_search_terms := fun _ _ => inr None;
     Enricher._calculate_amazon_a9_score := fun _ _ => inr 0;
     Enricher._score_title_quality := fun _ => inr 0;
     Enricher._score_description_quality := fun _ => inr 0;
     Enricher._check_brand_compliance := fun _ _ => inr 100;
     Enricher._suggest_category := fun _ _ => inr None;
     Enricher._calculate_category_confidence := fun _ _ => inr 90;
     Enricher.now_isoformat := "2024-01-01T00:00:00"%string;
     Enricher.split_count := fun _ _ => 1%nat;
     Enricher.str_of_nat := fun _ => "3"%string;
     Enricher.format_1f := fun _ => "50.0"%string |}.

Definition sample_config : Enricher.EnrichmentConfig :=
  Enricher.mkEnrichmentConfig
    [Enricher.SEO_OPTIMIZATION; Enricher.MULTI_CHANNEL; Enricher.CATEGORIZATION]
    [] [] [] ∅ ∅.

(** A formatting interface for concrete cohort examples, which group by
    string-valued fields only. *)
Definition sample_repr : Analytics.Repr :=
  {| Analytics.str_num := fun _ => "0"%string;
     Analytics.str_dict := fun _ => "{}"%string;
     Analytics.str_list := fun _ => "[]"%string |}.

(** A record without a category. *)
Definition uncategorised_product : ProductData :=
  mkProduct "P2" (Some "Lamp"%string) None None None None None ∅ [].

(** A record with every field but the SKU, filled so that its content
    quality score is 100. *)
Definition rich_product : ProductData :=
  mkProduct "P3" (Some "Wireless Noise Cancelling Headphones"%string)
    (Some ("Over-ear headphones with active noise cancelling, thirty hours of "
           ++ "battery life, a foldable frame, a carrying case and a detachable "
           ++ "cable for wired listening on long flights.")%string)
    (Some 99) (Some "Electronics"%string) (Some "Acme"%string) None
    (list_to_map
       [("a0", VNone); ("a1", VNone); ("a2", VNone); ("a3", VNone); ("a4", VNone);
        ("a5", VNone); ("a6", VNone); ("a7", VNone); ("a8", VNone);
        ("a9", VNone)]%string)
    ["1.jpg"; "2.jpg"; "3.jpg"; "4.jpg"; "5.jpg"]%string.

(** * Properties *)

(** ** Arithmetic helpers *)

Lemma Qnat_nonneg (n : nat) : 0 <= Qnat n.
Proof.
  unfold Qnat. change 0 with (inject_Z 0). rewrite <- Zle_Qle. lia.
Qed.

Lemma Qnat_le (n m : nat) : (n <= m)%nat -> Qnat n <= Qnat m.
Proof. intros Hle. unfold Qnat. rewrite <- Zle_Qle. lia. Qed.

Lemma Qnat_lt (n m : nat) : (n < m)%nat -> Qnat n < Qnat m.
Proof. intros Hlt. unfold Qnat. rewrite <- Zlt_Qlt. lia. Qed.

Lemma Qnat_S (n : nat) : Qnat (S n) == Qnat n + 1.
Proof.
  unfold Qnat. rewrite Nat2Z.inj_succ, <- Z.add_1_r, inject_Z_plus. reflexivity.
Qed.

Lemma Qmin_nonneg (a b : Q) : 0 <= a -> 0 <= b -> 0 <= Qmin a b.
Proof. intros Ha Hb. apply Q.min_glb; assumption. Qed.

Lemma Qmin_cases (a b : Q) :
  (a <= b /\ Qmin a b == a) \/ (b < a /\ Qmin a b == b).
Proof.
  destruct (Q.min_spec a b) as [[Hlt Heq] | [Hle Heq]].
  - left. split; [apply Qlt_le_weak, Hlt | exact Heq].
  - destruct (Qle_lt_or_eq _ _ Hle) as [Hlt | Heq'].
    + right. split; [exact Hlt | exact Heq].
    + left. split; [rewrite Heq'; apply Qle_refl | rewrite Heq, Heq'; reflexivity].
Qed.

(** ** Scoring functions *)

Section ScoringFacts.

Import Scoring.

Lemma count_true_le (bs : list bool) : (count_true bs <= List.length bs)%nat.
Proof. unfold count_true. apply List.filter_length_le. Qed.

Lemma basic_fields_share (bs : list bool) :
  List.length bs = 3%nat ->
  0 <= Qnat (count_true bs) / Qnat (List.length bs) * 10 <= 10.
Proof.
  intros Hlen. pose proof (count_true_le bs) as Hle. rewrite Hlen in *.
  pose proof (Qnat_nonneg (count_true bs)) as H0.
  pose proof (Qnat_le _ _ Hle) as H3.
  change (Qnat 3) with 3 in *.
  split.
  - apply Qmult_le_0_compat; [|lra].
    apply Qle_shift_div_l; lra.
  - assert (Qnat (count_true bs) / 3 <= 1) by (apply Qle_shift_div_r; lra).
    lra.
Qed.

Lemma quality_score_nonneg (product : ProductData) :
  0 <= _calculate_content_quality_score product.
Proof.
  unfold _calculate_content_quality_score.
  apply Qmin_nonneg; [lra|].
  pose proof (basic_fields_share
                [truthy_num (price product); truthy_str (category product);
                 truthy_str (brand product)] eq_refl) as [Hb _].
  pose proof (Qmin_nonneg 20 (Qnat (size (attributes product)) * 2)) as Ha.
  pose proof (Qmin_nonneg 10 (Qnat (List.length (images product)) * 2)) as Hi.
  pose proof (Qnat_nonneg (size (attributes product))).
  pose proof (Qnat_nonneg (List.length (images product))).
  repeat match goal with
         | |- context [if ?b then _ else _] => destruct b
         end; lra.
Qed.

Lemma truthy_of_opt_str (o : option string) : truthy (of_opt_str o) = truthy_str o.
Proof. destruct o; reflexivity. Qed.

Lemma truthy_of_opt_num (o : option Q) : truthy (of_opt_num o) = truthy_num o.
Proof. destruct o; reflexivity. Qed.

(** A loop that adds a contribution per field sums the contributions. *)
Lemma fold_left_contrib (step : Q -> string -> Q) (contrib : string -> Q)
    (fields : list string) (s0 : Q) :
  (forall s f, step s f == s + contrib f) ->
  fold_left step fields s0 == s0 + Qsum (List.map contrib fields).
Proof.
  intros Hstep. revert s0.
  induction fields as [|f fields IH]; intros s0; cbn [fold_left List.map].
  - unfold Qsum. cbn [fold_right]. ring.
  - rewrite IH, Hstep.
    change (Qsum (contrib f :: List.map contrib fields))
      with (contrib f + Qsum (List.map contrib fields)).
    ring.
Qed.

Lemma required_fields_sum (product : ProductData) :
  Qsum (List.map (fun f => pts (field_truthy product f) 14) required_fields)
  == pts (negb (String.eqb (id product) "")) 14
     + pts (truthy_str (title product)) 14
     + pts (truthy_str (description product)) 14
     + pts (truthy_num (price product)) 14
     + pts (truthy_str (category product)) 14.
Proof.
  unfold required_fields, field_truthy.
  unfold Qsum.
  cbn [List.map fold_right getattr String.eqb Ascii.eqb Bool.eqb].
  rewrite !truthy_of_opt_str, !truthy_of_opt_num. cbn [truthy]. ring.
Qed.

(** The completeness score of the analytics processor, unfolded: 14 per
    truthy required field and 7.5 per truthy optional field. *)
Lemma completeness_score_unfold (product : ProductData) :
  _calculate_completeness_score product ==
  Qmin 100
    (pts (negb (String.eqb (id product) "")) 14
     + pts (truthy_str (title product)) 14
     + pts (truthy_str (description product)) 14
     + pts (truthy_num (price product)) 14
     + pts (truthy_str (category product)) 14
     + pts (truthy_str (brand product)) 7.5
     + pts (truthy_str (sku product)) 7.5
     + pts (truthy_list (images product)) 7.5
     + pts (truthy_dict (attributes product)) 7.5).
Proof.
  unfold _calculate_completeness_score. cbv zeta.
  apply Q.min_compat; [reflexivity|].
  rewrite (fold_left_contrib _ (fun f => pts (field_truthy product f) 7.5)).
  2:{ intros s f. unfold pts. destruct (field_truthy product f); [|ring].
      destruct (String.eqb f "attributes" && truthy_dict (attributes product));
        [ring|].
      destruct (String.eqb f "images" && truthy_list (images product)); ring. }
  rewrite (fold_left_contrib _ (fun f => pts (field_truthy product f) 14)).
  2:{ intros s f. unfold pts. destruct (field_truthy product f); ring. }
  rewrite required_fields_sum.
  unfold optional_fields, field_truthy.
  unfold Qsum.
  cbn [List.map fold_right getattr String.eqb Ascii.eqb Bool.eqb].
  rewrite !truthy_of_opt_str. cbn [truthy]. unfold pts. ring.
Qed.

Lemma pts_bounds (b : bool) (w : Q) : 0 <= w -> 0 <= pts b w <= w.
Proof. intros Hw. unfold pts. destruct b; lra. Qed.

Lemma completeness_score_nonneg (product : ProductData) :
  0 <= _calculate_completeness_score product.
Proof.
  rewrite completeness_score_unfold.
  apply Qmin_nonneg; [lra|].
  repeat match goal with
         | |- context [pts ?b ?w] =>
             let H := fresh in
             assert (0 <= w) as H by lra;
             apply (pts_bounds b) in H; generalize dependent (pts b w); intros
         end.
  lra.
Qed.

Lemma seo_score_nonneg (product : ProductData) :
  0 <= _calculate_seo_score product.
Proof.
  unfold _calculate_seo_score.
  apply Qmin_nonneg; [lra|].
  pose proof (basic_fields_share
                (List.map
                   (fun attr => bool_decide (is_Some (attributes product !! attr)))
                   ["meta_description"; "keywords"; "tags"]%string) eq_refl)
    as [Hb _].
  cbn [List.map List.length] in Hb. cbv zeta. cbn [List.map List.length].
  repeat match goal with
         | |- context [if ?b then _ else _] => destruct b
         end; lra.
Qed.

(** C5.  For every product record, the content quality score, the
    completeness score and the SEO score all lie between 0 and 100. *)
Theorem scores_within_0_100 (product : ProductData) :
  (0 <= _calculate_content_quality_score product
   /\ _calculate_content_quality_score product <= 100)
  /\ (0 <= _calculate_completeness_score product
      /\ _calculate_completeness_score product <= 100)
  /\ (0 <= _calculate_seo_score product
      /\ _calculate_seo_score product <= 100).
Proof.
  repeat split.
  - apply quality_score_nonneg.
  - apply Q.le_min_l.
  - apply completeness_score_nonneg.
  - apply Q.le_min_l.
  - apply seo_score_nonneg.
  - apply Q.le_min_l.
Qed.

End ScoringFacts.

(** ** The two completeness scores *)

Section CompletenessFacts.

Import Scoring.

Lemma content_completeness_unfold (product : ProductData) :
  Enricher._calculate_content_completeness product ==
  Qmin 100
    (pts (negb (String.eqb (id product) "")) 14
     + pts (truthy_str (title product)) 14
     + pts (truthy_str (description product)) 14
     + pts (truthy_num (price product)) 14
     + pts (truthy_str (category product)) 14
     + pts (truthy_str (brand product)) 7.5
     + pts (truthy_str (sku product)) 7.5
     + pts (truthy_list (images product))
           (Qmin 7.5 (Qnat (List.length (images product)) * 2.5))
     + pts (truthy_dict (attributes product))
           (Qmin 7.5 (Qnat (size (attributes product)) * 1.5))).
Proof.
  unfold Enricher._calculate_content_completeness. cbv zeta.
  apply Q.min_compat; [reflexivity|].
  rewrite (fold_left_contrib _
             (fun f =>
                pts (field_truthy product f)
                    (if String.eqb f "attributes"
                     then Qmin 7.5 (Qnat (size (attributes product)) * 1.5)
                     else if String.eqb f "images"
                     then Qmin 7.5 (Qnat (List.length (images product)) * 2.5)
                     else 7.5))).
  2:{ intros s f. unfold pts. destruct (field_truthy product f); [|ring].
      destruct (String.eqb f "attributes"); [ring|].
      destruct (String.eqb f "images"); ring. }
  rewrite (fold_left_contrib _ (fun f => pts (field_truthy product f) 14)).
  2:{ intros s f. unfold pts. destruct (field_truthy product f); ring. }
  rewrite required_fields_sum.
  unfold optional_fields, field_truthy.
  unfold Qsum.
  cbn [List.map fold_right getattr String.eqb Ascii.eqb Bool.eqb].
  rewrite !truthy_of_opt_str. cbn [truthy]. unfold pts. ring.
Qed.

Lemma truthy_list_length {A} (l : list A) :
  truthy_list l = negb (Nat.eqb (List.length l) 0).
Proof. destruct l; reflexivity. Qed.

Lemma count_true_cons (b : bool) (bs : list bool) :
  Qnat (count_true (b :: bs)) == pts b 1 + Qnat (count_true bs).
Proof.
  unfold count_true, pts. cbn [List.filter]. destruct b.
  - cbn [List.length]. rewrite Qnat_S. ring.
  - ring.
Qed.

Lemma pts_scale (b : bool) (w : Q) : pts b 1 * w == pts b w.
Proof. unfold pts. destruct b; ring. Qed.

(** The analytics score is the specified formula. *)
Lemma completeness_score_meets_spec (product : ProductData) :
  _calculate_completeness_score product == spec_completeness product.
Proof.
  rewrite completeness_score_unfold. unfold spec_completeness. cbv zeta.
  apply Q.min_compat; [reflexivity|].
  rewrite !count_true_cons. change (Qnat (count_true [])) with 0.
  rewrite truthy_list_length. unfold truthy_dict.
  rewrite <- !(pts_scale _ 14), <- !(pts_scale _ 7.5). ring.
Qed.

(** A graded contribution [min(7.5, count * step)] reaches the flat 7.5
    exactly when the collection is empty or holds [full] items. *)
Lemma graded_le (b : bool) (x : Q) : pts b (Qmin 7.5 x) <= pts b 7.5.
Proof. unfold pts. destruct b; [apply Q.le_min_l | lra]. Qed.

Lemma graded_eq_iff (n full : nat) (step : Q) :
  Qnat full * step == 7.5 -> 0 < step ->
  pts (negb (Nat.eqb n 0)) (Qmin 7.5 (Qnat n * step))
    == pts (negb (Nat.eqb n 0)) 7.5
  <-> (n = 0 \/ full <= n)%nat.
Proof.
  intros Hfull Hstep. unfold pts.
  destruct (Nat.eqb_spec n 0) as [-> | Hn]; cbn [negb].
  - split; [intros _; left; reflexivity | reflexivity].
  - destruct (le_lt_dec full n) as [Hge | Hlt].
    + split; [intros _; right; exact Hge|]. intros _.
      apply Q.min_l. apply Qnat_le in Hge. nra.
    + split; [|intros [? | ?]; lia]. intros Heq. exfalso.
      apply Qnat_lt in Hlt.
      destruct (Qmin_cases 7.5 (Qnat n * step)) as [[Hle _] | [Hlt' Hmin]]; nra.
Qed.

(** The enrichment pass computes the graded variant. *)
Lemma content_completeness_graded (product : ProductData) :
  Enricher._calculate_content_completeness product
  == graded_completeness product.
Proof.
  rewrite content_completeness_unfold. unfold graded_completeness. cbv zeta.
  apply Q.min_compat; [reflexivity|].
  rewrite !count_true_cons. change (Qnat (count_true [])) with 0.
  assert (pts (truthy_list (images product))
              (Qmin 7.5 (Qnat (List.length (images product)) * 2.5))
          == Qmin 7.5 (Qnat (List.length (images product)) * 2.5)) as ->.
  { destruct (images product); [|reflexivity]. reflexivity. }
  assert (pts (truthy_dict (attributes product))
              (Qmin 7.5 (Qnat (size (attributes product)) * 1.5))
          == Qmin 7.5 (Qnat (size (attributes product)) * 1.5)) as ->.
  { unfold truthy_dict.
    destruct (Nat.eqb_spec (size (attributes product)) 0) as [-> | _];
      reflexivity. }
  rewrite <- !(pts_scale _ 14), <- !(pts_scale _ 7.5). ring.
Qed.

(** C3 (amended).  The completeness score of the analytics processor is
    the specified formula (14 per truthy required field, 7.5 per present
    optional field, capped at 100).  The enrichment pass computes the
    graded variant, in which the attributes contribute
    min(7.5, 1.5 x count) and the images min(7.5, 2.5 x count); so its
    score never exceeds the analytics score, and the two agree exactly
    when the record has no or at least five attributes and no or at least
    three images. *)
Theorem completeness_scores_compared (product : ProductData) :
  _calculate_completeness_score product == spec_completeness product
  /\ Enricher._calculate_content_completeness product
     == graded_completeness product
  /\ Enricher._calculate_content_completeness product
     <= _calculate_completeness_score product
  /\ (Enricher._calculate_content_completeness product
      == _calculate_completeness_score product
      <-> ((size (attributes product) = 0 \/ 5 <= size (attributes product))
           /\ (List.length (images product) = 0
               \/ 3 <= List.length (images product)))%nat).
Proof.
  split; [apply completeness_score_meets_spec|].
  split; [apply content_completeness_graded|].
  rewrite content_completeness_unfold, completeness_score_unfold.
  rewrite truthy_list_length. unfold truthy_dict.
  set (n := List.length (images product)).
  set (m := size (attributes product)).
  pose proof (graded_le (negb (Nat.eqb n 0)) (Qnat n * 2.5)) as Hi.
  pose proof (graded_le (negb (Nat.eqb m 0)) (Qnat m * 1.5)) as Ha.
  pose proof (graded_eq_iff n 3 2.5 ltac:(reflexivity) ltac:(lra)) as Hin.
  pose proof (graded_eq_iff m 5 1.5 ltac:(reflexivity) ltac:(lra)) as Han.
  assert (0 <= pts (negb (Nat.eqb n 0)) (Qmin 7.5 (Qnat n * 2.5))) as Hi0.
  { unfold pts. destruct (negb (Nat.eqb n 0)); [|lra].
    apply Qmin_nonneg; [lra|]. pose proof (Qnat_nonneg n). lra. }
  assert (0 <= pts (negb (Nat.eqb m 0)) (Qmin 7.5 (Qnat m * 1.5))) as Ha0.
  { unfold pts. destruct (negb (Nat.eqb m 0)); [|lra].
    apply Qmin_nonneg; [lra|]. pose proof (Qnat_nonneg m). lra. }
  pose proof (pts_bounds (negb (Nat.eqb n 0)) 7.5 ltac:(lra)) as Hfi.
  pose proof (pts_bounds (negb (Nat.eqb m 0)) 7.5 ltac:(lra)) as Hfa.
  revert Hi Ha Hin Han Hi0 Ha0 Hfi Hfa.
  generalize (pts (negb (Nat.eqb n 0)) (Qmin 7.5 (Qnat n * 2.5))).
  generalize (pts (negb (Nat.eqb m 0)) (Qmin 7.5 (Qnat m * 1.5))).
  generalize (pts (negb (Nat.eqb n 0)) 7.5).
  generalize (pts (negb (Nat.eqb m 0)) 7.5).
  intros fa fi ga gi Hi Ha Hin Han Hi0 Ha0 Hfi Hfa.
  pose proof (pts_bounds (negb (String.eqb (id product) "")) 14 ltac:(lra)).
  pose proof (pts_bounds (truthy_str (title product)) 14 ltac:(lra)).
  pose proof (pts_bounds (truthy_str (description product)) 14 ltac:(lra)).
  pose proof (pts_bounds (truthy_num (price product)) 14 ltac:(lra)).
  pose proof (pts_bounds (truthy_str (category product)) 14 ltac:(lra)).
  pose proof (pts_bounds (truthy_str (brand product)) 7.5 ltac:(lra)).
  pose proof (pts_bounds (truthy_str (sku product)) 7.5 ltac:(lra)).
  set (base := pts (negb (String.eqb (id product) "")) 14
               + pts (truthy_str (title product)) 14
               + pts (truthy_str (description product)) 14
               + pts (truthy_num (price product)) 14
               + pts (truthy_str (category product)) 14
               + pts (truthy_str (brand product)) 7.5
               + pts (truthy_str (sku product)) 7.5) in *.
  assert (0 <= base <= 85) as Hbase by (unfold base; lra).
  rewrite (Q.min_r 100 (base + gi + ga)) by lra.
  rewrite (Q.min_r 100 (base + fi + fa)) by lra.
  split; [lra|]. split.
  - intros Heq. split; [apply Han | apply Hin]; lra.
  - intros [Hm Hn]. apply Han in Hm. apply Hin in Hn. lra.
Qed.

(** C3, as stated, fails: with a single attribute the analytics score
    counts 7.5 points for the attributes and the enrichment pass 1.5. *)
Lemma completeness_scores_differ :
  ~ (Enricher._calculate_content_completeness one_attribute_product
     == _calculate_completeness_score one_attribute_product).
Proof. vm_compute. discriminate. Qed.

End CompletenessFacts.

(** ** Distribution buckets *)

Section DistributionFacts.

Import Scoring.

Lemma bucket_total_bump (key : string) (buckets : gmap string nat) :
  bucket_total (bump key buckets) = S (bucket_total buckets).
Proof.
  unfold bump, bucket_total.
  destruct (buckets !! key) as [n|] eqn:Hkey; cbn [default].
  - rewrite <- (insert_delete_id buckets key n Hkey) at 2.
    rewrite <- (insert_delete_eq buckets key (S n)).
    rewrite !map_fold_insert_L; try (intros; lia); try apply lookup_delete_eq.
  - rewrite map_fold_insert_L; try (intros; lia); auto.
Qed.

Lemma dom_bump (key : string) (buckets : gmap string nat) :
  key ∈ dom buckets -> dom (bump key buckets) = dom buckets.
Proof.
  intros Hin. unfold bump. rewrite dom_insert_L.
  apply subseteq_union_1_L, singleton_subseteq_l, Hin.
Qed.

Lemma zero_buckets_key (key : string) :
  zero_buckets !! key = Some O -> key ∈ dom zero_buckets.
Proof. intros Hkey. apply elem_of_dom. eauto. Qed.

(** The counting loop keeps the five bucket labels and counts every value
    once. *)
Lemma distribution_loop (values : list Q) (buckets : gmap string nat) :
  dom buckets = dom zero_buckets ->
  let result :=
    fold_left
      (fun buckets value =>
         if Qle_bool value 20 then bump "0-20" buckets
         else if Qle_bool value 40 then bump "21-40" buckets
         else if Qle_bool value 60 then bump "41-60" buckets
         else if Qle_bool value 80 then bump "61-80" buckets
         else bump "81-100" buckets)
      values buckets in
  dom result = dom zero_buckets
  /\ bucket_total result = (bucket_total buckets + List.length values)%nat.
Proof.
  revert buckets.
  induction values as [|value values IH]; intros buckets Hdom; cbn [fold_left].
  - split; [exact Hdom | cbn [List.length]; lia].
  - cbn [List.length].
    assert (forall key, zero_buckets !! key = Some O ->
              dom (bump key buckets) = dom zero_buckets
              /\ bucket_total (bump key buckets) = S (bucket_total buckets))
      as Hbump.
    { intros key Hkey. split; [|apply bucket_total_bump].
      rewrite dom_bump; [exact Hdom|].
      rewrite Hdom. apply zero_buckets_key, Hkey. }
    repeat match goal with
           | |- context [if ?b then _ else _] => destruct b
           end;
      match goal with
      | |- context [bump ?key buckets] =>
          destruct (Hbump key eq_refl) as [Hd Ht];
          destruct (IH _ Hd) as [IHd IHt];
          split; [exact IHd | rewrite IHt, Ht; lia]
      end.
Qed.

(** C6 (amended).  Bucketing an empty score list yields the empty mapping,
    with no bucket label at all; it raises no error.  The five-bucket
    structure is produced for non-empty lists only, where the bucket labels
    are the five fixed ones and the counts add up to the number of
    scores. *)
Theorem distribution_of_empty_list :
  _create_distribution [] = ∅
  /\ (forall key, _create_distribution [] !! key = None)
  /\ (forall v values,
        dom (_create_distribution (v :: values)) = dom zero_buckets
        /\ bucket_total (_create_distribution (v :: values))
           = List.length (v :: values)).
Proof.
  split; [reflexivity|]. split; [intros key; apply lookup_empty|].
  intros v values.
  unfold _create_distribution.
  destruct (distribution_loop (v :: values) zero_buckets eq_refl) as [Hd Ht].
  split; [exact Hd|]. rewrite Ht. reflexivity.
Qed.

(** C6, as stated, fails: the empty list does not yield the zero-filled
    five-bucket structure. *)
Lemma distribution_of_empty_list_not_zero_filled :
  _create_distribution [] <> zero_buckets.
Proof.
  intros Heq.
  assert (_create_distribution [] !! "0-20"%string
          = zero_buckets !! "0-20"%string) as Hkey by (rewrite Heq; reflexivity).
  vm_compute in Hkey. discriminate.
Qed.

(** The specification's example: scores [10, 25, 55, 72, 95] fall one into
    each bucket. *)
Example distribution_example :
  let d := _create_distribution [10; 25; 55; 72; 95] in
  d !! "0-20"%string = Some 1%nat /\ d !! "21-40"%string = Some 1%nat
  /\ d !! "41-60"%string = Some 1%nat /\ d !! "61-80"%string = Some 1%nat
  /\ d !! "81-100"%string = Some 1%nat.
Proof. vm_compute. repeat split. Qed.

End DistributionFacts.

(** ** Substring test *)

Section StringFacts.

Local Open Scope string_scope.

Lemma prefix_spec (sub s : string) :
  String.prefix sub s = true <-> exists post, s = sub ++ post.
Proof.
  revert s. induction sub as [|c sub IH]; intros s.
  - split; [intros _; exists s; reflexivity | intros _; destruct s; reflexivity].
  - destruct s as [|c' s]; cbn [String.prefix].
    + split; [discriminate | intros [post Hpost]; discriminate].
    + destruct (Ascii.ascii_dec c c') as [-> | Hne].
      * rewrite IH. split; intros [post Hpost]; exists post.
        -- rewrite Hpost. reflexivity.
        -- change (String c' s = String c' (sub ++ post)) in Hpost.
           injection Hpost as Hpost. exact Hpost.
      * split; [discriminate|]. intros [post Hpost].
        change (String c' s = String c (sub ++ post)) in Hpost.
        injection Hpost as Hc _. congruence.
Qed.

Lemma contains_spec (sub s : string) :
  contains sub s = true <-> is_substring sub s.
Proof.
  unfold is_substring.
  induction s as [|c s IH]; cbn [contains]; rewrite orb_true_iff, prefix_spec.
  - split.
    + intros [[post Hpost] | Hfalse]; [|discriminate].
      exists "", post. exact Hpost.
    + intros [pre [post Hs]]. left. exists post.
      destruct pre; [exact Hs | discriminate].
  - rewrite IH. split.
    + intros [[post Hpost] | [pre [post Hs]]].
      * exists "", post. exact Hpost.
      * exists (String c pre), post. rewrite Hs. reflexivity.
    + intros [pre [post Hs]]. destruct pre as [|c' pre].
      * left. exists post. exact Hs.
      * right. exists pre, post.
        change (String c s = String c' (pre ++ sub ++ post)) in Hs.
        injection Hs as _ Hs. exact Hs.
Qed.

End StringFacts.

(** ** Alert evaluation *)

Section AlertFacts.

Import Analytics.

Lemma Qltb_spec (x y : Q) : Qltb x y = true <-> x < y.
Proof.
  unfold Qltb. rewrite negb_true_iff, <- not_true_iff_false, Qle_bool_iff.
  split; [apply Qnot_le_lt | apply Qlt_not_le].
Qed.


Lemma check_one_alert_for (now : Z) (metric : MetricData)
    (history : list AlertEvent) (entry : string * Q) :
  check_one now metric history entry
  = history ++ from_option (fun a => [a]) [] (alert_for now metric entry).
Proof.
  unfold check_one, alert_for, append. destruct entry as [name th]. cbn [fst snd].
  destruct (contains name (metric_name metric)); cbn [andb];
    [destruct (Qltb (value metric) th)|]; cbn [from_option];
    rewrite ?app_nil_r; reflexivity.
Qed.

Lemma check_loop_history (now : Z) (metric : MetricData)
    (thresholds : list (string * Q)) (history : list AlertEvent) :
  fold_left (check_one now metric) thresholds history
  = history ++ omap (alert_for now metric) thresholds.
Proof.
  revert history.
  induction thresholds as [|entry thresholds IH]; intros history; cbn [fold_left].
  - cbn. rewrite app_nil_r. reflexivity.
  - rewrite IH, check_one_alert_for. cbn [omap list_omap].
    destruct (alert_for now metric entry); cbn [from_option omap].
    + rewrite <- app_assoc. reflexivity.
    + rewrite app_nil_r. reflexivity.
Qed.

(** What [track_metric] adds to the alert history. *)
Lemma track_metric_history (now : Z) (self : Processor) (metric : MetricData) :
  alert_history (track_metric now self metric)
  = alert_history self
    ++ omap (alert_for now metric) (alert_thresholds (config self)).
Proof.
  unfold track_metric, _check_alerts. cbn [config alert_history].
  destruct (alert_thresholds (config self)) as [|entry thresholds] eqn:Hth.
  - cbn. rewrite app_nil_r. reflexivity.
  - cbn [alert_history]. apply check_loop_history.
Qed.

Lemma omap_length_filter {A B} (f : A -> option B) (p : A -> bool) (l : list A) :
  (forall x, p x = true <-> is_Some (f x)) ->
  List.length (omap f l) = List.length (List.filter p l).
Proof.
  intros Hp. induction l as [|x l IH]; [reflexivity|].
  cbn [omap list_omap List.filter].
  destruct (f x) as [y|] eqn:Hfx, (p x) eqn:Hpx; cbn [List.length].
  - rewrite IH. reflexivity.
  - exfalso. rewrite <- not_true_iff_false in Hpx. apply Hpx, Hp.
    rewrite Hfx. eauto.
  - exfalso. apply Hp in Hpx. rewrite Hfx in Hpx. destruct Hpx; discriminate.
  - exact IH.
Qed.

(** C10.  The number of events that one tracked point appends to the alert
    history is the number of configured threshold entries whose name is a
    substring of the point's metric name and whose threshold is strictly
    above the point's value. *)
Theorem alerts_per_point_count
    (now : Z) (self : Processor) (metric : MetricData) :
  List.length (alert_history (track_metric now self metric))
  = (List.length (alert_history self)
     + List.length (List.filter (triggers metric)
                                (alert_thresholds (config self))))%nat
  /\ forall entry, triggers metric entry = true
       <-> is_substring (fst entry) (metric_name metric)
           /\ value metric < snd entry.
Proof.
  split.
  - rewrite track_metric_history, length_app. f_equal.
    apply omap_length_filter. intros entry. unfold alert_for, triggers.
    destruct (contains (fst entry) (metric_name metric)
              && Qltb (value metric) (snd entry)).
    + split; eauto.
    + split; [discriminate | intros [a Ha]; discriminate].
  - intros entry. unfold triggers.
    rewrite andb_true_iff, contains_spec, Qltb_spec. reflexivity.
Qed.

(** One point can raise several alerts at once: a "quality_score" point of
    value 45 is below both the "quality" and the "score" threshold. *)
Example two_alerts_from_one_point :
  List.map alert_severity
    (alert_history (track_metric 0 two_threshold_processor low_quality_point))
  = ["critical"; "warning"]%string.
Proof. vm_compute. reflexivity. Qed.

End AlertFacts.

(** ** Sums over index ranges *)

Section SumFacts.

Lemma Qsum_cons (x : Q) (l : list Q) : Qsum (x :: l) = x + Qsum l.
Proof. reflexivity. Qed.

Lemma Qsum_app (l1 l2 : list Q) : Qsum (l1 ++ l2) == Qsum l1 + Qsum l2.
Proof.
  induction l1 as [|x l1 IH]; cbn [app].
  - unfold Qsum at 2. cbn [fold_right]. ring.
  - rewrite !Qsum_cons, IH. ring.
Qed.


Lemma Qsum_map_plus {A} (f g : A -> Q) (l : list A) :
  Qsum (List.map (fun x => f x + g x) l)
  == Qsum (List.map f l) + Qsum (List.map g l).
Proof.
  induction l as [|x l IH]; cbn [List.map].
  - unfold Qsum. cbn [fold_right]. ring.
  - rewrite !Qsum_cons, IH. ring.
Qed.

Lemma Qsum_map_scale {A} (c : Q) (f : A -> Q) (l : list A) :
  Qsum (List.map (fun x => c * f x) l) == c * Qsum (List.map f l).
Proof.
  induction l as [|x l IH]; cbn [List.map].
  - unfold Qsum. cbn [fold_right]. ring.
  - rewrite !Qsum_cons, IH. ring.
Qed.

Lemma Qsum_map_const {A} (c : Q) (l : list A) :
  Qsum (List.map (fun _ => c) l) == c * Qnat (List.length l).
Proof.
  induction l as [|x l IH]; cbn [List.map List.length].
  - unfold Qsum. cbn [fold_right]. change (Qnat 0) with 0. ring.
  - rewrite Qsum_cons, IH, Qnat_S. ring.
Qed.



(** Closed forms of the sums of the first [n] indices and of their
    squares. *)
Lemma sum_indices (n : nat) :
  Qsum (List.map Qnat (seq 0 n)) == Qnat n * (Qnat n - 1) / 2.
Proof.
  induction n as [|n IH].
  - reflexivity.
  - rewrite seq_S, List.map_app, Qsum_app, IH. cbn [List.map Nat.add].
    rewrite Qsum_cons, Qnat_S. unfold Qsum. cbn [fold_right]. field.
Qed.

Lemma sum_squared_indices (n : nat) :
  Qsum (List.map (fun i => Qnat i * Qnat i) (seq 0 n))
  == (Qnat n - 1) * Qnat n * (2 * Qnat n - 1) / 6.
Proof.
  induction n as [|n IH].
  - reflexivity.
  - rewrite seq_S, List.map_app, Qsum_app, IH. cbn [List.map Nat.add].
    rewrite Qsum_cons, Qnat_S. unfold Qsum. cbn [fold_right]. field.
Qed.

End SumFacts.

(** ** Least-squares forecast *)

Section ForecastFacts.

Import Analytics.





End ForecastFacts.

(** ** A/B test analysis *)

Section ABTestFacts.

Import Analytics.

Local Open Scope R_scope.

Lemma Rsum_Q2R (l : list Q) : Rsum (List.map Q2R l) = Q2R (Qsum l).
Proof.
  induction l as [|q l IH]; cbn [List.map Rsum fold_right].
  - unfold Qsum. cbn [fold_right]. unfold Q2R. cbn. lra.
  - fold (Rsum (List.map Q2R l)). rewrite IH, Qsum_cons, Q2R_plus. reflexivity.
Qed.

Lemma Rsum_squares_Q2R (l : list Q) (m : Q) :
  Rsum (List.map (fun x => (x - Q2R m) ^ 2) (List.map Q2R l))
  = Q2R (Qsum (List.map (fun q => (q - m) * (q - m))%Q l)).
Proof.
  induction l as [|q l IH]; cbn [List.map Rsum fold_right].
  - unfold Qsum. cbn [fold_right]. unfold Q2R. cbn. lra.
  - fold (Rsum (List.map (fun x => (x - Q2R m) ^ 2) (List.map Q2R l))).
    rewrite IH, Qsum_cons, Q2R_plus, Q2R_mult, Q2R_minus. ring.
Qed.

Lemma Q2R_integer (z : Z) : Q2R (inject_Z z) = IZR z.
Proof. unfold Q2R, inject_Z. cbn. field. Qed.

(** The sample of thirty observations has the mean and the standard
    deviation it was built for. *)
Lemma unit_spread_sample_mean (centre : Z) :
  Rmean (List.map Q2R (unit_spread_sample (inject_Z centre))) = IZR centre.
Proof.
  unfold Rmean. rewrite Rsum_Q2R, length_map.
  assert (Qsum (unit_spread_sample (inject_Z centre)) == inject_Z (30 * centre))%Q
    as Hsum.
  { unfold unit_spread_sample, Qsum. cbn [repeat app List.map fold_right].
    rewrite inject_Z_mult. ring. }
  rewrite (Qeq_eqR _ _ Hsum), Q2R_integer, mult_IZR.
  unfold unit_spread_sample. rewrite length_map. cbn [repeat app List.length INR].
  field.
Qed.

Lemma unit_spread_sample_stdev (centre : Z) :
  Rstdev (List.map Q2R (unit_spread_sample (inject_Z centre))) = 1.
Proof.
  unfold Rstdev, Rvariance.
  rewrite unit_spread_sample_mean, <- Q2R_integer, Rsum_squares_Q2R, length_map.
  assert (Qsum (List.map (fun q => (q - inject_Z centre) * (q - inject_Z centre))
                         (unit_spread_sample (inject_Z centre))) == 29)%Q
    as Hsum.
  { unfold unit_spread_sample, Qsum. cbn [repeat app List.map fold_right]. ring. }
  rewrite (Qeq_eqR _ _ Hsum).
  unfold unit_spread_sample. rewrite length_map.
  cbn [repeat app List.length Nat.sub INR].
  replace (Q2R 29 / _) with 1 by (unfold Q2R; cbn; field).
  apply sqrt_1.
Qed.

Lemma sqrt_one_fifteenth : 0 < sqrt (2 / INR 30) < 1.
Proof.
  assert (2 / INR 30 = / 15) as -> by (cbn [INR]; field).
  split.
  - apply sqrt_lt_R0. lra.
  - apply Rlt_le_trans with (sqrt 1); [apply sqrt_lt_1; lra | rewrite sqrt_1; lra].
Qed.

(** C9.  For two non-empty groups the t-statistic is
    |variant_mean - control_mean| / (pooled_std * sqrt(2 / min(n_control,
    n_variant))) when pooled_std > 0 and 0 otherwise; the result is
    significant exactly when the t-statistic exceeds 1.96; the
    recommendation is "Deploy variant" exactly when the result is
    significant with a positive improvement and "Keep control" otherwise.
    In particular two groups of 30 with standard deviation 1 and means 10
    (control) and 14 (variant) give a significant result and the
    recommendation "Deploy variant". *)
Theorem ab_test_significance
    (name : string) (control variant : list MetricData) :
  control <> [] -> variant <> [] ->
  let control_values := List.map (fun m => Q2R (value m)) control in
  let variant_values := List.map (fun m => Q2R (value m)) variant in
  exists r,
    generate_ab_test_analysis name control variant = inr r
    /\ group_mean (control_group r) = Rmean control_values
    /\ group_mean (variant_group r) = Rmean variant_values
    /\ sample_size (control_group r) = List.length control
    /\ sample_size (variant_group r) = List.length variant
    /\ pooled_std_dev r
       = sqrt ((std_dev (control_group r) ^ 2
                + std_dev (variant_group r) ^ 2) / 2)
    /\ (0 < pooled_std_dev r ->
        t_statistic r
        = Rabs (Rmean variant_values - Rmean control_values)
          / (pooled_std_dev r
             * sqrt (2 / INR (Nat.min (List.length control)
                                      (List.length variant)))))
    /\ (~ 0 < pooled_std_dev r -> t_statistic r = 0)
    /\ (is_significant r = true <-> 1.96 < t_statistic r)
    /\ (recommendation r = "Deploy variant"%string
        <-> is_significant r = true /\ 0 < improvement_percentage r)
    /\ (recommendation r = "Keep control"%string
        <-> ~ (is_significant r = true /\ 0 < improvement_percentage r))
    /\ (List.length control = 30%nat -> List.length variant = 30%nat ->
        Rmean control_values = 10 -> std_dev (control_group r) = 1 ->
        Rmean variant_values = 14 -> std_dev (variant_group r) = 1 ->
        is_significant r = true
        /\ recommendation r = "Deploy variant"%string).
Proof.
  intros Hc Hv control_values variant_values.
  unfold generate_ab_test_analysis. fold control_values variant_values.
  assert (truthy_list control_values = true) as ->
    by (unfold control_values; destruct control; [congruence | reflexivity]).
  assert (truthy_list variant_values = true) as ->
    by (unfold variant_values; destruct variant; [congruence | reflexivity]).
  cbn [negb orb].
  assert (List.length control_values = List.length control) as ->
    by apply length_map.
  assert (List.length variant_values = List.length variant) as ->
    by apply length_map.
  set (control_std := if (1 <? List.length control)%nat
                      then Rstdev control_values else 0).
  set (variant_std := if (1 <? List.length variant)%nat
                      then Rstdev variant_values else 0).
  set (pooled_std := sqrt ((control_std ^ 2 + variant_std ^ 2) / 2)).
  set (improvement := if Req_dec_T (Rmean control_values) 0 then 0
                      else (Rmean variant_values - Rmean control_values)
                           / Rmean control_values * 100).
  set (t_stat := if Rlt_dec 0 pooled_std
                 then Rabs (Rmean variant_values - Rmean control_values)
                      / (pooled_std
                         * sqrt (2 / INR (Nat.min (List.length control)
                                                  (List.length variant))))
                 else 0).
  eexists. split; [reflexivity|].
  cbn [control_group variant_group group_mean sample_size std_dev
       pooled_std_dev t_statistic is_significant recommendation
       improvement_percentage].
  assert (forall b1 b2 : bool,
            (if b1 && b2 then "Deploy variant"%string else "Keep control"%string)
            = "Deploy variant"%string <-> b1 = true /\ b2 = true) as Hdeploy.
  { intros [] []; cbn; split; try tauto; try discriminate;
      intros [? ?]; discriminate. }
  assert (forall b1 b2 : bool,
            (if b1 && b2 then "Deploy variant"%string else "Keep control"%string)
            = "Keep control"%string <-> ~ (b1 = true /\ b2 = true)) as Hkeep.
  { intros [] []; cbn; split; try tauto; try discriminate;
      try (intros _ [? ?]; discriminate); intros Hn; exfalso; apply Hn; tauto. }
  assert (forall x y : R, (if Rlt_dec x y then true else false) = true <-> x < y)
    as Hlt.
  { intros x y. destruct (Rlt_dec x y); split; try tauto; discriminate. }
  do 5 (split; [reflexivity|]).
  split.
  { intros Hpos. unfold t_stat.
    destruct (Rlt_dec 0 pooled_std); [reflexivity|tauto]. }
  split.
  { intros Hnpos. unfold t_stat.
    destruct (Rlt_dec 0 pooled_std); [tauto|reflexivity]. }
  split; [apply Hlt|].
  split; [rewrite Hdeploy, !Hlt; reflexivity|].
  split; [rewrite Hkeep, !Hlt; reflexivity|].
  intros Hnc Hnv Hcm Hcs Hvm Hvs.
  rewrite Hdeploy, !Hlt.
  assert (pooled_std = 1) as Hp.
  { unfold pooled_std. rewrite Hcs, Hvs.
    replace ((1 ^ 2 + 1 ^ 2) / 2) with 1 by field. apply sqrt_1. }
  assert (1.96 < t_stat) as Ht.
  { unfold t_stat. rewrite Hp, Hnc, Hnv, Hcm, Hvm.
    destruct (Rlt_dec 0 1) as [_|Hn]; [|lra].
    replace (14 - 10) with 4 by ring. rewrite Rabs_right by lra.
    change (Nat.min 30 30) with 30%nat.
    pose proof sqrt_one_fifteenth as [Hs0 Hs1].
    apply Rlt_trans with 4; [lra|].
    apply Rmult_lt_reg_r with (1 * sqrt (2 / INR 30)); [lra|].
    field_simplify; lra. }
  assert (0 < improvement) as Hi.
  { unfold improvement. rewrite Hcm, Hvm. destruct (Req_dec_T 10 0); lra. }
  split; [exact Ht | split; [exact Ht | exact Hi]].
Qed.

End ABTestFacts.

(** ** The enrichment engine: heap discipline *)

Section HeapFacts.

Import Enricher.

Lemma preserves_ret {A} (I : heap -> Prop) (a : A) : preserves I (mret a).
Proof. intros h Hh. exact Hh. Qed.

Lemma preserves_throw {A} (I : heap -> Prop) (e : exn) :
  preserves I (mthrow e : M A).
Proof. intros h Hh. exact Hh. Qed.

Lemma preserves_lift {A} (I : heap -> Prop) (r : exn + A) : preserves I (lift r).
Proof. intros h Hh. exact Hh. Qed.

Lemma preserves_call {A} (I : heap -> Prop) (f : heap -> loc -> exn + A) (l : loc) :
  preserves I (call f l).
Proof. intros h Hh. exact Hh. Qed.

Lemma preserves_get_product (I : heap -> Prop) (l : loc) :
  preserves I (get_product l).
Proof.
  intros h Hh. unfold get_product. destruct (h !! l) as [[]|]; exact Hh.
Qed.

Lemma preserves_get_dict (I : heap -> Prop) (l : loc) : preserves I (get_dict l).
Proof.
  intros h Hh. unfold get_dict. destruct (h !! l) as [[]|]; exact Hh.
Qed.

Lemma preserves_get_list (I : heap -> Prop) (l : loc) : preserves I (get_list l).
Proof.
  intros h Hh. unfold get_list. destruct (h !! l) as [[]|]; exact Hh.
Qed.

Lemma preserves_snapshot (I : heap -> Prop) (l : loc) : preserves I (snapshot l).
Proof.
  intros h Hh. unfold snapshot. destruct (read_product h l); exact Hh.
Qed.

Lemma preserves_bind {A B} (I : heap -> Prop) (m : M A) (k : A -> M B) :
  preserves I m -> (forall a, preserves I (k a)) -> preserves I (m ≫= k).
Proof.
  intros Hm Hk h Hh. unfold mbind, M_bind.
  specialize (Hm h Hh). destruct (m h) as [h' [e|a]]; [exact Hm|].
  apply Hk, Hm.
Qed.

Lemma preserves_try_except {A} (I : heap -> Prop) (body : M A)
    (handler : exn -> M A) :
  preserves I body -> (forall e, preserves I (handler e)) ->
  preserves I (try_except body handler).
Proof.
  intros Hb Hh h Hi. unfold try_except.
  specialize (Hb h Hi). destruct (body h) as [h' [e|a]]; [|exact Hb].
  apply Hh, Hb.
Qed.

(** *** Writes of the passes keep the caller's heap *)

Lemma fresh_not_in_caller_heap (h0 h : heap) :
  h0 ⊆ h -> h0 !! fresh (dom h) = None.
Proof.
  intros Hsub. destruct (h0 !! fresh (dom h)) as [o|] eqn:Hl; [|reflexivity].
  exfalso. apply (is_fresh (dom h)).
  apply elem_of_dom. exists o. apply (lookup_weaken _ _ _ _ Hl Hsub).
Qed.

Lemma fresh_lookup (h : heap) : h !! fresh (dom h) = None.
Proof. apply not_elem_of_dom, is_fresh. Qed.

Lemma owned_alloc (h0 : heap) (w : loc) (o : obj) :
  preserves (owned h0 w) (alloc o).
Proof.
  intros h (Hsub & Hw & p & d & m & i & l & Hp & Hd & Hd0 & Hm & Hi & Hl).
  unfold alloc. cbn [fst].
  pose proof (fresh_lookup h) as Hfresh.
  split; [apply insert_subseteq_r; [apply fresh_not_in_caller_heap|]; exact Hsub|].
  split; [exact Hw|].
  exists p, d, m, i, l.
  rewrite !lookup_insert_ne by congruence. auto 10.
Qed.

Lemma owned_set_field (h0 : heap) (w : loc) (f : ProductObj -> ProductObj) :
  (forall p, o_attributes (f p) = o_attributes p) ->
  (forall p, o_images (f p) = o_images p) ->
  preserves (owned h0 w) (set_field w f).
Proof.
  intros Hfa Hfi h (Hsub & Hw & p & d & m & i & l & Hp & Hd & Hd0 & Hm & Hi & Hl).
  unfold set_field. rewrite Hp. cbn [fst].
  split; [apply insert_subseteq_r; assumption|].
  split; [exact Hw|].
  exists (f p), d, m, i, l.
  rewrite lookup_insert_eq, !lookup_insert_ne by congruence.
  rewrite Hfa, Hfi. auto 10.
Qed.

Lemma owned_set_title (h0 : heap) (w : loc) (s : option string) :
  preserves (owned h0 w) (set_title w s).
Proof. apply owned_set_field; reflexivity. Qed.

Lemma owned_set_description (h0 : heap) (w : loc) (s : option string) :
  preserves (owned h0 w) (set_description w s).
Proof. apply owned_set_field; reflexivity. Qed.

Lemma owned_set_category (h0 : heap) (w : loc) (s : option string) :
  preserves (owned h0 w) (set_category w s).
Proof. apply owned_set_field; reflexivity. Qed.

Lemma owned_get_attributes (h0 : heap) (w l : loc) :
  preserves (owned h0 w) (get_attributes l).
Proof.
  unfold get_attributes. apply preserves_bind; [apply preserves_get_product|].
  intros p. destruct (o_attributes p).
  - apply preserves_bind; [apply preserves_get_dict|].
    intros m. apply preserves_ret.
  - apply preserves_ret.
Qed.

(** [product.attributes = {}] installs a dict that the pass has just
    created. *)
Lemma owned_ensure_attributes (h0 : heap) (w : loc) :
  preserves (owned h0 w) (ensure_attributes w).
Proof.
  intros h Hown. unfold ensure_attributes, mbind, M_bind.
  pose proof (owned_get_attributes h0 w w h Hown) as Hget.
  destruct (get_attributes w h) as [h1 [e|attrs]] eqn:Hga; cbn [fst] in *;
    [exact Hget|].
  destruct (negb (truthy_opt_dict attrs)); [|exact Hget].
  destruct Hget as (Hsub & Hw & p & d & m & i & l & Hp & Hd & Hd0 & Hm & Hi & Hl).
  unfold alloc, set_field.
  pose proof (fresh_lookup h1) as Hfresh.
  rewrite lookup_insert_ne by congruence. rewrite Hp. cbn [fst].
  split.
  { apply insert_subseteq_r; [exact Hw|].
    apply insert_subseteq_r; [apply fresh_not_in_caller_heap|]; exact Hsub. }
  split; [exact Hw|].
  exists (with_attributes (Some (fresh (dom h1))) p), (fresh (dom h1)), ∅, i, l.
  rewrite lookup_insert_eq.
  rewrite (lookup_insert_ne _ w (fresh (dom h1))) by congruence.
  rewrite lookup_insert_eq.
  rewrite !lookup_insert_ne by congruence.
  repeat split; try reflexivity; try assumption.
  apply fresh_not_in_caller_heap, Hsub.
Qed.

Lemma owned_attributes_contains (h0 : heap) (w : loc) (key : string) :
  preserves (owned h0 w) (attributes_contains w key).
Proof.
  unfold attributes_contains.
  apply preserves_bind; [apply owned_get_attributes|].
  intros [m|]; [apply preserves_ret | apply preserves_throw].
Qed.

(** [product.attributes[key] = v] writes to the working copy's own dict. *)
Lemma owned_setitem (h0 : heap) (w : loc) (key : string) (v : pyval) :
  preserves (owned h0 w) (setitem w key v).
Proof.
  intros h Hown.
  pose proof Hown
    as (Hsub & Hw & p & d & m & i & l & Hp & Hd & Hd0 & Hm & Hi & Hl).
  unfold setitem, mbind, M_bind, get_product. rewrite Hp, Hd.
  unfold dict_setitem. rewrite Hm. cbn [fst].
  split; [apply insert_subseteq_r; assumption|].
  split; [exact Hw|].
  exists p, d, (<[key := v]> m), i, l.
  rewrite lookup_insert_eq, !lookup_insert_ne by congruence. auto 10.
Qed.

Lemma owned_update_attributes (h0 : heap) (w : loc)
    (items : list (string * string)) :
  preserves (owned h0 w) (update_attributes w items).
Proof.
  induction items as [|[k v] items IH]; cbn [update_attributes].
  - apply preserves_ret.
  - apply preserves_bind; [apply owned_setitem | intros _; exact IH].
Qed.

End HeapFacts.

(** ** The enrichment passes *)

Section PassFacts.

Import Enricher.

Context `{Heuristics}.

Variable config : EnrichmentConfig.

Lemma returns_record_ret (w : loc) (metrics : gmap string Q)
    (pass_suggestions : list string) :
  returns_record w (mret (w, metrics, pass_suggestions)).
Proof. intros h h' r [= _ <-]. reflexivity. Qed.

Lemma returns_record_bind {A} (w : loc) (m : M A) (k : A -> M PassResult) :
  (forall a, returns_record w (k a)) -> returns_record w (m ≫= k).
Proof.
  intros Hk h h' r. unfold mbind, M_bind.
  destruct (m h) as [h1 [e|a]]; [discriminate|]. apply Hk.
Qed.

Ltac returns_record_tac :=
  cbv zeta;
  repeat first
    [ apply returns_record_ret
    | apply returns_record_bind; intros ?; cbv beta
    | match goal with
      | |- returns_record _ (let (_, _) := ?x in _) => destruct x
      | |- returns_record _ (match ?x with _ => _ end) => destruct x
      end ].

Ltac owned_tac :=
  cbv zeta;
  repeat first
    [ apply preserves_ret | apply preserves_throw | apply preserves_lift
    | apply preserves_call | apply preserves_get_product
    | apply preserves_snapshot
    | apply owned_set_title | apply owned_set_description
    | apply owned_set_category | apply owned_ensure_attributes
    | apply owned_attributes_contains | apply owned_setitem
    | apply owned_update_attributes
    | apply preserves_bind; [|intros ?; cbv beta]
    | match goal with
      | |- preserves _ (if ?b then _ else _) => destruct b
      | |- preserves _ (let (_, _) := ?x in _) => destruct x
      | |- preserves _ (match ?x with _ => _ end) => destruct x
      end ].

Lemma seo_optimization_returns_record (w : loc) :
  returns_record w (_apply_seo_optimization w).
Proof. unfold _apply_seo_optimization. returns_record_tac. Qed.

Lemma content_generation_returns_record (w : loc) :
  returns_record w (_apply_content_generation w).
Proof. unfold _apply_content_generation. returns_record_tac. Qed.

Lemma amazon_optimization_returns_record (w : loc) :
  returns_record w (_apply_amazon_optimization w).
Proof. unfold _apply_amazon_optimization. returns_record_tac. Qed.

Lemma categorization_returns_record (w : loc) :
  returns_record w (_apply_categorization w).
Proof. unfold _apply_categorization. returns_record_tac. Qed.

Lemma seo_optimization_owned (h0 : heap) (w : loc) :
  preserves (owned h0 w) (_apply_seo_optimization w).
Proof. unfold _apply_seo_optimization. owned_tac. Qed.

Lemma content_generation_owned (h0 : heap) (w : loc) :
  preserves (owned h0 w) (_apply_content_generation w).
Proof. unfold _apply_content_generation. owned_tac. Qed.

Lemma amazon_optimization_owned (h0 : heap) (w : loc) :
  preserves (owned h0 w) (_apply_amazon_optimization w).
Proof. unfold _apply_amazon_optimization. owned_tac. Qed.

Lemma quality_scoring_owned (h0 : heap) (w : loc) :
  preserves (owned h0 w) (_apply_quality_scoring config w).
Proof. unfold _apply_quality_scoring. owned_tac. Qed.

Lemma categorization_owned (h0 : heap) (w : loc) :
  preserves (owned h0 w) (_apply_categorization w).
Proof. unfold _apply_categorization. owned_tac. Qed.

Lemma bind_returns_inv {A B} (m : M A) (k : A -> M B) (h h' : heap) (b : B) :
  (m ≫= k) h = (h', inr b) ->
  exists h1 a, m h = (h1, inr a) /\ k a h1 = (h', inr b).
Proof.
  unfold mbind, M_bind. destruct (m h) as [h1 [e|a]]; [discriminate|].
  intros Hk. exists h1, a. split; [reflexivity | exact Hk].
Qed.

(** *** The dispatch and the [try]/[except] around it *)

Lemma dispatch_owned (h0 : heap) (st : LoopState) (t : EnrichmentType) :
  preserves (owned h0 (enriched st)) (dispatch config st t).
Proof.
  unfold dispatch. destruct t.
  - apply preserves_bind; [apply seo_optimization_owned|].
    intros r. apply preserves_ret.
  - apply preserves_bind; [apply content_generation_owned|].
    intros r. apply preserves_ret.
  - apply preserves_bind; [apply amazon_optimization_owned|].
    intros r. apply preserves_ret.
  - apply preserves_ret.
  - apply preserves_bind; [apply quality_scoring_owned|].
    intros [metrics quality_suggestions]. apply preserves_ret.
  - apply preserves_ret.
  - apply preserves_bind; [apply categorization_owned|].
    intros r. apply preserves_ret.
Qed.

(** A pass that returns is recorded once; the working record stays the
    same object; earlier suggestions are kept.  The two pass kinds without
    a branch leave the loop state as it is. *)
Lemma dispatch_returns (st st' : LoopState) (t : EnrichmentType) (h h' : heap) :
  dispatch config st t h = (h', inr st') ->
  enriched st' = enriched st
  /\ (exists extra, loop_suggestions st' = loop_suggestions st ++ extra)
  /\ ((t = MULTI_CHANNEL \/ t = TRANSLATION) /\ st' = st /\ h' = h
      \/ (t <> MULTI_CHANNEL /\ t <> TRANSLATION)
         /\ loop_applied st' = loop_applied st ++ [t]).
Proof.
  assert (forall (pass : M PassResult),
            returns_record (enriched st) pass ->
            (r ← pass; mret (record_pass st t r)) h = (h', inr st') ->
            enriched st' = enriched st
            /\ (exists extra, loop_suggestions st' = loop_suggestions st ++ extra)
            /\ loop_applied st' = loop_applied st ++ [t]) as Hpass.
  { intros pass Hrec Hrun.
    apply bind_returns_inv in Hrun as (h1 & r & Hr & Hret).
    apply Hrec in Hr. injection Hret as _ <-.
    destruct r as [[w metrics] pass_suggestions]. cbn in Hr. subst w.
    cbn. eauto. }
  unfold dispatch. destruct t; intros Hrun.
  - destruct (Hpass _ (seo_optimization_returns_record _) Hrun) as (? & ? & ?).
    split; [assumption|]. split; [assumption|]. right. split; [split; discriminate | assumption].
  - destruct (Hpass _ (content_generation_returns_record _) Hrun) as (? & ? & ?).
    split; [assumption|]. split; [assumption|]. right. split; [split; discriminate | assumption].
  - destruct (Hpass _ (amazon_optimization_returns_record _) Hrun) as (? & ? & ?).
    split; [assumption|]. split; [assumption|]. right. split; [split; discriminate | assumption].
  - injection Hrun as <- <-. split; [reflexivity|].
    split; [exists []; rewrite app_nil_r; reflexivity|]. left. auto.
  - apply bind_returns_inv in Hrun as (h1 & [metrics qs] & Hr & Hret).
    injection Hret as _ <-. cbn.
    split; [reflexivity|]. split; [eauto|]. right. split; [split; discriminate | reflexivity].
  - injection Hrun as <- <-. split; [reflexivity|].
    split; [exists []; rewrite app_nil_r; reflexivity|]. left. auto.
  - destruct (Hpass _ (categorization_returns_record _) Hrun) as (? & ? & ?).
    split; [assumption|]. split; [assumption|]. right. split; [split; discriminate | assumption].
Qed.

(** X1.  One iteration of the enrichment loop never raises, and it keeps
    working on the same record object.  If the pass raises with message
    [e], the loop variables are unchanged except for one failure note,
    appended to the suggestions.  If the pass returns, it is recorded
    exactly once in the applied enrichments and earlier suggestions are
    kept -- except for the multi-channel and translation kinds, which have
    no branch: they change neither the loop variables nor the heap and are
    never recorded.  Either way the heap is the one the pass left behind:
    writes made before an exception persist. *)
Theorem loop_body_isolates_failure
    (st : LoopState) (t : EnrichmentType) (h : heap) :
  exists st',
    loop_body config st t h = ((dispatch config st t h).1, inr st')
    /\ enriched st' = enriched st
    /\ match (dispatch config st t h).2 with
       | inr _ =>
           (exists extra, loop_suggestions st' = loop_suggestions st ++ extra)
           /\ ((t = MULTI_CHANNEL \/ t = TRANSLATION)
               /\ st' = st /\ (dispatch config st t h).1 = h
               \/ (t <> MULTI_CHANNEL /\ t <> TRANSLATION)
                  /\ loop_applied st' = loop_applied st ++ [t])
       | inl e =>
           loop_applied st' = loop_applied st
           /\ loop_metrics st' = loop_metrics st
           /\ loop_suggestions st' = loop_suggestions st ++ [failure_note t e]
       end.
Proof.
  unfold loop_body, try_except.
  destruct (dispatch config st t h) as [h' [e|st1]] eqn:Hrun; cbn [fst snd].
  - eexists. split; [reflexivity|]. cbn. auto.
  - exists st1. split; [reflexivity|].
    destruct (dispatch_returns _ _ _ _ _ Hrun) as (Henr & Hsug & Hcases).
    split; [exact Henr|]. split; [exact Hsug | exact Hcases].
Qed.

Lemma loop_body_step (h0 : heap) (st : LoopState) (t : EnrichmentType) (h : heap) :
  exists h' st',
    loop_body config st t h = (h', inr st')
    /\ enriched st' = enriched st
    /\ (exists applied,
          loop_applied st' = loop_applied st ++ applied
          /\ sublist applied [t]
          /\ (MULTI_CHANNEL ∉ applied) /\ (TRANSLATION ∉ applied))
    /\ (exists extra, loop_suggestions st' = loop_suggestions st ++ extra)
    /\ (owned h0 (enriched st) h -> owned h0 (enriched st) h').
Proof.
  pose proof (dispatch_owned h0 st t h) as Hown.
  unfold loop_body, try_except.
  destruct (dispatch config st t h) as [h' [e|st1]] eqn:Hrun; cbn [fst] in Hown.
  - eexists _, _. split; [reflexivity|]. cbn.
    split; [reflexivity|]. split.
    { exists []. rewrite app_nil_r. split; [reflexivity|].
      split; [apply sublist_nil_l|]. split; apply not_elem_of_nil. }
    split; [eauto | exact Hown].
  - exists h', st1. split; [reflexivity|].
    destruct (dispatch_returns _ _ _ _ _ Hrun)
      as (Henr & Hsug & [(Ht & -> & ->) | ((Hmc & Htr) & Happ)]).
    + split; [reflexivity|]. split.
      { exists []. rewrite app_nil_r. split; [reflexivity|].
        split; [apply sublist_nil_l|]. split; apply not_elem_of_nil. }
      split; [exact Hsug | exact Hown].
    + split; [exact Henr|]. split.
      { exists [t]. split; [exact Happ|]. split; [reflexivity|].
        split; intros Hin%list_elem_of_singleton; congruence. }
      split; [exact Hsug | exact Hown].
Qed.

Lemma foldM_loop_body (types : list EnrichmentType) (st : LoopState) (h : heap) :
  exists h' st',
    foldM (loop_body config) st types h = (h', inr st')
    /\ enriched st' = enriched st
    /\ (exists applied,
          loop_applied st' = loop_applied st ++ applied
          /\ sublist applied types
          /\ (MULTI_CHANNEL ∉ applied) /\ (TRANSLATION ∉ applied))
    /\ (exists extra, loop_suggestions st' = loop_suggestions st ++ extra)
    /\ (forall h0, owned h0 (enriched st) h -> owned h0 (enriched st) h').
Proof.
  revert st h. induction types as [|t types IH]; intros st h; cbn [foldM].
  - exists h, st. split; [reflexivity|]. split; [reflexivity|]. split.
    { exists []. rewrite app_nil_r. split; [reflexivity|].
      split; [reflexivity|]. split; apply not_elem_of_nil. }
    split; [exists []; rewrite app_nil_r; reflexivity | auto].
  - unfold mbind, M_bind.
    destruct (loop_body_step ∅ st t h)
      as (h1 & st1 & Hstep & Henr1 & (a1 & Ha1 & Hs1 & Hm1 & Ht1) & (e1 & He1) & _).
    rewrite Hstep.
    destruct (IH st1 h1)
      as (h2 & st2 & Hrest & Henr2 & (a2 & Ha2 & Hs2 & Hm2 & Ht2) & (e2 & He2) & Hown2).
    exists h2, st2. split; [exact Hrest|].
    split; [congruence|]. split.
    { exists (a1 ++ a2). split; [rewrite Ha2, Ha1, app_assoc; reflexivity|].
      split; [apply (sublist_app a1 [t] a2 types); assumption|].
      split; intros Hin%elem_of_app; tauto. }
    split; [exists (e1 ++ e2); rewrite He2, He1, app_assoc; reflexivity|].
    intros h0 Hown. rewrite Henr1 in Hown2. apply Hown2.
    destruct (loop_body_step h0 st t h) as (h1' & st1' & Hstep' & _ & _ & _ & Hown1).
    rewrite Hstep in Hstep'. injection Hstep' as <- <-. apply Hown1, Hown.
Qed.

(** X2.  The loop over the enabled pass kinds always runs to its end, for
    any list of kinds and any heap.  It keeps working on the same record
    object; what it adds to [applied_enrichments] is a sub-sequence of the
    enabled kinds, in their order, that never contains the two kinds
    without a branch (multi-channel and translation); earlier suggestions
    are kept; and if the working record is owned by the call, every object
    of the caller's heap is left as it was. *)
Theorem enrichment_loop_runs_to_end
    (types : list EnrichmentType) (st : LoopState) (h : heap) :
  exists h' st',
    foldM (loop_body config) st types h = (h', inr st')
    /\ enriched st' = enriched st
    /\ (exists applied,
          loop_applied st' = loop_applied st ++ applied
          /\ sublist applied types
          /\ (MULTI_CHANNEL ∉ applied) /\ (TRANSLATION ∉ applied))
    /\ (exists extra, loop_suggestions st' = loop_suggestions st ++ extra)
    /\ (forall h0, owned h0 (enriched st) h -> owned h0 (enriched st) h').
Proof. exact (foldM_loop_body types st h). Qed.

(** *** The working copy and the whole call *)

Lemma read_product_weaken (h h' : heap) (l : loc) (view : ProductData) :
  h ⊆ h' -> read_product h l = Some view -> read_product h' l = Some view.
Proof.
  intros Hsub. unfold read_product.
  destruct (h !! l) as [[p| |]|] eqn:Hl; try discriminate.
  rewrite (lookup_weaken _ _ _ _ Hl Hsub).
  destruct (o_attributes p) as [d|].
  - destruct (h !! d) as [[|m|]|] eqn:Hd; try discriminate.
    rewrite (lookup_weaken _ _ _ _ Hd Hsub).
    destruct (o_images p) as [i|]; [|auto].
    destruct (h !! i) as [[| |li]|] eqn:Hi; try discriminate.
    rewrite (lookup_weaken _ _ _ _ Hi Hsub). auto.
  - destruct (o_images p) as [i|]; [|auto].
    destruct (h !! i) as [[| |li]|] eqn:Hi; try discriminate.
    rewrite (lookup_weaken _ _ _ _ Hi Hsub). auto.
Qed.

Lemma owned_well_formed (h0 h : heap) (w : loc) :
  owned h0 w h -> well_formed h w.
Proof.
  intros (_ & _ & p & d & m & i & l & Hp & Hd & _ & Hm & Hi & Hl).
  unfold well_formed, read_product. rewrite Hp, Hd, Hm, Hi, Hl. eauto.
Qed.

Lemma truthy_dict_or_empty (m : gmap string pyval) :
  (if truthy_dict m then m else ∅) = m.
Proof.
  unfold truthy_dict. destruct (Nat.eqb_spec (size m) 0) as [Hsize|]; cbn [negb].
  - symmetry. apply map_size_empty_iff, Hsize.
  - reflexivity.
Qed.

Lemma truthy_list_or_empty {A} (l : list A) :
  (if truthy_list l then l else []) = l.
Proof. destruct l; reflexivity. Qed.

(** The three allocations of [copy_product], once the reads of the
    original have succeeded with attribute entries [m] and images [li]. *)
Lemma copy_allocations (h : heap) (p : ProductObj) (m : gmap string pyval)
    (li : list string) :
  let d := fresh (dom h) in
  let h1 := <[d := ODict m]> h in
  let i := fresh (dom h1) in
  let h2 := <[i := OList li]> h1 in
  let w := fresh (dom h2) in
  let p' := mkProductObj (o_id p) (o_title p) (o_description p) (o_price p)
                         (o_category p) (o_brand p) (o_sku p) (Some d) (Some i) in
  let h3 := <[w := OProduct p']> h2 in
  owned h w h3
  /\ read_product h3 w
     = Some (mkProduct (o_id p) (o_title p) (o_description p) (o_price p)
                       (o_category p) (o_brand p) (o_sku p) m li)
  /\ (h !! w = None /\ h !! d = None /\ h !! i = None)
  /\ (w <> d /\ w <> i /\ d <> i)
  /\ dom h3 = dom h ∪ {[w; d; i]}.
Proof.
  intros d h1 i h2 w p' h3.
  pose proof (fresh_lookup h) as Hd. fold d in Hd.
  pose proof (fresh_lookup h1) as Hi. fold i in Hi.
  pose proof (fresh_lookup h2) as Hw. fold w in Hw.
  assert (h1 !! d = Some (ODict m)) as Hd1 by apply lookup_insert_eq.
  assert (h2 !! i = Some (OList li)) as Hi2 by apply lookup_insert_eq.
  assert (i <> d) as Hid by congruence.
  assert (h2 !! d = Some (ODict m)) as Hd2
    by (unfold h2; rewrite lookup_insert_ne by exact Hid; exact Hd1).
  assert (w <> d) as Hwd by congruence.
  assert (w <> i) as Hwi by congruence.
  assert (h ⊆ h1) as Hsub1 by (apply insert_subseteq, Hd).
  assert (h1 ⊆ h2) as Hsub2 by (apply insert_subseteq, Hi).
  assert (h ⊆ h2) as Hsub by (etransitivity; eassumption).
  split.
  - split; [etransitivity; [exact Hsub | apply insert_subseteq, Hw]|].
    split.
    { destruct (h !! w) as [o|] eqn:Hhw; [|reflexivity].
      rewrite (lookup_weaken _ _ _ _ Hhw Hsub) in Hw. discriminate. }
    exists p', d, m, i, li. unfold h3.
    rewrite lookup_insert_eq, !lookup_insert_ne by congruence.
    repeat split; try reflexivity; assumption.
  - split.
    { unfold read_product, h3. rewrite lookup_insert_eq.
      cbn [p' o_attributes o_images].
      rewrite !lookup_insert_ne by congruence. rewrite Hd2, Hi2. reflexivity. }
    split.
    { split; [|split; [exact Hd|]].
      - destruct (h !! w) as [o|] eqn:Hhw; [|reflexivity].
        rewrite (lookup_weaken _ _ _ _ Hhw Hsub) in Hw. discriminate.
      - destruct (h !! i) as [o|] eqn:Hhi; [|reflexivity].
        rewrite (lookup_weaken _ _ _ _ Hhi Hsub1) in Hi. discriminate. }
    split; [repeat split; congruence|].
    unfold h3, h2, h1. rewrite !dom_insert_L.
    set_unfold. intros x. tauto.
Qed.

Lemma run_bind {A B} (m : M A) (k : A -> M B) (h h1 : heap) (a : A) :
  m h = (h1, inr a) -> (m ≫= k) h = k a h1.
Proof. intros Hm. unfold mbind, M_bind. rewrite Hm. reflexivity. Qed.

Lemma run_get_product (h : heap) (l : loc) (p : ProductObj) :
  h !! l = Some (OProduct p) -> get_product l h = (h, inr p).
Proof. intros Hl. unfold get_product. rewrite Hl. reflexivity. Qed.

Lemma run_get_attributes (h : heap) (l : loc) (p : ProductObj)
    (m : gmap string pyval) :
  h !! l = Some (OProduct p) ->
  match o_attributes p with
  | Some d => h !! d = Some (ODict m)
  | None => m = ∅
  end ->
  get_attributes l h
  = (h, inr (match o_attributes p with Some _ => Some m | None => None end)).
Proof.
  intros Hl Hm. unfold get_attributes.
  rewrite (run_bind _ _ _ _ _ (run_get_product _ _ _ Hl)).
  destruct (o_attributes p) as [d|]; [|reflexivity].
  unfold mbind, M_bind, get_dict. rewrite Hm. reflexivity.
Qed.

Lemma run_get_images (h : heap) (p : ProductObj) (li : list string) :
  match o_images p with
  | Some i => h !! i = Some (OList li)
  | None => li = []
  end ->
  match o_images p with
  | Some i => l ← get_list i; mret (Some l)
  | None => mret None
  end h
  = (h, inr (match o_images p with Some _ => Some li | None => None end)).
Proof.
  destruct (o_images p) as [i|]; intros Hi; [|reflexivity].
  unfold mbind, M_bind, get_list. rewrite Hi. reflexivity.
Qed.

Lemma read_product_inv (h : heap) (l : loc) (view : ProductData) :
  read_product h l = Some view ->
  exists p m li,
    h !! l = Some (OProduct p)
    /\ match o_attributes p with
       | Some d => h !! d = Some (ODict m)
       | None => m = ∅
       end
    /\ match o_images p with
       | Some i => h !! i = Some (OList li)
       | None => li = []
       end
    /\ view = mkProduct (o_id p) (o_title p) (o_description p) (o_price p)
                        (o_category p) (o_brand p) (o_sku p) m li.
Proof.
  unfold read_product.
  destruct (h !! l) as [[p| |]|]; try discriminate.
  destruct (o_attributes p) as [d|] eqn:Hattr.
  - destruct (h !! d) as [[|m|]|] eqn:Hd; try discriminate.
    destruct (o_images p) as [i|] eqn:Himg.
    + destruct (h !! i) as [[| |li]|] eqn:Hi; try discriminate.
      intros [= <-]. exists p, m, li. rewrite Hattr, Himg. auto.
    + intros [= <-]. exists p, m, []. rewrite Hattr, Himg. auto.
  - destruct (o_images p) as [i|] eqn:Himg.
    + destruct (h !! i) as [[| |li]|] eqn:Hi; try discriminate.
      intros [= <-]. exists p, ∅, li. rewrite Hattr, Himg. auto.
    + intros [= <-]. exists p, ∅, []. rewrite Hattr, Himg. auto.
Qed.

Lemma run_copy_product_fresh (h : heap) (product : loc) :
  well_formed h product ->
  exists h' w d i,
    copy_product product h = (h', inr w)
    /\ owned h w h'
    /\ read_product h' w = read_product h product
    /\ (exists p m li,
          h' !! w = Some (OProduct p)
          /\ o_attributes p = Some d /\ h' !! d = Some (ODict m)
          /\ o_images p = Some i /\ h' !! i = Some (OList li))
    /\ (h !! w = None /\ h !! d = None /\ h !! i = None)
    /\ (w <> d /\ w <> i /\ d <> i)
    /\ dom h' = dom h ∪ {[w; d; i]}.
Proof.
  intros [view Hview]. rewrite Hview.
  apply read_product_inv in Hview as (p & m & li & Hp & Hm & Hli & ->).
  unfold copy_product.
  rewrite (run_bind _ _ _ _ _ (run_get_product _ _ _ Hp)).
  rewrite (run_bind _ _ _ _ _ (run_get_attributes _ _ _ _ Hp Hm)).
  assert ((if truthy_opt_dict
                (match o_attributes p with Some _ => Some m | None => None end)
           then default ∅ (match o_attributes p with
                           | Some _ => Some m
                           | None => None
                           end)
           else ∅) = m) as ->.
  { destruct (o_attributes p); cbn [truthy_opt_dict default].
    - apply truthy_dict_or_empty.
    - symmetry. exact Hm. }
  rewrite (run_bind (alloc (ODict m)) _ h _ _ eq_refl).
  assert (match o_images p with
          | Some i => <[fresh (dom h) := ODict m]> h !! i = Some (OList li)
          | None => li = []
          end) as Hli1.
  { destruct (o_images p) as [i|]; [|exact Hli].
    apply (lookup_weaken h); [exact Hli | apply insert_subseteq, fresh_lookup]. }
  rewrite (run_bind _ _ _ _ _ (run_get_images _ p li Hli1)).
  assert ((if truthy_list
                (default [] (match o_images p with
                             | Some _ => Some li
                             | None => None
                             end))
           then default [] (match o_images p with
                            | Some _ => Some li
                            | None => None
                            end)
           else []) = li) as ->.
  { rewrite truthy_list_or_empty.
    destruct (o_images p); cbn [default]; [reflexivity | symmetry; exact Hli]. }
  rewrite (run_bind (alloc (OList li)) _ _ _ _ eq_refl).
  eexists _, _, _, _. split; [reflexivity|].
  pose proof (copy_allocations h p m li) as Halloc. cbv zeta in Halloc.
  destruct Halloc as (Hown & Hread & Hfresh & Hdistinct & Hdom).
  split; [exact Hown|]. split; [exact Hread|].
  split; [|split; [exact Hfresh|split; [exact Hdistinct | exact Hdom]]].
  destruct Hfresh as (_ & Hd & _). destruct Hdistinct as (Hwd & Hwi & Hdi).
  eexists _, m, li.
  rewrite lookup_insert_eq.
  rewrite (lookup_insert_ne _ _ (fresh (dom h))) by exact Hwd.
  rewrite (lookup_insert_ne _ _ (fresh (dom (<[fresh (dom h):=ODict m]> h))))
    by exact Hwi.
  rewrite (lookup_insert_ne _ _ (fresh (dom h))) by (intros Heq; apply Hdi; symmetry; exact Heq).
  rewrite !lookup_insert_eq.
  cbn [o_attributes o_images]. repeat split; reflexivity.
Qed.

Lemma run_copy_product (h : heap) (product : loc) :
  well_formed h product ->
  exists h' w,
    copy_product product h = (h', inr w)
    /\ owned h w h'
    /\ read_product h' w = read_product h product.
Proof.
  intros Hwf.
  destruct (run_copy_product_fresh h product Hwf)
    as (h' & w & d & i & Hrun & Hown & Hread & _).
  exists h', w. split; [exact Hrun|]. split; [exact Hown | exact Hread].
Qed.

(** X3.  Copying a well-formed record creates exactly three objects -- a
    record [w], its attribute dict [d] and its image list [i] -- which are
    distinct and none of which existed before; every object of the
    caller's heap keeps its contents; and the copy reads field for field
    like the original (same scalars, same attribute entries, same
    images). *)
Theorem copy_product_fresh_and_equal (h : heap) (product : loc) :
  well_formed h product ->
  exists h' w d i,
    copy_product product h = (h', inr w)
    /\ owned h w h'
    /\ read_product h' w = read_product h product
    /\ (exists p m li,
          h' !! w = Some (OProduct p)
          /\ o_attributes p = Some d /\ h' !! d = Some (ODict m)
          /\ o_images p = Some i /\ h' !! i = Some (OList li))
    /\ (h !! w = None /\ h !! d = None /\ h !! i = None)
    /\ (w <> d /\ w <> i /\ d <> i)
    /\ dom h' = dom h ∪ {[w; d; i]}.
Proof. exact (run_copy_product_fresh h product). Qed.

(** X4.  On a well-formed record, [enrich_product] always returns a
    result and appends it to the enrichment history, whatever the text
    heuristics do or raise.  Every object that existed before the call
    keeps its contents, so the caller's record reads exactly as before;
    the enriched record is an object created by the call; and the applied
    enrichments are a sub-sequence of the enabled pass kinds. *)
Theorem enrich_product_returns_and_keeps_original
    (history : list EnrichmentResult) (product : loc) (h : heap) :
  well_formed h product ->
  exists h' res,
    enrich_product config history product h = (h', inr (res, history ++ [res]))
    /\ h ⊆ h'
    /\ read_product h' product = read_product h product
    /\ original_product res = product
    /\ h !! enriched_product res = None
    /\ well_formed h' (enriched_product res)
    /\ sublist (applied_enrichments res) (enabled_types config).
Proof.
  intros Hwf.
  destruct (run_copy_product h product Hwf)
    as (h1 & w & Hcopy & Hown1 & _).
  destruct (foldM_loop_body (enabled_types config)
              (mkLoopState w [] ∅ []) h1)
    as (h2 & st & Hloop & Henr & (applied & Happ & Hsub & _ & _) & _ & Hown2).
  cbn [enriched loop_applied] in Henr, Happ, Hown2.
  specialize (Hown2 h Hown1).
  destruct Hwf as [view Hview].
  assert (read_product h2 product = Some view) as Hview2.
  { apply (read_product_weaken h); [apply Hown2 | exact Hview]. }
  destruct (owned_well_formed _ _ _ Hown2) as [eview Heview].
  unfold enrich_product, mbind, M_bind. rewrite Hcopy, Hloop.
  unfold snapshot. rewrite Hview2, Henr, Heview.
  eexists _, _. split; [reflexivity|]. cbn [original_product enriched_product
                                            applied_enrichments].
  split; [apply Hown2|].
  split; [rewrite Hview2, Hview; reflexivity|].
  split; [reflexivity|].
  split; [apply Hown2|].
  split; [exists eview; exact Heview|].
  rewrite Happ. exact Hsub.
Qed.

End PassFacts.

(** ** A run with a failing pass *)

Section EnrichmentRun.

Import Enricher.

Lemma sample_heap_well_formed : well_formed sample_heap 1%positive.
Proof. eexists. vm_compute. reflexivity. Qed.

Lemma copy_product_fresh_and_equal_witness :
  well_formed sample_heap 1%positive
  /\ exists h' w d i,
       copy_product 1%positive sample_heap = (h', inr w)
       /\ read_product h' w = read_product sample_heap 1%positive
       /\ (sample_heap !! w = None /\ sample_heap !! d = None
           /\ sample_heap !! i = None).
Proof.
  split; [exact sample_heap_well_formed|].
  destruct (copy_product_fresh_and_equal sample_heap 1%positive
              sample_heap_well_formed)
    as (h' & w & d & i & Hrun & _ & Hread & _ & Hfresh & _).
  exists h', w, d, i. split; [exact Hrun|]. split; [exact Hread | exact Hfresh].
Defined.

Lemma enrich_product_returns_and_keeps_original_witness :
  well_formed sample_heap 1%positive
  /\ exists h' res,
       @enrich_product failing_title_heuristics sample_config [] 1%positive
         sample_heap = (h', inr (res, [] ++ [res]))
       /\ read_product h' 1%positive = read_product sample_heap 1%positive.
Proof.
  split; [exact sample_heap_well_formed|].
  destruct (@enrich_product_returns_and_keeps_original failing_title_heuristics
              sample_config [] 1%positive sample_heap sample_heap_well_formed)
    as (h' & res & Hrun & _ & Hread & _).
  exists h', res. split; [exact Hrun | exact Hread].
Defined.

(** The title rewriting raises inside the SEO pass: the call still returns;
    the failure is the first suggestion; the SEO pass is not among the
    applied enrichments, the multi-channel kind has no branch, and the
    categorization pass after them has run. *)
Example run_with_failing_pass :
  exists h' res history,
    @enrich_product failing_title_heuristics sample_config [] 1%positive
      sample_heap = (h', inr (res, history))
    /\ applied_enrichments res = [CATEGORIZATION]
    /\ suggestions res
       = ["Failed to apply seo_optimization: boom";
          "Added 3 category-specific attributes"]%string
    /\ read_product h' 1%positive = read_product sample_heap 1%positive.
Proof.
  eexists _, _, _. split; [vm_compute; reflexivity|].
  split; [reflexivity|]. split; [reflexivity|]. vm_compute. reflexivity.
Qed.

End EnrichmentRun.

(** ** The enrichment score *)

Section EnrichmentScoreFacts.

Import Enricher.

Lemma Qsum_nonneg (l : list Q) : Forall (fun v => 0 <= v) l -> 0 <= Qsum l.
Proof.
  induction 1 as [|v l Hv _ IH].
  - unfold Qsum. cbn [fold_right]. lra.
  - rewrite Qsum_cons. lra.
Qed.

Lemma mean_nonneg (l : list Q) : Forall (fun v => 0 <= v) l -> 0 <= mean l.
Proof.
  intros Hl. unfold mean. pose proof (Qsum_nonneg l Hl) as Hsum.
  destruct l as [|v l].
  - unfold Qsum, Qdiv. cbn. lra.
  - apply Qle_shift_div_l; [|lra].
    apply (Qnat_lt 0). cbn [List.length]. lia.
Qed.

Lemma filter_none {A} (f : A -> bool) (l : list A) :
  (forall x, In x l -> f x = false) -> List.filter f l = [].
Proof.
  induction l as [|x l IH]; intros Hf; cbn [List.filter]; [reflexivity|].
  rewrite (Hf x) by (left; reflexivity).
  apply IH. intros y Hy. apply Hf. right. exact Hy.
Qed.

(** X5.  The enrichment score never exceeds 100.  It is only capped from
    above: it is non-negative whenever the metrics are, and it is exactly
    50 when no metric name contains "quality" or "score" and the enriched
    record equals the original. *)
Theorem enrichment_score_bounds
    (original enriched : ProductData) (metrics : gmap string Q) :
  _calculate_enrichment_score original enriched metrics <= 100
  /\ ((forall k v, metrics !! k = Some v -> 0 <= v) ->
      0 <= _calculate_enrichment_score original enriched metrics)
  /\ ((forall k, is_Some (metrics !! k) ->
         contains "quality" k = false /\ contains "score" k = false) ->
      _calculate_enrichment_score original original metrics == 50).
Proof.
  split; [apply Q.le_min_l|]. split.
  - intros Hpos. unfold _calculate_enrichment_score. cbv zeta.
    apply Qmin_nonneg; [lra|].
    set (scores := List.map snd _).
    assert (Forall (fun v => 0 <= v) scores) as Hscores.
    { unfold scores. apply List.Forall_forall. intros v Hv.
      apply in_map_iff in Hv as [[k v'] [<- Hkv]].
      apply filter_In in Hkv as [Hkv _].
      apply list_elem_of_In, elem_of_map_to_list in Hkv.
      apply (Hpos k). exact Hkv. }
    assert (0 <= match scores with
                 | [] => 50
                 | _ :: _ => Qsum scores / Qnat (List.length scores)
                 end) as Hbase.
    { destruct scores as [|v l] eqn:Hs; [lra|]. rewrite <- Hs in *.
      apply (mean_nonneg scores Hscores). }
    pose proof (Qmin_nonneg 20
                  (Qnat (size (attributes enriched) - size (attributes original)) * 2))
      as Hattrs.
    pose proof (Qnat_nonneg (size (attributes enriched) - size (attributes original))).
    repeat match goal with
           | |- context [if ?b then _ else _] => destruct b
           end; lra.
  - intros Hnone. unfold _calculate_enrichment_score. cbv zeta.
    assert (List.filter
              (fun kv : string * Q =>
                 contains "quality" (fst kv) || contains "score" (fst kv))
              (map_to_list metrics) = []) as ->.
    { apply filter_none. intros [k v] Hkv.
      apply list_elem_of_In, elem_of_map_to_list in Hkv.
      destruct (Hnone k (ex_intro _ v Hkv)) as [Hq Hs].
      cbn [fst]. rewrite Hq, Hs. reflexivity. }
    cbn [List.map].
    rewrite !bool_decide_eq_false_2 by (intros Hne; apply Hne; reflexivity).
    rewrite Nat.ltb_irrefl. cbn [andb].
    apply Q.min_r. lra.
Qed.

End EnrichmentScoreFacts.

(** ** The metric store *)

Section TrackingFacts.

Import Analytics Reports.

Lemma check_alerts_store (now : Z) (self : Processor) (metric : MetricData) :
  metrics_store (_check_alerts now self metric) = metrics_store self
  /\ config (_check_alerts now self metric) = config self.
Proof.
  unfold _check_alerts. destruct (alert_thresholds (config self)); split; reflexivity.
Qed.

Lemma track_metric_store (now : Z) (self : Processor) (metric : MetricData) :
  metrics_store (track_metric now self metric)
  = <[metric_name metric :=
        default [] (metrics_store self !! metric_name metric) ++ [metric]]>
      (metrics_store self).
Proof.
  unfold track_metric.
  match goal with
  | |- metrics_store (_check_alerts now ?s metric) = _ =>
      destruct (check_alerts_store now s metric) as [-> _]
  end.
  reflexivity.
Qed.

Lemma track_metric_config (now : Z) (self : Processor) (metric : MetricData) :
  config (track_metric now self metric) = config self.
Proof.
  unfold track_metric.
  match goal with
  | |- config (_check_alerts now ?s metric) = _ =>
      destruct (check_alerts_store now s metric) as [_ ->]
  end.
  reflexivity.
Qed.

(** Replacing one series changes the number of stored points by the
    difference of the lengths. *)
Lemma stored_points_insert (store : gmap string (list MetricData))
    (name : string) (series : list MetricData) :
  (map_fold (fun _ l acc => (List.length l + acc)%nat) O (<[name := series]> store)
   + List.length (default [] (store !! name)))%nat
  = (map_fold (fun _ l acc => (List.length l + acc)%nat) O store
     + List.length series)%nat.
Proof.
  set (f := fun (_ : string) (l : list MetricData) (acc : nat) =>
              (List.length l + acc)%nat).
  assert (forall l, map_fold f O (<[name := l]> (delete name store))
                    = (List.length l + map_fold f O (delete name store))%nat)
    as Hfold.
  { intros l. apply (map_fold_insert_L f).
    - intros; unfold f; lia.
    - apply lookup_delete_eq. }
  destruct (store !! name) as [old|] eqn:Hname; cbn [default List.length].
  - rewrite <- (insert_delete_eq store name series), Hfold.
    assert (map_fold f O store
            = (List.length old + map_fold f O (delete name store))%nat) as ->.
    { rewrite <- Hfold. f_equal. symmetry. apply insert_delete_id, Hname. }
    unfold Datatypes.id. lia.
  - rewrite (map_fold_insert_L f); [unfold f; lia | intros; unfold f; lia | exact Hname].
Qed.

Lemma track_metric_total (now : Z) (self : Processor) (metric : MetricData) :
  total_metrics_tracked (track_metric now self metric)
  = S (total_metrics_tracked self).
Proof.
  unfold total_metrics_tracked. rewrite track_metric_store.
  pose proof (stored_points_insert (metrics_store self) (metric_name metric)
                (default [] (metrics_store self !! metric_name metric) ++ [metric]))
    as Hcount.
  rewrite length_app in Hcount. cbn [List.length] in Hcount. lia.
Qed.

(** X6.  Tracking a point appends it to the end of the series of its own
    metric name (creating the series if needed), leaves every other series
    and the configuration as they are, and raises the number of stored
    points by exactly one: nothing is dropped or evicted. *)
Theorem track_metric_appends_point
    (now : Z) (self : Processor) (metric : MetricData) :
  config (track_metric now self metric) = config self
  /\ metrics_store (track_metric now self metric) !! metric_name metric
     = Some (default [] (metrics_store self !! metric_name metric) ++ [metric])
  /\ (forall name, name <> metric_name metric ->
        metrics_store (track_metric now self metric) !! name
        = metrics_store self !! name)
  /\ total_metrics_tracked (track_metric now self metric)
     = S (total_metrics_tracked self).
Proof.
  split; [apply track_metric_config|].
  split; [rewrite track_metric_store; apply lookup_insert_eq|].
  split; [|apply track_metric_total].
  intros name Hne. rewrite track_metric_store.
  apply lookup_insert_ne. congruence.
Qed.

Lemma filter_all {A} (f : A -> bool) (l : list A) :
  (forall x, In x l -> f x = true) -> List.filter f l = l.
Proof.
  induction l as [|x l IH]; intros Hf; cbn [List.filter]; [reflexivity|].
  rewrite (Hf x) by (left; reflexivity).
  f_equal. apply IH. intros y Hy. apply Hf. right. exact Hy.
Qed.





End TrackingFacts.

(** ** Reports over the metric store *)

Section ReportFacts.

Import Analytics Reports.


Lemma fold_right_Qmin_le (d x : Q) (l : list Q) :
  In x l -> fold_right Qmin d l <= x.
Proof.
  induction l as [|y l IH]; intros Hin; [destruct Hin|].
  cbn [fold_right]. destruct Hin as [-> | Hin].
  - apply Q.le_min_l.
  - eapply Qle_trans; [apply Q.le_min_r | apply IH, Hin].
Qed.

Lemma fold_right_Qmax_ge (d x : Q) (l : list Q) :
  In x l -> x <= fold_right Qmax d l.
Proof.
  induction l as [|y l IH]; intros Hin; [destruct Hin|].
  cbn [fold_right]. destruct Hin as [-> | Hin].
  - apply Q.le_max_l.
  - eapply Qle_trans; [apply IH, Hin | apply Q.le_max_r].
Qed.

Lemma list_min_le (x : Q) (l : list Q) : In x l -> list_min l <= x.
Proof. apply fold_right_Qmin_le. Qed.

Lemma list_max_ge (x : Q) (l : list Q) : In x l -> x <= list_max l.
Proof. apply fold_right_Qmax_ge. Qed.

Lemma Qsum_between (lo hi : Q) (l : list Q) :
  (forall x, In x l -> lo <= x <= hi) ->
  lo * Qnat (List.length l) <= Qsum l <= hi * Qnat (List.length l).
Proof.
  induction l as [|x l IH]; intros Hl.
  - unfold Qsum. cbn [fold_right List.length]. change (Qnat 0) with 0. lra.
  - rewrite Qsum_cons. cbn [List.length]. rewrite Qnat_S.
    destruct (Hl x) as [Hlo Hhi]; [left; reflexivity|].
    destruct IH as [IHlo IHhi]; [intros y Hy; apply Hl; right; exact Hy|].
    lra.
Qed.

(** The mean of a non-empty list lies between any bounds of its elements. *)
Lemma mean_between (lo hi : Q) (l : list Q) :
  l <> [] -> (forall x, In x l -> lo <= x <= hi) -> lo <= mean l <= hi.
Proof.
  intros Hne Hl. destruct (Qsum_between lo hi l Hl) as [Hlo Hhi].
  assert (0 < Qnat (List.length l)) as Hn.
  { apply (Qnat_lt 0). destruct l; [congruence | cbn [List.length]; lia]. }
  unfold mean. split.
  - apply Qle_shift_div_l; [exact Hn | exact Hlo].
  - apply Qle_shift_div_r; [exact Hn | exact Hhi].
Qed.

End ReportFacts.


(** ** Distribution buckets by interval *)

Section BucketFacts.

Import Scoring Analytics.

Lemma bump_lookup (key key' : string) (buckets : gmap string nat) (n : nat) :
  buckets !! key' = Some n ->
  bump key buckets !! key' = Some (if String.eqb key key' then S n else n).
Proof.
  intros Hkey'. unfold bump.
  destruct (String.eqb_spec key key') as [-> | Hne].
  - rewrite lookup_insert_eq, Hkey'. reflexivity.
  - rewrite lookup_insert_ne by exact Hne. exact Hkey'.
Qed.

(** The counting loop adds to each bucket the number of values that the
    chain of comparisons sends to it. *)
Lemma distribution_loop_count (key : string) (values : list Q)
    (buckets : gmap string nat) (n : nat) :
  buckets !! key = Some n ->
  fold_left
    (fun buckets value =>
       if Qle_bool value 20 then bump "0-20" buckets
       else if Qle_bool value 40 then bump "21-40" buckets
       else if Qle_bool value 60 then bump "41-60" buckets
       else if Qle_bool value 80 then bump "61-80" buckets
       else bump "81-100" buckets)
    values buckets !! key
  = Some (n + List.length
                (List.filter
                   (fun value =>
                      String.eqb
                        (if Qle_bool value 20 then "0-20"
                         else if Qle_bool value 40 then "21-40"
                         else if Qle_bool value 60 then "41-60"
                         else if Qle_bool value 80 then "61-80"
                         else "81-100")
                        key)
                   values))%nat.
Proof.
  revert buckets n.
  induction values as [|value values IH]; intros buckets n Hkey;
    cbn [fold_left List.filter List.length].
  - rewrite Hkey. f_equal. lia.
  - destruct (Qle_bool value 20); [|destruct (Qle_bool value 40);
      [|destruct (Qle_bool value 60); [|destruct (Qle_bool value 80)]]];
      (erewrite IH; [|apply bump_lookup, Hkey]);
      match goal with
      | |- context [String.eqb ?k key] => destruct (String.eqb k key)
      end; cbn [List.length]; f_equal; lia.
Qed.

(** X15.  For a non-empty list of scores the five counts are those of the
    intervals (-inf, 20], (20, 40], (40, 60], (60, 80] and (80, +inf): the
    labels are nominal.  A score below 0 is counted under "0-20", a score
    above 100 under "81-100", and a score strictly between 20 and 21 under
    "21-40". *)
Theorem distribution_counts_by_interval (v : Q) (values : list Q) :
  let scores := v :: values in
  let count := fun p : Q -> bool => List.length (List.filter p scores) in
  let d := _create_distribution scores in
  d !! "0-20"%string = Some (count (fun x => Qle_bool x 20))
  /\ d !! "21-40"%string = Some (count (fun x => Qltb 20 x && Qle_bool x 40))
  /\ d !! "41-60"%string = Some (count (fun x => Qltb 40 x && Qle_bool x 60))
  /\ d !! "61-80"%string = Some (count (fun x => Qltb 60 x && Qle_bool x 80))
  /\ d !! "81-100"%string = Some (count (fun x => Qltb 80 x)).
Proof.
  cbv zeta. unfold _create_distribution, Qltb.
  repeat split;
    (erewrite distribution_loop_count; [|reflexivity]);
    cbn [Nat.add]; do 2 f_equal; apply List.filter_ext; intros x;
    destruct (Qle_bool x 20) eqn:H20; destruct (Qle_bool x 40) eqn:H40;
    destruct (Qle_bool x 60) eqn:H60; destruct (Qle_bool x 80) eqn:H80;
    try reflexivity;
    exfalso;
    rewrite ?Qle_bool_iff, <- ?not_true_iff_false, ?Qle_bool_iff in *; lra.
Qed.

End BucketFacts.

(** ** Cohort analysis *)

Section CohortFacts.

Context `{Analytics.Repr}.

Import Scoring Analytics.

Lemma group_step_lookup (field : string)
    (cohorts : gmap string (list ProductData)) (p : ProductData) (key : string) :
  group_step field cohorts p !! key
  = if truthy (cohort_value field p)
       && String.eqb (str (cohort_value field p)) key
    then Some (default [] (cohorts !! key) ++ [p])
    else cohorts !! key.
Proof.
  unfold group_step, append.
  destruct (truthy (cohort_value field p)); cbn [andb]; [|reflexivity].
  destruct (String.eqb_spec (str (cohort_value field p)) key) as [-> | Hne].
  - apply lookup_insert_eq.
  - apply lookup_insert_ne, Hne.
Qed.

(** The grouping loop appends to the cohort [key] the records whose field
    is truthy and reads [key], in list order. *)
Lemma group_loop_lookup (field : string) (products : list ProductData)
    (cohorts : gmap string (list ProductData)) (key : string) :
  fold_left (group_step field) products cohorts !! key
  = match List.filter
            (fun p => truthy (cohort_value field p)
                      && String.eqb (str (cohort_value field p)) key)
            products with
    | [] => cohorts !! key
    | members => Some (default [] (cohorts !! key) ++ members)
    end.
Proof.
  revert cohorts.
  induction products as [|p products IH]; intros cohorts;
    cbn [fold_left List.filter]; [reflexivity|].
  rewrite IH, group_step_lookup.
  destruct (truthy (cohort_value field p)
            && String.eqb (str (cohort_value field p)) key); [|reflexivity].
  cbn [from_option Datatypes.id].
  destruct (List.filter _ products) as [|q members]; [reflexivity|].
  rewrite <- app_assoc. reflexivity.
Qed.



Lemma cohort_metrics_size (products members : list ProductData) :
  cohort_size (cohort_metrics products members) = List.length members.
Proof. destruct members; reflexivity. Qed.


Lemma getattr_unknown (product : ProductData) (field : string) :
  ~ In field ["id"; "title"; "description"; "price"; "category"; "brand";
              "sku"; "attributes"; "images"]%string ->
  getattr product field = None.
Proof.
  intros Hfield. unfold getattr.
  repeat match goal with
         | |- context [String.eqb field ?name] =>
             destruct (String.eqb_spec field name) as [-> | _];
               [exfalso; apply Hfield; cbn [In]; tauto|]
         end.
  reflexivity.
Qed.

(** X17.  With a cohort field that is not an attribute of the record --
    a name that does not start with an underscore (which excludes the
    attributes every Python object and every dataclass has, such as
    [__doc__]) and is none of the nine fields -- every record reads the
    default "Unknown": a non-empty list of records forms the single cohort
    "Unknown", which holds all of them, with a percentage of 100. *)
Theorem unknown_field_single_cohort (products : list ProductData) (field : string) :
  String.prefix "_" field = false ->
  ~ In field ["id"; "title"; "description"; "price"; "category"; "brand";
              "sku"; "attributes"; "images"]%string ->
  products <> [] ->
  let analysis := perform_cohort_analysis products field in
  total_cohorts analysis = 1%nat
  /\ cohort_details analysis
     = {[ "Unknown"%string := cohort_metrics products products ]}
  /\ cohort_size (cohort_metrics products products) = List.length products
  /\ percentage (cohort_metrics products products) == 100.
Proof.
  intros _ Hfield Hne. cbv zeta.
  assert (group_products field products = {[ "Unknown"%string := products ]})
    as Hgroups.
  { apply map_eq. intros key. unfold group_products.
    rewrite group_loop_lookup, lookup_empty.
    unfold cohort_value. cbn [from_option Datatypes.id].
    destruct (String.eqb_spec "Unknown" key) as [<- | Hkey].
    - rewrite lookup_singleton_eq.
      rewrite filter_all.
      2:{ intros p _. rewrite getattr_unknown by exact Hfield. reflexivity. }
      destruct products; [congruence | reflexivity].
    - rewrite lookup_singleton_ne by exact Hkey.
      rewrite filter_none; [reflexivity|].
      intros p _. rewrite getattr_unknown by exact Hfield.
      cbn [from_option Datatypes.id str truthy].
      apply andb_false_iff. right. apply String.eqb_neq, Hkey. }
  unfold perform_cohort_analysis. cbn [total_cohorts cohort_details].
  rewrite Hgroups, map_size_singleton, map_fmap_singleton.
  split; [reflexivity|]. split; [reflexivity|].
  split; [apply cohort_metrics_size|].
  assert (0 < Qnat (List.length products)) as Hn.
  { apply (Qnat_lt 0). destruct products; [congruence | cbn [List.length]; lia]. }
  assert (percentage (cohort_metrics products products)
          = Qnat (List.length products) / Qnat (List.length products) * 100)
    as -> by (destruct products; reflexivity).
  field. lra.
Qed.

End CohortFacts.

Lemma unknown_field_single_cohort_witness :
  String.prefix "_" "colour" = false
  /\ ~ In "colour"%string
       ["id"; "title"; "description"; "price"; "category"; "brand";
        "sku"; "attributes"; "images"]%string
  /\ [one_attribute_product] <> []
  /\ Analytics.total_cohorts
       (@Analytics.perform_cohort_analysis sample_repr [one_attribute_product]
          "colour") = 1%nat.
Proof.
  assert (~ In "colour"%string
            ["id"; "title"; "description"; "price"; "category"; "brand";
             "sku"; "attributes"; "images"]%string) as Hfield.
  { cbn [In]. intros Hin.
    repeat (destruct Hin as [Heq | Hin]; [discriminate Heq|]). exact Hin. }
  assert ([one_attribute_product] <> []) as Hne by discriminate.
  split; [reflexivity|]. split; [exact Hfield|]. split; [exact Hne|].
  exact (proj1 (@unknown_field_single_cohort sample_repr [one_attribute_product]
                  "colour" eq_refl Hfield Hne)).
Defined.

(** A record without a category belongs to no category cohort. *)
Example uncategorised_record_in_no_cohort :
  let analysis :=
    @Analytics.perform_cohort_analysis sample_repr
      [one_attribute_product; uncategorised_product] "category" in
  Analytics.total_products analysis = 2%nat
  /\ Analytics.total_cohorts analysis = 0%nat
  /\ Analytics.cohort_details analysis = ∅.
Proof. vm_compute. repeat split. Qed.

(** ** Outcomes of the A/B test analysis *)

Section ABOutcomeFacts.

Import Analytics.

Local Open Scope R_scope.



End ABOutcomeFacts.

(** ** The quality scoring pass *)

Section QualityScoringFacts.

Import Enricher.

Context `{Heuristics}.

Variable config : EnrichmentConfig.

(** A computation that keeps every heap predicate leaves the heap as it
    is. *)
Lemma preserves_all_heap {A} (m : M A) (h : heap) :
  (forall I : heap -> Prop, preserves I m) -> (m h).1 = h.
Proof. intros Hm. symmetry. apply (Hm (eq h)). reflexivity. Qed.

Lemma quality_scoring_preserves (I : heap -> Prop) (product : loc) :
  preserves I (_apply_quality_scoring config product).
Proof.
  unfold _apply_quality_scoring. cbv zeta.
  repeat first
    [ apply preserves_ret | apply preserves_lift | apply preserves_call
    | apply preserves_get_product | apply preserves_snapshot
    | apply preserves_bind; [|intros ?; cbv beta]
    | match goal with
      | |- preserves _ (if ?b then _ else _) => destruct b
      | |- preserves _ (let (_, _) := ?x in _) => destruct x
      end ].
Qed.

(** One optional sub-score: it adds at most its own key and at most one
    suggestion, and leaves the heap alone. *)
Lemma scored_step (guard : bool) (score : M Q) (key note : string) (limit : Q)
    (metrics metrics' : gmap string Q) (suggestions suggestions' : list string)
    (h h' : heap) :
  (forall h0, (score h0).1 = h0) ->
  (if guard then
     q ← score;
     mret (<[key := q]> metrics,
           if Analytics.Qltb q limit then append suggestions note else suggestions)
   else mret (metrics, suggestions)) h = (h', inr (metrics', suggestions')) ->
  h' = h
  /\ (metrics' = metrics \/ exists q, metrics' = <[key := q]> metrics)
  /\ (List.length suggestions' <= S (List.length suggestions))%nat.
Proof.
  intros Hpure. destruct guard.
  - intros Hrun. apply bind_returns_inv in Hrun as (h1 & q & Hq & Hret).
    pose proof (Hpure h) as Hh. rewrite Hq in Hh. cbn [fst] in Hh. subst h1.
    injection Hret as <- <- <-.
    split; [reflexivity|]. split; [right; eauto|].
    destruct (Analytics.Qltb q limit); unfold append;
      rewrite ?length_app; cbn [List.length]; lia.
  - intros [= <- <- <-]. split; [reflexivity|]. split; [left; reflexivity | lia].
Qed.

(** X20.  The quality scoring pass only reads: whether it returns or
    raises, the heap is the one it was given.  When it returns, the record
    was readable, the metrics hold its content completeness under
    "completeness_score" and, under "overall_quality", the mean of all the
    other reported metrics (completeness included); the only other keys
    it can report are "title_quality", "description_quality" and
    "brand_compliance"; and it makes at most four suggestions. *)
Theorem quality_scoring_reads_only (product : loc) (h : heap) :
  (_apply_quality_scoring config product h).1 = h
  /\ match (_apply_quality_scoring config product h).2 with
     | inr (metrics, suggestions) =>
         exists view scores,
           read_product h product = Some view
           /\ scores !! "completeness_score"%string
              = Some (_calculate_content_completeness view)
           /\ scores !! "overall_quality"%string = None
           /\ dom scores
              ⊆ {[ "title_quality"; "description_quality"; "completeness_score";
                   "brand_compliance" ]}%string
           /\ metrics
              = <["overall_quality"%string :=
                    mean (List.map snd (map_to_list scores))]> scores
           /\ (List.length suggestions <= 4)%nat
     | inl _ => True
     end.
Proof.
  split; [apply preserves_all_heap; intros I; apply quality_scoring_preserves|].
  destruct (_apply_quality_scoring config product h)
    as [h' [e|[metrics suggestions]]] eqn:Hrun; cbn [snd]; [exact I|].
  unfold _apply_quality_scoring in Hrun. cbv zeta in Hrun.
  apply bind_returns_inv in Hrun as (h1 & p & Hp & Hrun).
  assert (h1 = h) as ->.
  { pose proof (preserves_get_product (eq h) product h eq_refl) as Hh.
    rewrite Hp in Hh. symmetry. exact Hh. }
  apply bind_returns_inv in Hrun as (h2 & [m1 s1] & Hstep1 & Hrun).
  apply (scored_step _ (lift _)) in Hstep1 as (-> & Hm1 & Hs1);
    [|intros h0; reflexivity].
  apply bind_returns_inv in Hrun as (h3 & [m2 s2] & Hstep2 & Hrun).
  apply (scored_step _ (lift _)) in Hstep2 as (-> & Hm2 & Hs2);
    [|intros h0; reflexivity].
  apply bind_returns_inv in Hrun as (h4 & view & Hview & Hrun).
  unfold snapshot in Hview.
  destruct (read_product h product) as [view'|] eqn:Hread; [|discriminate].
  injection Hview as <- <-.
  apply bind_returns_inv in Hrun as (h5 & [m3 s3] & Hstep3 & Hrun).
  apply (scored_step _ (call _ _)) in Hstep3 as (-> & Hm3 & Hs3);
    [|intros h0; reflexivity].
  injection Hrun as <- <- <-.
  exists view', m3.
  assert (List.length s3 <= 4)%nat as Hlen.
  { clear -Hs1 Hs2 Hs3. cbn [List.length] in Hs1.
    destruct (Analytics.Qltb (_calculate_content_completeness view') 80);
      unfold append in Hs3; rewrite ?length_app in Hs3;
      cbn [List.length] in Hs3; lia. }
  assert (m3 !! "completeness_score"%string
          = Some (_calculate_content_completeness view')
          /\ m3 !! "overall_quality"%string = None
          /\ dom m3 ⊆ {[ "title_quality"; "description_quality";
                         "completeness_score"; "brand_compliance" ]}%string)
    as (Hcs & Hoq & Hdom).
  { destruct Hm1 as [-> | [q1 ->]]; destruct Hm2 as [-> | [q2 ->]];
      destruct Hm3 as [-> | [q3 ->]];
      (split; [|split]);
      rewrite ?dom_insert_L, ?dom_empty_L;
      rewrite ?lookup_insert_eq, ?lookup_insert_ne, ?lookup_empty by discriminate;
      try reflexivity; set_unfold; intros k Hk; tauto. }
  split; [reflexivity|]. split; [exact Hcs|]. split; [exact Hoq|].
  split; [exact Hdom|]. split; [|exact Hlen].
  f_equal.
  destruct (List.map snd (map_to_list m3)) as [|q qs] eqn:Hscores; [|reflexivity].
  exfalso. apply map_eq_nil in Hscores. apply map_to_list_empty_iff in Hscores.
  rewrite Hscores, lookup_empty in Hcs. discriminate.
Qed.

End QualityScoringFacts.

(** ** Predictive insights *)

Section InsightFacts.

Import Scoring Analytics Insights.

Lemma mean_scores_bounds (score : ProductData -> Q) (products : list ProductData) :
  products <> [] ->
  (forall p, 0 <= score p <= 100) ->
  0 <= mean (List.map score products) <= 100.
Proof.
  intros Hne Hscore. apply mean_between.
  - destruct products; [congruence | discriminate].
  - intros x Hx. apply in_map_iff in Hx as (p & <- & _). apply Hscore.
Qed.

Lemma quality_score_bounds (p : ProductData) :
  0 <= _calculate_content_quality_score p <= 100.
Proof. split; [apply quality_score_nonneg | apply Q.le_min_l]. Qed.

Lemma completeness_score_bounds (p : ProductData) :
  0 <= _calculate_completeness_score p <= 100.
Proof. split; [apply completeness_score_nonneg | apply Q.le_min_l]. Qed.

Lemma filter_length_pos {A} (f : A -> bool) (l : list A) :
  truthy_list (List.filter f l) = true ->
  (1 <= List.length (List.filter f l) <= List.length l)%nat.
Proof.
  intros Htruthy. pose proof (List.filter_length_le f l).
  destruct (List.filter f l); [discriminate | cbn [List.length] in *; lia].
Qed.

(** X21.  The predictive insights never fail.  For an empty list they hold
    no prediction, no opportunity and no risk.  Otherwise the current
    average quality lies in [0, 100], the predicted change in [0, 20], and
    the predicted average is their sum: it is never below the current
    average and never above 110 -- it is not capped at 100.  Every listed
    opportunity affects at least one and at most all products, and the
    missing-descriptions risk is listed exactly when more than a tenth of
    the products have no description. *)
Theorem predictive_insights_bounds (products : list ProductData) (days : Z) :
  exists insights,
    generate_predictive_insights products days = Some insights
    /\ prediction_period_days insights = days
    /\ total_products_analyzed insights = List.length products
    /\ match quality_predictions insights with
       | None =>
           products = []
           /\ optimization_opportunities insights = []
           /\ risk_factors insights = []
       | Some q =>
           products <> []
           /\ _predict_quality_trend products = Some (predicted_quality_change q)
           /\ 0 <= current_average_quality q <= 100
           /\ 0 <= predicted_quality_change q <= 20
           /\ predicted_average_quality q
              = current_average_quality q + predicted_quality_change q
           /\ predicted_average_quality q <= 110
       end
    /\ Forall (fun o => (1 <= affected_products o <= List.length products)%nat)
              (optimization_opportunities insights)
    /\ ((exists r, In r (risk_factors insights)
                   /\ risk_type r = "missing_descriptions"%string)
        <-> (List.length products
             < 10 * List.length
                      (List.filter (fun p => negb (truthy_str (description p)))
                                   products))%nat).
Proof.
  unfold generate_predictive_insights.
  destruct products as [|p0 products]; cbn [truthy_list negb].
  { eexists. split; [reflexivity|]. cbn.
    split; [reflexivity|]. split; [reflexivity|]. split; [auto|].
    split; [constructor|]. split; [intros (r & [] & _) | lia]. }
  set (all := p0 :: products).
  assert (all <> []) as Hne by discriminate.
  pose proof (mean_scores_bounds _ all Hne quality_score_bounds) as Hq.
  pose proof (mean_scores_bounds _ all Hne completeness_score_bounds) as Hc.
  unfold _predict_quality_trend. fold all. cbv zeta.
  change (match all with [] => None | _ :: _ => ?x end) with x.
  cbn [mbind option_bind].
  eexists. split; [reflexivity|].
  cbn [prediction_period_days total_products_analyzed quality_predictions
       optimization_opportunities risk_factors current_average_quality
       predicted_quality_change predicted_average_quality].
  split; [reflexivity|]. split; [reflexivity|].
  split.
  { split; [exact Hne|]. split; [reflexivity|]. split; [exact Hq|].
    split; [lra|]. split; [reflexivity | lra]. }
  split.
  - unfold append.
    destruct (truthy_list (List.filter
                             (fun p => Qltb (_calculate_content_quality_score p) 60)
                             all)) eqn:Hlow;
      [apply filter_length_pos in Hlow|];
      (destruct (truthy_list (List.filter
                                (fun p => Qltb (_calculate_completeness_score p) 80)
                                all)) eqn:Hinc;
       [apply filter_length_pos in Hinc|]);
      cbn [app];
      repeat (apply List.Forall_cons; [cbn [affected_products]; lia|]);
      apply List.Forall_nil.
  - set (missing := List.length
                      (List.filter (fun p => negb (truthy_str (description p))) all)).
    assert (Qltb (Qnat (List.length all) * 0.1) (Qnat missing) = true
            <-> (List.length all < 10 * missing)%nat) as Hrisk.
    { rewrite Qltb_spec. unfold Qnat.
      rewrite Nat2Z.inj_lt, Nat2Z.inj_mul, Zlt_Qlt, inject_Z_mult.
      change (inject_Z (Z.of_nat 10)) with 10. split; intros Hlt; lra. }
    rewrite <- Hrisk. unfold append.
    destruct (Qltb (Qnat (List.length all) * 0.1) (Qnat missing));
      destruct (Qltb (Qnat (List.length all) * 0.05) _); cbn [app];
      (split; [intros (r & Hin & Htype) | intros Htrue]);
      try reflexivity; try discriminate Htrue.
    + eexists. split; [left; reflexivity | reflexivity].
    + eexists. split; [left; reflexivity | reflexivity].
    + destruct Hin as [<- | []]. discriminate Htype.
    + destruct Hin.
Qed.

(** The predicted average quality of a single record with quality score
    100 and no SKU is above 100. *)
Example predicted_average_quality_above_100 :
  exists insights q,
    generate_predictive_insights [rich_product] 30 = Some insights
    /\ quality_predictions insights = Some q
    /\ current_average_quality q == 100
    /\ 100 < predicted_average_quality q.
Proof.
  eexists _, _. split; [reflexivity|]. split; [reflexivity|].
  split; vm_compute; reflexivity.
Qed.

End InsightFacts.

(** ** Statistics over the enrichment history *)

Section StatisticsFacts.

Import Scoring Analytics Enricher Statistics.

Lemma bump_lookup_default (key key' : string) (buckets : gmap string nat) :
  default O (bump key buckets !! key')
  = if String.eqb key key' then S (default O (buckets !! key'))
    else default O (buckets !! key').
Proof.
  unfold bump. destruct (String.eqb_spec key key') as [-> | Hne].
  - rewrite lookup_insert_eq. reflexivity.
  - rewrite lookup_insert_ne by exact Hne. reflexivity.
Qed.

Lemma type_value_inj (t t' : EnrichmentType) :
  String.eqb (type_value t') (type_value t) = bool_decide (t' = t).
Proof. destruct t, t'; reflexivity. Qed.

Lemma count_types_flat (history : list EnrichmentResult)
    (applied_types : gmap string nat) :
  fold_left count_types history applied_types
  = fold_left (fun acc t => bump (type_value t) acc)
              (flat_map applied_enrichments history) applied_types.
Proof.
  revert applied_types.
  induction history as [|r history IH]; intros applied_types;
    cbn [fold_left flat_map]; [reflexivity|].
  rewrite fold_left_app, IH. reflexivity.
Qed.

Lemma count_loop (types : list EnrichmentType) (applied_types : gmap string nat)
    (t : EnrichmentType) :
  default O (fold_left (fun acc t' => bump (type_value t') acc) types applied_types
             !! type_value t)
  = (default O (applied_types !! type_value t)
     + List.length (List.filter (fun t' => bool_decide (t' = t)) types))%nat
  /\ bucket_total (fold_left (fun acc t' => bump (type_value t') acc)
                             types applied_types)
     = (bucket_total applied_types + List.length types)%nat.
Proof.
  revert applied_types.
  induction types as [|t' types IH]; intros applied_types;
    cbn [fold_left List.filter List.length]; [split; lia|].
  destruct (IH (bump (type_value t') applied_types)) as [-> ->].
  rewrite bump_lookup_default, type_value_inj, bucket_total_bump.
  destruct (bool_decide (t' = t)); cbn [List.length]; split; lia.
Qed.

(** X22.  The statistics report "no enrichments" exactly for an empty
    history.  Otherwise they count the results; every enrichment score
    lies between the reported minimum and maximum; the success rate lies
    in [0, 100]; and the per-type counts are, for each pass kind, the
    number of results' applied enrichments of that kind, so that they add
    up to the total number of applied enrichments.  Nothing is stated
    about the reported average, which the source computes as
    [sum(scores) / len(scores)] in floating point. *)
Theorem enrichment_statistics_summary (history : list EnrichmentResult) :
  match get_enrichment_statistics history with
  | NoEnrichments => history = []
  | Report s =>
      history <> []
      /\ total_enrichments s = List.length history
      /\ (forall r, In r history ->
            min_score s <= enrichment_score r <= max_score s)
      /\ 0 <= success_rate s <= 100
      /\ (forall t,
            default O (applied_enrichment_types s !! type_value t)
            = List.length
                (List.filter (fun t' => bool_decide (t' = t))
                             (flat_map applied_enrichments history)))
      /\ bucket_total (applied_enrichment_types s)
         = List.length (flat_map applied_enrichments history)
  end.
Proof.
  unfold get_enrichment_statistics.
  destruct history as [|r0 history]; cbn [truthy_list negb]; [reflexivity|].
  set (all := r0 :: history).
  cbn [total_enrichments min_score max_score
       applied_enrichment_types success_rate].
  assert (forall r, In r all ->
            list_min (List.map enrichment_score all) <= enrichment_score r
            <= list_max (List.map enrichment_score all)) as Hbounds.
  { intros r Hr. split; [apply list_min_le | apply list_max_ge]; apply in_map, Hr. }
  split; [discriminate|]. split; [reflexivity|].
  split; [exact Hbounds|]. split.
  { pose proof (List.filter_length_le (fun s => Qle_bool 70 s)
                  (List.map enrichment_score all)) as Hle.
    apply Qnat_le in Hle.
    pose proof (Qnat_nonneg (List.length
                  (List.filter (fun s => Qle_bool 70 s)
                               (List.map enrichment_score all)))) as Hpos.
    assert (0 < Qnat (List.length (List.map enrichment_score all))) as Hn
      by (apply (Qnat_lt 0); unfold all; cbn [List.map List.length]; lia).
    generalize dependent (Qnat (List.length
                  (List.filter (fun s => Qle_bool 70 s)
                               (List.map enrichment_score all)))).
    generalize dependent (Qnat (List.length (List.map enrichment_score all))).
    intros n Hn c Hle Hpos.
    assert (0 <= c / n <= 1).
    { split; [apply Qle_shift_div_l | apply Qle_shift_div_r]; lra. }
    lra. }
  rewrite count_types_flat.
  split.
  - intros t.
    destruct (count_loop (flat_map applied_enrichments all) ∅ t) as [-> _].
    rewrite lookup_empty. reflexivity.
  - destruct (count_loop (flat_map applied_enrichments all) ∅ SEO_OPTIMIZATION)
      as [_ ->].
    unfold bucket_total. rewrite map_fold_empty. reflexivity.
Qed.

End StatisticsFacts.

(** ** The dashboard period *)

Section DashboardFacts.

Import Analytics Reports Dashboard.

(** X23.  The period of a dashboard never has the time frame it was asked
    for: by the classification of [_determine_time_frame], the one-day
    period of a daily dashboard is hourly, the 30-day period of a monthly
    one is weekly, and every other dashboard -- weekly, but also hourly,
    quarterly and yearly -- covers seven days, which is daily.  Hourly,
    quarterly and yearly dashboards therefore show the KPIs of the weekly
    one. *)
Theorem dashboard_period_frame
    (now later : Z) (self : Processor) (time_frame : TimeFrame) :
  let d := create_dashboard_data now later self time_frame in
  _determine_time_frame (dashboard_start d) (dashboard_end d)
  = match time_frame with
    | DAILY => HOURLY
    | MONTHLY => WEEKLY
    | _ => DAILY
    end
  /\ _determine_time_frame (dashboard_start d) (dashboard_end d) <> time_frame
  /\ (time_frame <> DAILY -> time_frame <> MONTHLY ->
      dashboard_kpis d
      = dashboard_kpis (create_dashboard_data now later self WEEKLY)).
Proof.
  cbv zeta. unfold create_dashboard_data, _determine_time_frame.
  cbn [dashboard_start dashboard_end dashboard_kpis].
  assert (forall k : Z,
            ((now - (now - k * microseconds_per_day)) / microseconds_per_day = k)%Z)
    as Hdays.
  { intros k. replace (now - (now - k * microseconds_per_day))%Z
      with (k * microseconds_per_day)%Z by lia.
    apply Z.div_mul. unfold microseconds_per_day. lia. }
  destruct time_frame; cbn [dashboard_start_date]; rewrite Hdays;
    cbn [Z.leb Z.compare Pos.compare Pos.compare_cont];
    (split; [reflexivity|]); (split; [discriminate|]);
    intros Hd Hm; try reflexivity; congruence.
Qed.

End DashboardFacts.

(** ** Category suggestion and confidence *)

Section CategoryFacts.

Import Enricher Categories.





(** X25.  The category confidence is 0 exactly for a record without a
    category and lies between 30 and 100 otherwise.  It only knows the
    category keys electronics, clothing, home and sports: for the
    suggested categories "Books & Media", "Health & Beauty", "Automotive"
    and "Tools & Hardware" it is 50 whatever the text says, which is below
    the threshold of 70 of the categorization pass. *)
Theorem category_confidence_values (product : ProductData) :
  (_calculate_category_confidence product == 0
   <-> truthy_str (category product) = false)
  /\ (truthy_str (category product) = true ->
      30 <= _calculate_category_confidence product <= 100)
  /\ (forall suggested,
        In suggested ["Books & Media"; "Health & Beauty"; "Automotive";
                      "Tools & Hardware"]%string ->
        category product = Some suggested ->
        _calculate_category_confidence product = 50).
Proof.
  assert (truthy_str (category product) = true ->
          30 <= _calculate_category_confidence product <= 100) as Hrange.
  { intros Hcat. unfold _calculate_category_confidence. rewrite Hcat.
    cbn [negb]. cbv zeta.
    destruct (truthy_list _); cbn [negb]; [|lra].
    pose proof (Qnat_nonneg
                  (keyword_matches
                     match List.find
                             (fun entry =>
                                contains (fst entry)
                                         (lower (default ""%string (category product))))
                             confidence_keywords with
                     | Some entry => snd entry
                     | None => []
                     end (product_text product))) as Hm.
    split; [apply Q.min_glb; lra | apply Q.le_min_l]. }
  split; [|split; [exact Hrange|]].
  - destruct (truthy_str (category product)) eqn:Hcat.
    + specialize (Hrange eq_refl). split; [intros Hzero; lra | discriminate].
    + split; [reflexivity|]. intros _.
      unfold _calculate_category_confidence. rewrite Hcat. reflexivity.
  - intros suggested Hin Hcat. unfold _calculate_category_confidence.
    rewrite Hcat. cbn [In] in Hin.
    destruct Hin as [<- | [<- | [<- | [<- | []]]]]; reflexivity.
Qed.

End CategoryFacts.

(** ** Content performance analysis *)

Section PerformanceFacts.

Import Scoring Analytics Performance.

Variable format_1f : Q -> string.




Lemma seo_score_bounds (p : ProductData) : 0 <= _calculate_seo_score p <= 100.
Proof. split; [apply seo_score_nonneg | apply Q.le_min_l]. Qed.


(** *** Grouping by category and by brand *)

Lemma group_append_find {A} (key key' : string) (x : A)
    (groups : list (string * list A)) :
  snd <$> List.find (fun entry => String.eqb (fst entry) key')
                    (group_append key x groups)
  = if String.eqb key key'
    then Some (default []
                 (snd <$> List.find (fun entry => String.eqb (fst entry) key') groups)
               ++ [x])
    else snd <$> List.find (fun entry => String.eqb (fst entry) key') groups.
Proof.
  induction groups as [|[k xs] groups IH]; cbn [group_append List.find fst].
  - destruct (String.eqb key key'); reflexivity.
  - destruct (String.eqb_spec k key) as [-> | Hk]; cbn [List.find fst].
    + destruct (String.eqb key key'); reflexivity.
    + destruct (String.eqb_spec k key') as [-> | Hk'].
      * destruct (String.eqb_spec key key') as [-> | _]; [congruence | reflexivity].
      * exact IH.
Qed.

Lemma group_append_keys {A} (key : string) (x : A)
    (groups : list (string * list A)) :
  List.NoDup (List.map fst groups) -> List.NoDup (List.map fst (group_append key x groups))
  /\ forall k, In k (List.map fst (group_append key x groups))
               <-> k = key \/ In k (List.map fst groups).
Proof.
  induction groups as [|[k xs] groups IH]; intros Hnodup;
    cbn [group_append List.map fst].
  - split; [apply List.NoDup_cons; [intros Hin; destruct Hin | apply List.NoDup_nil]|].
    intros k'. cbn [In]. split; [intros [<- | []]; auto | intros [-> | []]; auto].
  - apply List.NoDup_cons_iff in Hnodup as [Hk Hrest].
    destruct (String.eqb_spec k key) as [-> | Hne]; cbn [List.map fst].
    + split; [apply List.NoDup_cons; assumption|].
      intros k'. cbn [In].
      split; [intros [<- | Hin]; auto | intros [-> | [<- | Hin]]; auto].
    + destruct (IH Hrest) as [IHnodup IHkeys].
      split.
      * apply List.NoDup_cons; [|exact IHnodup].
        rewrite IHkeys. intros [-> | Hin]; auto.
      * intros k'. cbn [In]. rewrite IHkeys. tauto.
Qed.

Lemma in_find_nodup {A} (key : string) (xs : list A)
    (groups : list (string * list A)) :
  List.NoDup (List.map fst groups) ->
  (In (key, xs) groups
   <-> snd <$> List.find (fun entry => String.eqb (fst entry) key) groups = Some xs).
Proof.
  induction groups as [|[k ys] groups IH]; intros Hnodup; cbn [List.find fst In].
  - split; [intros [] | discriminate].
  - cbn [List.map fst] in Hnodup. apply List.NoDup_cons_iff in Hnodup as [Hk Hrest].
    destruct (String.eqb_spec k key) as [-> | Hne].
    + cbn [fmap option_fmap option_map snd]. split.
      * intros [[= ->] | Hin]; [reflexivity|].
        exfalso. apply Hk. apply (in_map fst) in Hin. exact Hin.
      * intros [= ->]. left. reflexivity.
    + rewrite <- (IH Hrest). split; [intros [[= -> _] | Hin]; [congruence | exact Hin]|].
      intros Hin. right. exact Hin.
Qed.

(** The grouping loop: the group of [key] receives the scores of the
    products whose field is truthy and equal to [key], in list order; the
    keys stay distinct. *)
Lemma group_loop (field : ProductData -> option string)
    (products : list ProductData) (stats : list (string * list ProductScores))
    (key : string) :
  List.NoDup (List.map fst stats) ->
  let result :=
    fold_left (fun stats product =>
                 group_by (field product) (product_scores product) stats)
              products stats in
  List.NoDup (List.map fst result)
  /\ snd <$> List.find (fun entry => String.eqb (fst entry) key) result
     = match List.filter
               (fun p => truthy_str (field p)
                         && String.eqb (default ""%string (field p)) key)
               products with
       | [] => snd <$> List.find (fun entry => String.eqb (fst entry) key) stats
       | members =>
           Some (default []
                   (snd <$> List.find (fun entry => String.eqb (fst entry) key) stats)
                 ++ List.map product_scores members)
       end.
Proof.
  revert stats.
  induction products as [|p products IH]; intros stats Hnodup;
    cbn [fold_left List.filter]; [split; [exact Hnodup | reflexivity]|].
  cbv zeta in IH.
  assert (List.NoDup (List.map fst (group_by (field p) (product_scores p) stats)))
    as Hstep.
  { unfold group_by. destruct (truthy_str (field p)); [|exact Hnodup].
    apply group_append_keys, Hnodup. }
  destruct (IH _ Hstep) as [IHnodup ->].
  split; [exact IHnodup|].
  unfold group_by at 1 2.
  destruct (truthy_str (field p)); cbn [andb]; [|reflexivity].
  rewrite group_append_find.
  destruct (String.eqb (default ""%string (field p)) key); [|reflexivity].
  cbn [from_option Datatypes.id].
  destruct (List.filter _ products) as [|m members]; [reflexivity|].
  cbn [List.map]. rewrite <- app_assoc. reflexivity.
Qed.

Lemma group_performance_bounds (members : list ProductData) :
  members <> [] ->
  let performance := group_performance (List.map product_scores members) in
  product_count performance = List.length members
  /\ 0 <= group_avg_quality performance <= 100
  /\ 0 <= group_avg_completeness performance <= 100
  /\ 0 <= group_avg_seo performance <= 100.
Proof.
  intros Hne. cbv zeta. unfold group_performance.
  cbn [product_count group_avg_quality group_avg_completeness group_avg_seo].
  rewrite !List.map_map. cbn [product_scores scores_quality scores_completeness
                              scores_seo].
  split; [apply length_map|].
  split; [apply (mean_scores_bounds _ _ Hne quality_score_bounds)|].
  split; [apply (mean_scores_bounds _ _ Hne completeness_score_bounds)|].
  apply (mean_scores_bounds _ _ Hne seo_score_bounds).
Qed.

Lemma grouped_performance (field : ProductData -> option string)
    (products : list ProductData) (key : string) (performance : GroupPerformance) :
  let groups :=
    List.map (fun entry => (fst entry, group_performance (snd entry)))
      (fold_left (fun stats product =>
                    group_by (field product) (product_scores product) stats)
                 products []) in
  List.NoDup (List.map fst groups)
  /\ (In (key, performance) groups
      <-> exists m members,
            List.filter
              (fun p => truthy_str (field p)
                        && String.eqb (default ""%string (field p)) key)
              products = m :: members
            /\ performance
               = group_performance (List.map product_scores (m :: members))).
Proof.
  cbv zeta.
  set (stats := fold_left _ products []).
  assert (List.NoDup (List.map fst stats)) as Hnodup.
  { apply (group_loop field products [] key). apply List.NoDup_nil. }
  split.
  { rewrite List.map_map. cbn [fst]. exact Hnodup. }
  rewrite in_map_iff. split.
  - intros ([k xs] & [= <- <-] & Hin).
    apply (in_find_nodup _ _ _ Hnodup) in Hin.
    destruct (group_loop field products [] k) as [_ Hfind]; [apply List.NoDup_nil|].
    fold stats in Hfind. rewrite Hfind in Hin. cbn [List.find fmap option_fmap
      option_map from_option] in Hin.
    destruct (List.filter _ products) as [|m members]; [discriminate|].
    injection Hin as <-. exists m, members. split; reflexivity.
  - intros (m & members & Hmembers & ->).
    exists (key, List.map product_scores (m :: members)).
    split; [reflexivity|].
    apply (in_find_nodup _ _ _ Hnodup).
    destruct (group_loop field products [] key) as [_ Hfind]; [apply List.NoDup_nil|].
    fold stats in Hfind. rewrite Hfind, Hmembers. reflexivity.
Qed.

(** X27.  The category performance has one entry per distinct non-empty
    category, and the entry of a category summarises exactly the products
    of that category, in list order: its product count is their number and
    its three averages lie between 0 and 100.  Products without a category
    are in no entry.  The same holds for brands. *)
Theorem content_performance_groups (products : list ProductData) :
  match analyze_content_performance format_1f products with
  | Some analysis =>
      Forall
        (fun grouping : (ProductData -> option string)
                        * list (string * GroupPerformance) =>
           let '(field, groups) := grouping in
           List.NoDup (List.map fst groups)
           /\ forall key performance,
                In (key, performance) groups
                <-> exists m members,
                      List.filter
                        (fun p => truthy_str (field p)
                                  && String.eqb (default ""%string (field p)) key)
                        products = m :: members
                      /\ performance
                         = group_performance
                             (List.map product_scores (m :: members))
                      /\ product_count performance = List.length (m :: members)
                      /\ 0 <= group_avg_quality performance <= 100
                      /\ 0 <= group_avg_completeness performance <= 100
                      /\ 0 <= group_avg_seo performance <= 100)
        [(category, category_performance analysis);
         (brand, brand_performance analysis)]
  | None => False
  end.
Proof.
  unfold analyze_content_performance.
  destruct products as [|p0 products]; cbn [truthy_list negb].
  { repeat constructor; cbn; try tauto;
      intros (m & members & Hnil & _); discriminate. }
  cbv zeta. unfold _generate_content_recommendations.
  cbn [content_quality_scores seo_performance completeness_analysis
       category_performance brand_performance mbind option_bind].
  assert (forall field : ProductData -> option string,
            let groups :=
              List.map (fun entry => (fst entry, group_performance (snd entry)))
                (fold_left (fun stats product =>
                              group_by (field product) (product_scores product) stats)
                           (p0 :: products) []) in
            List.NoDup (List.map fst groups)
            /\ forall key performance,
                 In (key, performance) groups
                 <-> exists m members,
                       List.filter
                         (fun p => truthy_str (field p)
                                   && String.eqb (default ""%string (field p)) key)
                         (p0 :: products) = m :: members
                       /\ performance
                          = group_performance
                              (List.map product_scores (m :: members))
                       /\ product_count performance = List.length (m :: members)
                       /\ 0 <= group_avg_quality performance <= 100
                       /\ 0 <= group_avg_completeness performance <= 100
                       /\ 0 <= group_avg_seo performance <= 100) as Hgroups.
  { intros field. cbv zeta.
    split; [apply (grouped_performance field (p0 :: products) ""%string
                     (group_performance []))|].
    intros key performance.
    destruct (grouped_performance field (p0 :: products) key performance)
      as [_ ->].
    split.
    - intros (m & members & Hmembers & ->). exists m, members.
      split; [exact Hmembers|]. split; [reflexivity|].
      apply group_performance_bounds. discriminate.
    - intros (m & members & Hmembers & -> & _). exists m, members.
      split; [exact Hmembers | reflexivity]. }
  apply List.Forall_cons; [apply (Hgroups category)|].
  apply List.Forall_cons; [apply (Hgroups brand)|].
  apply List.Forall_nil.
Qed.

End PerformanceFacts.

(** ** Alert evaluation in the arithmetic of the code *)

Section RuntimeAlertFacts.

Import Runtime.

Context `{Arithmetic}.

Local Open Scope num_scope.

Lemma check_one_alert_event_for (now : Z) (metric : MetricData)
    (history : list AlertEvent) (entry : string * num) :
  check_one now metric history entry
  = history ++ from_option (fun a => [a]) [] (alert_event_for now metric entry).
Proof.
  unfold check_one, alert_event_for, append. destruct entry as [name th].
  cbn [fst snd].
  destruct (contains name (metric_name metric)); cbn [andb];
    [destruct (value metric <? th)|]; cbn [from_option];
    rewrite ?app_nil_r; reflexivity.
Qed.

Lemma check_loop_alert_events (now : Z) (metric : MetricData)
    (thresholds : list (string * num)) (history : list AlertEvent) :
  fold_left (check_one now metric) thresholds history
  = history ++ omap (alert_event_for now metric) thresholds.
Proof.
  revert history.
  induction thresholds as [|entry thresholds IH]; intros history; cbn [fold_left].
  - cbn. rewrite app_nil_r. reflexivity.
  - rewrite IH, check_one_alert_event_for. cbn [omap list_omap].
    destruct (alert_event_for now metric entry); cbn [from_option omap].
    + rewrite <- app_assoc. reflexivity.
    + rewrite app_nil_r. reflexivity.
Qed.

(** What [track_metric] adds to the alert history. *)
Lemma track_metric_alert_events (now : Z) (self : Processor) (metric : MetricData) :
  alert_history (track_metric now self metric)
  = alert_history self
    ++ omap (alert_event_for now metric) (alert_thresholds (config self)).
Proof.
  unfold track_metric, _check_alerts. cbn [config alert_history].
  destruct (alert_thresholds (config self)) as [|entry thresholds] eqn:Hth.
  - cbn. rewrite app_nil_r. reflexivity.
  - cbn [alert_history]. apply check_loop_alert_events.
Qed.

(** C8.  Tracking a point appends, for each configured threshold entry in
    order, the event described by the specification: an event is emitted
    for an entry exactly when the threshold name is a substring of the
    point's metric name and the value is strictly below the threshold; it
    carries the time of the call, the point's name and value and the
    threshold, with severity "warning" if the value is greater than 0.8
    times the threshold and "critical" otherwise.  The comparisons and the
    product are those of the code's arithmetic, whichever it is: in
    binary64 the product [threshold * 0.8] is the rounded one. *)
Theorem alert_emitted_iff_below_matching_threshold
    (now : Z) (self : Processor) (metric : MetricData) :
  alert_history (track_metric now self metric)
  = alert_history self
    ++ omap (alert_event_for now metric) (alert_thresholds (config self))
  /\ forall (name : string) (threshold : num),
       (is_Some (alert_event_for now metric (name, threshold))
        <-> is_substring name (metric_name metric)
            /\ (value metric <? threshold) = true)
       /\ forall a, alert_event_for now metric (name, threshold) = Some a ->
            alert_timestamp a = now
            /\ alert_metric_name a = metric_name metric
            /\ alert_value a = value metric
            /\ alert_threshold a = threshold
            /\ (alert_severity a = "warning"%string
                <-> (threshold * of_Q 0.8 <? value metric) = true)
            /\ (alert_severity a = "critical"%string
                <-> (threshold * of_Q 0.8 <? value metric) = false).
Proof.
  split; [apply track_metric_alert_events|].
  intros name threshold. unfold alert_event_for. cbn [fst snd].
  rewrite <- contains_spec, <- andb_true_iff.
  destruct (contains name (metric_name metric) && (value metric <? threshold)).
  - split; [split; eauto|].
    intros a [= <-].
    cbn [alert_timestamp alert_metric_name alert_value alert_threshold
         alert_severity].
    do 4 (split; [reflexivity|]).
    destruct (threshold * of_Q 0.8 <? value metric); split; split;
      try reflexivity; discriminate.
  - split; [|discriminate].
    split; [intros [a Ha]; discriminate | discriminate].
Qed.

End RuntimeAlertFacts.

(** In binary64 the product [0.7 * 0.8] is rounded to
    0.5599999999999999, so a value of 0.56 under the threshold 0.7 is a
    "warning"; in exact arithmetic 0.56 is not greater than 0.8 x 0.7 and
    the same point would be "critical".  A value of 0.8 under the
    threshold 1 is "critical" in both, and no alert is raised for a value
    at or above the threshold. *)
Example severity_follows_rounded_product :
  @severities Runtime.binary64 0.7 0.56 = ["warning"]%string
  /\ @severities Runtime.exact 0.7 0.56 = ["critical"]%string
  /\ @severities Runtime.binary64 1 0.8 = ["critical"]%string
  /\ @severities Runtime.exact 1 0.8 = ["critical"]%string
  /\ @severities Runtime.binary64 1 0.9 = ["warning"]%string
  /\ @severities Runtime.binary64 0.7 0.7 = [].
Proof. vm_compute. repeat split. Qed.

(** ** The least-squares line in exact arithmetic *)

Section ExactRegressionFacts.

Import Runtime.






Context `{Arithmetic}.






End ExactRegressionFacts.

Section ExactLineFacts.

Import Runtime.



End ExactLineFacts.

(** ** Trend analysis *)

Section RuntimeTrendFacts.

Import Runtime.

Context `{Arithmetic} `{!Library}.

(** *** The window *)













(** *** The sort *)









(** *** The forecast *)


(** *** The run of an analysis *)





End RuntimeTrendFacts.







(** The run of a trend analysis on 2024-01-01 in binary64 arithmetic.  A
    window of a million days would start before the year 1, and one of
    minus three million days after the year 9999: [OverflowError].  A
    stored point with an aware timestamp cannot be compared with the
    naive start of the window: [TypeError].  A window of minus three days
    is empty.  The three points 1, 3, 5 continue to 7, 9, 11, ... *)
Example trend_analysis_runs :
  match @Runtime.perform_trend_analysis Runtime.binary64 Runtime.binary64_library
          new_year_2024 trend_processor "m" 1000000,
        @Runtime.perform_trend_analysis Runtime.binary64 Runtime.binary64_library
          new_year_2024 trend_processor "m" (-3000000),
        @Runtime.perform_trend_analysis Runtime.binary64 Runtime.binary64_library
          new_year_2024 aware_processor "m" 30,
        @Runtime.perform_trend_analysis Runtime.binary64 Runtime.binary64_library
          new_year_2024 trend_processor "m" (-3),
        @Runtime.perform_trend_analysis Runtime.binary64 Runtime.binary64_library
          new_year_2024 trend_processor "m" 30
  with
  | inl Runtime.OverflowError, inl Runtime.OverflowError, inl Runtime.TypeError,
    inr (Runtime.NoData _), inr (Runtime.Analysis r) =>
      match Runtime.forecast r with
      | Runtime.ForecastOk _ vals _ _ =>
          vals = List.map Runtime.nearest_float [7; 9; 11; 13; 15; 17; 19]
      | _ => False
      end
  | _, _, _, _, _ => False
  end.
Proof. vm_compute. reflexivity. Qed.

(** ** Volatility and anomalies *)

Section RuntimeSeriesFacts.

Import Runtime.

Context `{Arithmetic} `{!Library}.

Local Open Scope num_scope.

(** A [mapM] returns exactly when every call returns, and raises the
    exception of the first call that raises. *)
Lemma mapM_returns {A B} (f : A -> result B) (l : list A) :
  match mapM f l with
  | inr ys =>
      List.length ys = List.length l
      /\ forall x, In x l -> returns (f x)
  | inl e => exists x, In x l /\ f x = inl e
  end.
Proof.
  induction l as [|x l IH]; cbn [mapM].
  - split; [reflexivity | intros x []].
  - destruct (f x) as [e|y] eqn:Hfx; cbn [mbind result_bind].
    + exists x. split; [left; reflexivity | exact Hfx].
    + destruct (mapM f l) as [e|ys]; cbn [mbind result_bind mret result_ret].
      * destruct IH as (x' & Hin & Hx'). exists x'. split; [right|]; assumption.
      * destruct IH as [Hlen Hall]. split; [cbn [List.length]; congruence|].
        intros x' [<- | Hin]; [exists y; exact Hfx | apply Hall, Hin].
Qed.

(** X29.  The volatility of fewer than two values is 0.0, computed without
    any call that could raise.  For two or more values the squares of the
    deviations are taken before the mean is tested against zero: if the
    mean or the square of a deviation raises, so does the volatility --
    also when the mean is 0 -- and if the volatility returns, then all the
    squares have returned, and the result is 0.0 whenever the mean
    compares equal to 0. *)
Theorem volatility_guard_after_squares (values : list num) :
  ((List.length values < 2)%nat -> _calculate_volatility values = inr (of_Q 0))
  /\ ((2 <= List.length values)%nat ->
      (forall e, statistics_mean values = inl e ->
         _calculate_volatility values = inl e)
      /\ forall mean_val, statistics_mean values = inr mean_val ->
           ((exists x, In x values /\ ~ returns (square (x - mean_val))) ->
            ~ returns (_calculate_volatility values))
           /\ forall v, _calculate_volatility values = inr v ->
                (forall x, In x values -> returns (square (x - mean_val)))
                /\ ((mean_val =? of_int 0) = true -> v = of_Q 0)).
Proof.
  unfold _calculate_volatility. split.
  { intros Hlen. apply Nat.ltb_lt in Hlen. rewrite Hlen. reflexivity. }
  intros Hlen. apply Nat.ltb_ge in Hlen. rewrite Hlen. split.
  { intros e ->. reflexivity. }
  intros mean_val ->. cbn [mbind result_bind].
  pose proof (mapM_returns (fun x => square (x - mean_val)) values) as Hsquares.
  destruct (mapM (fun x => square (x - mean_val)) values) as [e|squares];
    cbn [mbind result_bind].
  - destruct Hsquares as (x & Hin & Hx). split.
    + intros _ [v Hv]. discriminate.
    + intros v Hv. discriminate.
  - destruct Hsquares as [_ Hall]. split.
    + intros (x & Hin & Hx) _. apply Hx, Hall, Hin.
    + intros v Hv. split; [exact Hall|].
      destruct (square_root _) as [e|std_dev]; [discriminate|].
      cbn [mbind result_bind mret result_ret] in Hv.
      intros Hzero. rewrite Hzero in Hv. cbn [negb] in Hv.
      injection Hv as <-. reflexivity.
Qed.

(** The anomalies found among the values numbered from [start]. *)
Lemma anomalies_of_enumeration {B} (g : nat * num -> option B)
    (index : B -> nat) (item : B -> num) (start : nat) (values : list num) :
  (forall i v b, g (i, v) = Some b -> index b = i /\ item b = v) ->
  let found := omap g (combine (seq start (List.length values)) values) in
  (List.length found <= List.length values)%nat
  /\ StronglySorted lt (List.map index found)
  /\ Forall (fun b =>
               (start <= index b < start + List.length values)%nat
               /\ nth (index b - start) values (of_int 0) = item b)
            found.
Proof.
  intros Hg. cbv zeta. revert start.
  induction values as [|v values IH]; intros start;
    cbn [List.length seq combine omap list_omap].
  - split; [lia|]. split; constructor.
  - destruct (IH (S start)) as (Hlen & Hsorted & Hall).
    assert (Forall (fun b =>
                      (start <= index b < start + S (List.length values))%nat
                      /\ nth (index b - start) (v :: values) (of_int 0) = item b)
                   (omap g (combine (seq (S start) (List.length values)) values)))
      as Hall'.
    { eapply List.Forall_impl; [|exact Hall]. cbn beta.
      intros b [Hrange Hnth]. split; [lia|].
      replace (index b - start)%nat with (S (index b - S start)) by lia.
      exact Hnth. }
    destruct (g (start, v)) as [b|] eqn:Hb.
    + destruct (Hg _ _ _ Hb) as [Hindex Hitem].
      cbn [List.length List.map]. split; [lia|]. split.
      * constructor; [exact Hsorted|].
        apply List.Forall_forall. intros i Hi.
        apply in_map_iff in Hi as (b' & <- & Hb').
        rewrite List.Forall_forall in Hall. destruct (Hall b' Hb'). lia.
      * constructor; [|exact Hall'].
        rewrite Hindex, Nat.sub_diag. split; [lia | symmetry; exact Hitem].
    + split; [lia|]. split; [exact Hsorted | exact Hall'].
Qed.

(** X28.  Anomaly detection reports nothing for fewer than 5 values,
    without any call that could raise; for 5 or more values it returns
    exactly when [statistics.mean] and [statistics.stdev] return.  The
    reported anomalies are points of the series, listed by increasing
    index, each with the index and the value of its point; the reported
    deviation is the distance [abs(value - mean)] as the code's
    arithmetic computes it, it exceeds twice the standard deviation in
    the code's comparison, and the type is "high" exactly when the value
    compares greater than the mean and "low" otherwise. *)
Theorem anomalies_are_points_of_series (values : list num) :
  ((List.length values < 5)%nat -> _detect_anomalies values = inr [])
  /\ ((5 <= List.length values)%nat ->
      (returns (_detect_anomalies values)
       <-> returns (statistics_mean values)
           /\ returns (statistics_stdev values)))
  /\ forall found, _detect_anomalies values = inr found ->
       (List.length found <= List.length values)%nat
       /\ StronglySorted lt (List.map anomaly_index found)
       /\ Forall (fun a =>
                    (anomaly_index a < List.length values)%nat
                    /\ nth (anomaly_index a) values (of_int 0) = anomaly_value a)
                 found
       /\ forall mean_val std_dev,
            (5 <= List.length values)%nat ->
            statistics_mean values = inr mean_val ->
            statistics_stdev values = inr std_dev ->
            Forall (fun a =>
                      anomaly_deviation a = fabs (anomaly_value a - mean_val)
                      /\ (of_int 2 * std_dev <? anomaly_deviation a) = true
                      /\ (anomaly_type a = "high"%string
                          <-> (mean_val <? anomaly_value a) = true)
                      /\ (anomaly_type a = "low"%string
                          <-> (mean_val <? anomaly_value a) = false))
                   found.
Proof.
  unfold _detect_anomalies. split; [|split].
  - intros Hlen. apply Nat.ltb_lt in Hlen. rewrite Hlen. reflexivity.
  - intros Hlen.
    assert ((List.length values <? 5)%nat = false) as ->
      by (apply Nat.ltb_ge; exact Hlen).
    assert ((1 <? List.length values)%nat = true) as ->
      by (apply Nat.ltb_lt; lia).
    unfold returns.
    destruct (statistics_mean values) as [e|mean_val]; cbn [mbind result_bind].
    { split; [intros [a Ha]; discriminate | intros [[a Ha] _]; discriminate]. }
    destruct (statistics_stdev values) as [e|std_dev]; cbn [mbind result_bind].
    { split; [intros [a Ha]; discriminate | intros [_ [a Ha]]; discriminate]. }
    cbn [mret result_ret]. split; eauto.
  - intros found Hfound.
    destruct (Nat.ltb_spec (List.length values) 5) as [Hshort | Hlong].
    { injection Hfound as <-. cbn [List.length List.map].
      split; [lia|]. split; [constructor|]. split; [constructor|].
      intros mean_val std_dev Hlen. lia. }
    assert ((1 <? List.length values)%nat = true) as Hmany
      by (apply Nat.ltb_lt; lia).
    rewrite Hmany in Hfound.
    destruct (statistics_mean values) as [e|mean_val]; [discriminate|].
    destruct (statistics_stdev values) as [e|std_dev]; [discriminate|].
    cbn [mbind result_bind mret result_ret] in Hfound.
    injection Hfound as <-.
    set (g := fun entry : nat * num =>
                let (i, value) := entry in
                if of_int 2 * std_dev <? fabs (value - mean_val)
                then Some {| anomaly_index := i;
                             anomaly_value := value;
                             anomaly_deviation := fabs (value - mean_val);
                             anomaly_type :=
                               if mean_val <? value then "high"%string
                               else "low"%string |}
                else None).
    destruct (anomalies_of_enumeration g anomaly_index anomaly_value 0 values)
      as (Hlen & Hsorted & Hall).
    { intros i v b. unfold g.
      destruct (of_int 2 * std_dev <? fabs (v - mean_val)); [|discriminate].
      intros [= <-]. split; reflexivity. }
    unfold enumerate, Analytics.range.
    split; [exact Hlen|]. split; [exact Hsorted|]. split.
    { eapply List.Forall_impl; [|exact Hall]. cbn beta.
      intros a [Hrange Hnth]. rewrite Nat.sub_0_r in Hnth. split; [lia | exact Hnth]. }
    intros mean_val' std_dev' _ [= <-] [= <-].
    apply List.Forall_forall. intros a Ha.
    apply list_elem_of_In, list_elem_of_omap in Ha as ([i v] & _ & Hsome).
    unfold g in Hsome.
    destruct (of_int 2 * std_dev <? fabs (v - mean_val)) eqn:Hflag;
      [|discriminate].
    injection Hsome as <-.
    cbn [anomaly_deviation anomaly_value anomaly_type].
    split; [reflexivity|]. split; [exact Hflag|].
    destruct (mean_val <? v); split; split; try reflexivity; discriminate.
Qed.

End RuntimeSeriesFacts.

(** In binary64 the series [1e200, -1e200] has mean 0.0 and its
    volatility raises [OverflowError]: the square of the first deviation
    is too large for a float, and the test [mean_val != 0] comes after
    the squares. *)
Example volatility_of_zero_mean_raises :
  Runtime.binary64_mean
    [Runtime.nearest_float (inject_Z (10 ^ 200));
     Runtime.nearest_float (inject_Z (- 10 ^ 200))]
  = inr PrimFloat.zero
  /\ match @Runtime._calculate_volatility Runtime.binary64
             Runtime.binary64_library
             [Runtime.nearest_float (inject_Z (10 ^ 200));
              Runtime.nearest_float (inject_Z (- 10 ^ 200))]
     with
     | inl Runtime.OverflowError => True
     | _ => False
     end.
Proof. split; vm_compute; [reflexivity | exact I]. Qed.

(** Rounding decides at the boundary.  In the series
    [1, 1, 1, 1, 1.0000000000000002] the mean rounds to 1.0, so binary64
    arithmetic flags the last point as a "high" anomaly.  In the series
    [0.01, 0.0105] the second half lies 5 percent above the first on
    paper, which is "stable", but the rounded change exceeds 5 and
    binary64 arithmetic reports "increasing". *)
Example rounding_decides_at_the_boundary :
  match @Runtime._detect_anomalies Runtime.binary64 Runtime.binary64_library
          (List.map Runtime.nearest_float
             [1; 1; 1; 1; 4503599627370497 # 4503599627370496])
  with
  | inr [a] =>
      Runtime.anomaly_index a = 4%nat
      /\ Runtime.anomaly_type a = "high"%string
  | _ => False
  end
  /\ @Runtime._calculate_trend_direction Runtime.binary64
       Runtime.binary64_library (List.map Runtime.nearest_float [0.01; 0.0105])
     = inr "increasing"%string.
Proof. split; vm_compute; [split; reflexivity | reflexivity]. Qed.
